(** * ModelFrame: a data frame with a designated target column

    Shallow embedding of [expandas/core/frame.py].  [ModelFrame] subclasses
    [pandas.DataFrame]; it adds the name of the target column, a reference to
    the most recently used estimator and four memoized results.  The pandas
    operations the class calls are modelled in [Module pd]; the methods of
    [ModelFrame] follow, one definition per method, under their own names. *)

From Stdlib Require Import ZArith String.
From stdpp Require Import base option list strings pretty gmap.

Local Open Scope string_scope.

(** ** Python values *)

(** Scalars: cell values, row labels, column labels and series names. *)
Inductive scalar :=
| Int (z : Z)
| Str (s : string).

#[global] Instance scalar_eq_dec : EqDecision scalar.
Proof. solve_decision. Defined.

Abbreviation label := scalar (only parsing).
Abbreviation Index := (list scalar) (only parsing).

(** Object identity of an estimator: Python's [is] compares these. *)
Definition loc := nat.

(** The exceptions that occur in the modelled code.  [IndexingError] and
    [IndexError] come from pandas when a frame whose internals are
    one-dimensional is used as a table. *)
Inductive exn :=
| ValueError (msg : string)
| TypeError (msg : string)
| AttributeError (msg : string)
| UnboundLocalError (msg : string)
| IndexError (msg : string)
| IndexingError (msg : string)
| OtherError (msg : string).

Inductive outcome (A : Type) :=
| Ok (a : A)
| Raise (e : exn).
Arguments Ok {A} a.
Arguments Raise {A} e.

#[global] Instance outcome_ret : MRet outcome := λ A a, Ok a.
#[global] Instance outcome_fmap : FMap outcome := λ A B f m,
  match m with Ok a => Ok (f a) | Raise e => Raise e end.
#[global] Instance outcome_bind : MBind outcome := λ A B f m,
  match m with Ok a => f a | Raise e => Raise e end.

Definition is_ValueError {A} (o : outcome A) : bool :=
  match o with Raise (ValueError _) => true | _ => false end.

(** ** The pandas model *)

Record Series := mkSeries {
  s_name : option label;
  s_index : Index;
  s_values : list scalar
}.

(** A two-dimensional table, column-major: the row labels and, in column
    order, each column's label and cells. *)
Record Table := mkTable {
  t_index : Index;
  t_cols : list (label * list scalar)
}.

(** A [pandas.DataFrame] object is its block manager [_data]: normally
    two-dimensional, but [_update_inplace] installs whatever it is given,
    also the one-dimensional manager of a [Series]. *)
Inductive DataFrame :=
| Blocks2D (t : Table)
| Block1D (s : Series).

Module pd.

Definition RangeIndex (n : nat) : Index := (λ i, Int (Z.of_nat i)) <$> seq 0 n.

(** [pd.Series(values, name=name)] and [pd.Series(values, name=name,
    index=index)] for a one-dimensional list or array of [values]. *)
Definition Series_new (values : list scalar) (name : option label)
    (index : option Index) : outcome Series :=
  match index with
  | None => Ok (mkSeries name (RangeIndex (length values)) values)
  | Some idx =>
      if decide (length values = length idx)
      then Ok (mkSeries name idx values)
      else Raise (ValueError "Length of passed values does not match index")
  end.

(** [pd.Series(series, name=name)]. *)
Definition Series_rename (s : Series) (name : option label) : Series :=
  mkSeries name (s_index s) (s_values s).

(** [len(series)]: the length of its only axis. *)
Definition len_series (s : Series) : nat := length (s_index s).

(** Column [j] of a row-major array; [None] when a row is too short. *)
Definition column_of (rows : list (list scalar)) (j : nat) : option (list scalar) :=
  mapM (λ row : list scalar, row !! j) rows.

Definition ncols (rows : list (list scalar)) : nat :=
  match rows with [] => 0 | row :: _ => length row end.

(** [pd.DataFrame(array, index=index, columns=columns)] for a row-major
    two-dimensional array. *)
Definition DataFrame_new (rows : list (list scalar))
    (index columns : option Index) : outcome DataFrame :=
  let idx := default (RangeIndex (length rows)) index in
  let cols := default (RangeIndex (ncols rows)) columns in
  if negb (bool_decide (length idx = length rows)) then
    Raise (ValueError "Shape of passed values does not match index")
  else if negb (bool_decide (length cols = ncols rows)) then
    Raise (ValueError "Shape of passed values does not match columns")
  else
    match mapM (column_of rows) (seq 0 (ncols rows)) with
    | Some cs => Ok (Blocks2D (mkTable idx (zip cols cs)))
    | None => Raise (ValueError "setting an array element with a sequence")
    end.

(** [series.to_frame()]; an unnamed series becomes column [0]. *)
Definition to_frame (s : Series) : DataFrame :=
  Blocks2D (mkTable (s_index s) [(default (Int 0) (s_name s), s_values s)]).

(** [df.columns]: axis 0 of the block manager, which for a one-dimensional
    manager is the series' index. *)
Definition columns (df : DataFrame) : Index :=
  match df with
  | Blocks2D t => (t_cols t).*1
  | Block1D s => s_index s
  end.

(** [df.index]: axis 1 of the block manager. *)
Definition index (df : DataFrame) : outcome Index :=
  match df with
  | Blocks2D t => Ok (t_index t)
  | Block1D _ => Raise (IndexError "list index out of range")
  end.

(** [len(df)] is [len(df.index)]. *)
Definition len (df : DataFrame) : outcome nat := length <$> index df.

(** [a.equals(b)] on two indexes. *)
Definition equals (a b : Index) : bool := bool_decide (a = b).

(** [df.loc[:, labels]] for a list of labels: for every requested label,
    the columns that carry it. *)
Definition loc_columns (df : DataFrame) (labels : Index) : outcome DataFrame :=
  match df with
  | Blocks2D t =>
      Ok (Blocks2D (mkTable (t_index t)
            (labels ≫= λ l, filter (λ c, c.1 = l) (t_cols t))))
  | Block1D _ => Raise (IndexingError "Too many indexers")
  end.

(** [df.loc[:, name]] for a label that one column of [df] carries: that
    column as a series.  (When several columns carry the label pandas
    returns a frame; the properties below that read the target assume
    unique column labels.) *)
Definition loc_column (df : DataFrame) (name : label) : outcome Series :=
  match df with
  | Blocks2D t =>
      match list_find (λ c, c.1 = name) (t_cols t) with
      | Some (_, c) => Ok (mkSeries (Some name) (t_index t) c.2)
      | None => Raise (OtherError "KeyError")
      end
  | Block1D _ => Raise (IndexingError "Too many indexers")
  end.

(** [pd.concat([target, data], axis=1)] for a series and a frame with
    equal indexes: the series becomes the first column. *)
Definition concat (target : Series) (data : DataFrame) : outcome DataFrame :=
  match data with
  | Blocks2D t =>
      Ok (Blocks2D (mkTable (t_index t)
            ((default (Int 0) (s_name target), s_values target) :: t_cols t)))
  | Block1D _ => Raise (IndexError "list index out of range")
  end.

(** Rows of a column-major table. *)
Fixpoint transpose (n : nat) (cols : list (list scalar)) : list (list scalar) :=
  match n with
  | O => []
  | S n' => omap head cols :: transpose n' (tail <$> cols)
  end.

(** [df.values]: the cells as a row-major array.  The class takes it only
    of the result of [.loc], which is two-dimensional. *)
Definition values (df : DataFrame) : outcome (list (list scalar)) :=
  match df with
  | Blocks2D t => Ok (transpose (length (t_index t)) (t_cols t).*2)
  | Block1D s => Ok ((λ v, [v]) <$> s_values s)
  end.

End pd.

(** [pd.DataFrame] or [pd.Series]: what [_concat_target] returns and what
    [pd.DataFrame.__init__] and [_update_inplace] accept. *)
Inductive NDFrame :=
| IsFrame (df : DataFrame)
| IsSeries (s : Series).

(** [pd.DataFrame.__init__(self, df)] without further arguments: a frame
    keeps its block manager, a series becomes a one-column frame. *)
Definition DataFrame_init (df : NDFrame) : DataFrame :=
  match df with
  | IsFrame d => d
  | IsSeries s => pd.to_frame s
  end.

(** ** Objects returned by estimators and held in the caches *)

(** What a method of an estimator returns: [None], a number, a one- or
    two-dimensional array, or an estimator. *)
Inductive raw :=
| RNone
| RScalar (x : scalar)
| RArray1 (xs : list scalar)
| RArray2 (rows : list (list scalar))
| RRef (l : loc).

Inductive pyobj :=
| PyNone
| PyScalar (x : scalar)
| PyArray1 (xs : list scalar)
| PyArray2 (rows : list (list scalar))
| PyRef (l : loc)
| PySeries (s : Series)
| PyFrame (df : DataFrame).

Definition is_None (o : pyobj) : bool :=
  match o with PyNone => true | _ => false end.

Definition of_raw (r : raw) : pyobj :=
  match r with
  | RNone => PyNone
  | RScalar x => PyScalar x
  | RArray1 xs => PyArray1 xs
  | RArray2 rows => PyArray2 rows
  | RRef l => PyRef l
  end.

(** ** The class *)

(** The attributes of an instance: the inherited block manager and the six
    [_internal_names] the class adds.  [None] is [PyNone] in the caches and
    [None] in [_estimator]. *)
Record ModelFrame := mkModelFrame {
  _data : DataFrame;
  _target_name : label;
  _estimator : option loc;
  _predicted : pyobj;
  _proba : pyobj;
  _log_proba : pyobj;
  _decision : pyobj
}.

Definition _TARGET_NAME : label := Str ".target".

(** The [data] argument of the constructor and of the [data] setter:
    [None], a two-dimensional array, a [pd.DataFrame] or a [ModelFrame]
    (scikit-learn [Bunch] objects are not covered). *)
Inductive data_arg :=
| DNone
| DArray (rows : list (list scalar))
| DDataFrame (df : DataFrame)
| DModelFrame (mf : ModelFrame).

(** The [target] argument: [None], a column label (a scalar, not
    list-like), a one-dimensional list or array, or a [pd.Series]. *)
Inductive target_arg :=
| TNone
| TLabel (l : label)
| TList (vs : list scalar)
| TSeries (s : Series).

(** [com.is_list_like(target)]. *)
Definition is_list_like (target : target_arg) : bool :=
  match target with
  | TList _ | TSeries _ => true
  | TNone | TLabel _ => false
  end.

(** [target] as [_maybe_convert_data] returns it: every list-like target has
    become a series by then. *)
Inductive converted :=
| CNone
| CLabel (l : label)
| CSeries (s : Series).

(** [isinstance(data, pd.DataFrame)]: a [ModelFrame] passes as the
    [pd.DataFrame] it is. *)
Definition as_DataFrame (data : data_arg) : option DataFrame :=
  match data with
  | DDataFrame d => Some d
  | DModelFrame mf => Some (_data mf)
  | DNone | DArray _ => None
  end.

(** [isinstance(target, pd.Series)]. *)
Definition as_Series (target : target_arg) : option Series :=
  match target with
  | TSeries s => Some s
  | TNone | TLabel _ | TList _ => None
  end.

(** The conversion both branches of [_maybe_convert_data] apply to a target
    that is not a series: a list-like target becomes a series named
    [target_name], on the data's index when there is data. *)
Definition convert_target (data : option DataFrame) (target : target_arg)
    (target_name : label) : outcome converted :=
  match target with
  | TList vs =>
      match data with
      | Some d =>
          index ← pd.index d;
          CSeries <$> pd.Series_new vs (Some target_name) (Some index)
      | None => CSeries <$> pd.Series_new vs (Some target_name) None
      end
  | TSeries s => Ok (CSeries s)
  | TLabel l => Ok (CLabel l)
  | TNone => Ok CNone
  end.

(** [_maybe_convert_data(data, target, target_name)], called without further
    positional or keyword arguments. *)
Definition _maybe_convert_data (data : data_arg) (target : target_arg)
    (target_name : label) : outcome (option DataFrame * converted) :=
  match as_DataFrame data, as_Series target with
  | None, None =>
      d ← match data with
          | DArray rows => Some <$> pd.DataFrame_new rows None None
          | _ => Ok None
          end;
      t ← convert_target d target target_name;
      Ok (d, t)
  | None, Some s =>
      d ← match data with
          | DArray rows =>
              let index := s_index s in
              Some <$> pd.DataFrame_new rows (Some index) None
          | _ => Ok None
          end;
      Ok (d, CSeries s)
  | Some d, None =>
      t ← convert_target (Some d) target target_name;
      Ok (Some d, t)
  | Some d, Some s =>
      (* no conversion required *)
      Ok (Some d, CSeries s)
  end.

Definition must_have_either : exn :=
  ValueError "ModelFrame must have either data or target".

Definition _concat_target (data : option DataFrame) (target : option Series)
    : outcome NDFrame :=
  match data, target with
  | None, None => Raise must_have_either
  | None, Some t => Ok (IsSeries t)
  | Some d, None => Ok (IsFrame d)
  | Some d, Some t =>
      n ← pd.len d;
      if negb (bool_decide (n = pd.len_series t)) then
        Raise (ValueError "data and target must have same length")
      else
        index ← pd.index d;
        if negb (pd.equals index (s_index t)) then
          Raise (ValueError "data and target must have equal index")
        else IsFrame <$> pd.concat t d
  end.

(** [str.format] of a label. *)
Definition format_label (l : label) : string :=
  match l with
  | Str s => s
  | Int z => pretty z
  end.

Definition not_included (target : label) : exn :=
  ValueError ("Specified target '" +:+ format_label target +:+ "' is not included in data").

Definition data_is_None (data : data_arg) : bool :=
  match data with DNone => true | _ => false end.

Definition target_is_None (target : target_arg) : bool :=
  match target with TNone => true | _ => false end.

(** [ModelFrame(data, target)], without further arguments. *)
Definition __init__ (data : data_arg) (target : target_arg) : outcome ModelFrame :=
  if data_is_None data && target_is_None target then
    Raise must_have_either
  else if data_is_None data && negb (is_list_like target) then
    Raise (ValueError "target must be list-like when data is None")
  else
    (* retrieve target_name *)
    let '(target_name, target) :=
      match data, target with
      | DModelFrame mf, _ => (_target_name mf, target)
      | _, TSeries s =>
          match s_name s with
          | Some n => (n, target)
          | None =>
              (_TARGET_NAME, TSeries (pd.Series_rename s (Some _TARGET_NAME)))
          end
      | _, _ => (_TARGET_NAME, target)
      end in
    '(data, target) ← _maybe_convert_data data target target_name;
    '(target_name, df) ←
      match target with
      | CLabel l =>
          (* target is not None and not list-like *)
          match data with
          | Some d =>
              if bool_decide (l ∈ pd.columns d) then Ok (l, IsFrame d)
              else Raise (not_included l)
          | None =>
              Raise (AttributeError "'NoneType' object has no attribute 'columns'")
          end
      | CNone => df ← _concat_target data None; Ok (target_name, df)
      | CSeries s => df ← _concat_target data (Some s); Ok (target_name, df)
      end;
    Ok (mkModelFrame (DataFrame_init df) target_name None
          PyNone PyNone PyNone PyNone).

(** [self._constructor(block_manager)], as pandas calls it to build the
    result of an indexing operation on [self]: a fresh instance around the
    given internals. *)
Definition _constructor (d : DataFrame) : ModelFrame :=
  mkModelFrame d _TARGET_NAME None PyNone PyNone PyNone PyNone.

(** ** Views *)

Definition target_name (self : ModelFrame) : label := _target_name self.

Definition columns (self : ModelFrame) : Index := pd.columns (_data self).

Definition _data_columns (self : ModelFrame) : Index :=
  filter (λ c, c ≠ target_name self) (columns self).

Definition has_data (self : ModelFrame) : bool :=
  bool_decide (0 < length (_data_columns self)).

Definition has_target (self : ModelFrame) : bool :=
  bool_decide (target_name self ∈ columns self).

(** The [data] property: [self.loc[:, self._data_columns]] or [None]. *)
Definition data (self : ModelFrame) : outcome (option ModelFrame) :=
  if has_data self then
    d ← pd.loc_columns (_data self) (_data_columns self);
    Ok (Some (_constructor d))
  else Ok None.

(** The [target] property: [self.loc[:, self.target_name]] or [None]. *)
Definition target (self : ModelFrame) : outcome (option Series) :=
  if has_target self then Some <$> pd.loc_column (_data self) (target_name self)
  else Ok None.

(** ** Estimators and the world a method runs in *)

(** What a method of an estimator is called with: the feature array, the
    keyword argument [y] when it is passed, and the caller's further
    positional and keyword arguments. *)
Record call_args := mkArgs {
  arg_X : list (list scalar);
  arg_y : option (list scalar);
  arg_args : list pyobj;
  arg_kwargs : list (string * pyobj)
}.

(** A method of an estimator: from the estimator's internal state and the
    arguments to what the call returns or raises, and the new state. *)
Definition method := list scalar → call_args → outcome raw * list scalar.

(** An estimator object, opaque but for its class name, its attributes
    that are methods, its [classes_] and an internal state. *)
Record Estimator := mkEstimator {
  class_name : string;
  methods : list (string * method);
  classes_ : option Index;
  est_state : list scalar
}.

(** One invocation of an estimator's method, as recorded in [calls]. *)
Record call := mkCall {
  call_on : loc;
  call_method : string;
  call_with : call_args
}.

(** The instance [self], the estimator objects by identity, the invocations
    made so far (latest first) and the warnings issued (latest first). *)
Record World := mkWorld {
  self : ModelFrame;
  heap : gmap loc Estimator;
  calls : list call;
  warnings : list string
}.

(** Computations that read and write the world and may raise; what was
    written before an exception stays written. *)
Definition M (A : Type) : Type := World → outcome A * World.

#[global] Instance M_ret : MRet M := λ A a w, (Ok a, w).
#[global] Instance M_fmap : FMap M := λ A B f m w,
  match m w with
  | (Ok a, w') => (Ok (f a), w')
  | (Raise e, w') => (Raise e, w')
  end.
#[global] Instance M_bind : MBind M := λ A B f m w,
  match m w with
  | (Ok a, w') => f a w'
  | (Raise e, w') => (Raise e, w')
  end.

Definition raise {A} (e : exn) : M A := λ w, (Raise e, w).

Definition lift {A} (o : outcome A) : M A := λ w, (o, w).

Definition get_self : M ModelFrame := λ w, (Ok (self w), w).

Definition modify_self (f : ModelFrame → ModelFrame) : M unit := λ w,
  (Ok (), mkWorld (f (self w)) (heap w) (calls w) (warnings w)).

(** [warnings.warn(msg)]. *)
Definition warn (msg : string) : M unit := λ w,
  (Ok (), mkWorld (self w) (heap w) (calls w) (msg :: warnings w)).

(** [try: body except TypeError: handler]. *)
Definition try_except_TypeError {A} (body handler : M A) : M A := λ w,
  match body w with
  | (Raise (TypeError _), w') => handler w'
  | r => r
  end.

(** [try: body except ValueError: handler]. *)
Definition try_except_ValueError {A} (body handler : M A) : M A := λ w,
  match body w with
  | (Raise (ValueError _), w') => handler w'
  | r => r
  end.

(** ** Mutation of the table *)

Definition set_data (d : DataFrame) (mf : ModelFrame) : ModelFrame :=
  mkModelFrame d (_target_name mf) (_estimator mf)
    (_predicted mf) (_proba mf) (_log_proba mf) (_decision mf).

(** [self._update_inplace(result)]: pandas replaces the internals of [self]
    by those of [result], [self._data = getattr(result, '_data', result)],
    whether [result] is a frame or a series. *)
Definition _update_inplace (result : NDFrame) : M unit :=
  modify_self (set_data match result with
                        | IsFrame d => d
                        | IsSeries s => Block1D s
                        end).

(** The setter of [target_name]. *)
Definition target_name_setter (value : label) : M unit :=
  modify_self (λ mf, mkModelFrame (_data mf) value (_estimator mf)
    (_predicted mf) (_proba mf) (_log_proba mf) (_decision mf)).

(** The deleter of [data]. *)
Definition data_deleter : M unit :=
  self ← get_self;
  if has_target self then
    t ← lift (target self);
    match t with
    | Some t => _update_inplace (IsFrame (pd.to_frame t))
    | None => raise (AttributeError "'NoneType' object has no attribute 'to_frame'")
    end
  else raise must_have_either.

(** The deleter of [target]. *)
Definition target_deleter : M unit :=
  self ← get_self;
  if has_data self then
    d ← lift (data self);
    match d with
    | Some d => _update_inplace (IsFrame (_data d))
    | None =>
        (* not reached: [data] is not [None] when [has_data] holds *)
        raise (OtherError "data is None")
    end
  else raise must_have_either.

Definition data_arg_of (d : option ModelFrame) : data_arg :=
  match d with Some mf => DModelFrame mf | None => DNone end.

Definition target_arg_of (t : option Series) : target_arg :=
  match t with Some s => TSeries s | None => TNone end.

Definition series_of (t : converted) : option Series :=
  match t with CSeries s => Some s | CNone | CLabel _ => None end.

(** The setter of [target], by the kind of value assigned. *)
Definition target_setter (target : target_arg) : M unit :=
  match target with
  | TNone =>
      (* target is None: del self.target *)
      target_deleter
  | TLabel l =>
      (* not a series, not list-like *)
      self ← get_self;
      if bool_decide (l ∈ columns self) then target_name_setter l
      else raise (not_included l)
  | TList vs =>
      (* list-like, not a series *)
      self ← get_self;
      d ← lift (data self);
      '(_, target) ← lift (_maybe_convert_data (data_arg_of d) (TList vs)
                             (target_name self));
      d ← lift (data self);
      df ← lift (_concat_target (_data <$> d) (series_of target));
      _update_inplace df
  | TSeries s =>
      self ← get_self;
      (* allow to update target_name only when target attribute doesn't exist *)
      (if negb (has_target self) then
         match s_name s with
         | Some name => target_name_setter name
         | None => mret ()
         end
       else mret ());;
      self ← get_self;
      target ←
        (if bool_decide (s_name s ≠ Some (target_name self)) then
           warn ("Passed data is being renamed to '"
                 +:+ format_label (target_name self) +:+ "'");;
           mret (pd.Series_rename s (Some (target_name self)))
         else mret s);
      d ← lift (data self);
      df ← lift (_concat_target (_data <$> d) (Some target));
      _update_inplace df
  end.

(** The setter of [data]. *)
Definition data_setter (data : data_arg) : M unit :=
  if data_is_None data then data_deleter
  else
    (match data with
     | DModelFrame mf =>
         if has_target mf then
           raise (ValueError "Cannot update with ModelFrame which has target attribute")
         else mret ()
     | _ => mret ()
     end);;
    self ← get_self;
    t ← lift (target self);
    '(data, _) ← lift (_maybe_convert_data data (target_arg_of t)
                         (target_name self));
    match data with
    | None => raise (AttributeError "'NoneType' object has no attribute 'columns'")
    | Some d =>
        if bool_decide (target_name self ∈ pd.columns d) then
          raise (ValueError ("Passed data has the same column name as the target '"
                             +:+ format_label (target_name self) +:+ "'"))
        else if has_target self then
          t ← lift (target self);
          df ← lift (_concat_target (Some d) t);
          _update_inplace df
        else _update_inplace (IsFrame d)
    end.

(** ** The estimator and its memoized results *)

Definition estimator (self : ModelFrame) : option loc := _estimator self.

(** The setter of [estimator]: [if not self._estimator is value]. *)
Definition estimator_setter (value : option loc) : M unit :=
  self ← get_self;
  if negb (bool_decide (_estimator self = value)) then
    modify_self (λ mf,
      (* reset other properties *)
      mkModelFrame (_data mf) (_target_name mf) value
        PyNone PyNone PyNone PyNone)
  else mret ().

Definition set_predicted (v : pyobj) (mf : ModelFrame) : ModelFrame :=
  mkModelFrame (_data mf) (_target_name mf) (_estimator mf)
    v (_proba mf) (_log_proba mf) (_decision mf).

Definition set_proba (v : pyobj) (mf : ModelFrame) : ModelFrame :=
  mkModelFrame (_data mf) (_target_name mf) (_estimator mf)
    (_predicted mf) v (_log_proba mf) (_decision mf).

Definition set_log_proba (v : pyobj) (mf : ModelFrame) : ModelFrame :=
  mkModelFrame (_data mf) (_target_name mf) (_estimator mf)
    (_predicted mf) (_proba mf) v (_decision mf).

Definition set_decision (v : pyobj) (mf : ModelFrame) : ModelFrame :=
  mkModelFrame (_data mf) (_target_name mf) (_estimator mf)
    (_predicted mf) (_proba mf) (_log_proba mf) v.

(** ** Dispatch *)

(** A method bound to its estimator. *)
Record bound_method := mkBound {
  bm_self : loc;
  bm_name : string;
  bm_func : method
}.

(** [estimator.__class__.__name__]. *)
Definition class_name_of (h : gmap loc Estimator) (estimator : option loc) : string :=
  match estimator with
  | Some l => default "object" (class_name <$> h !! l)
  | None => "NoneType"
  end.

(** [getattr(estimator, method_name)] when [hasattr(estimator, method_name)]. *)
Definition getattr (h : gmap loc Estimator) (estimator : option loc)
    (method_name : string) : option bound_method :=
  l ← estimator;
  e ← h !! l;
  '(_, c) ← list_find (λ m, m.1 = method_name) (methods e);
  Some (mkBound l method_name c.2).

(** [_check_attr]; in the text of the error the class name stands where
    Python prints the type object, [type(estimator)]. *)
Definition _check_attr (estimator : option loc) (method_name : string)
    : M bound_method := λ w,
  match getattr (heap w) estimator method_name with
  | None =>
      (Raise (ValueError ("class " +:+ class_name_of (heap w) estimator
                +:+ " doesn't have " +:+ method_name +:+ " method")), w)
  | Some m => (Ok m, w)
  end.

Definition set_state (st : list scalar) (e : Estimator) : Estimator :=
  mkEstimator (class_name e) (methods e) (classes_ e) st.

(** The call [method(X, y=..., *args, **kwargs)]: it is recorded, runs on
    the estimator's current state and leaves the estimator in the state the
    method produced. *)
Definition invoke (m : bound_method) (a : call_args) : M raw := λ w,
  let st := default [] (est_state <$> heap w !! bm_self m) in
  let '(r, st') := bm_func m st a in
  (r, mkWorld (self w) (alter (set_state st') (bm_self m) (heap w))
        (mkCall (bm_self m) (bm_name m) a :: calls w) (warnings w)).

Definition _call (estimator : option loc) (method_name : string)
    (args : list pyobj) (kwargs : list (string * pyobj)) : M raw :=
  method ← _check_attr estimator method_name;
  self ← get_self;
  d ← lift (data self);
  data ← match d with
         | Some d => lift (pd.values (_data d))
         | None => raise (AttributeError "'NoneType' object has no attribute 'values'")
         end;
  result ←
    (if has_target self then
       t ← lift (target self);
       target ← match t with
                | Some t => mret (s_values t)
                | None => raise (AttributeError "'NoneType' object has no attribute 'values'")
                end;
       try_except_TypeError
         (invoke method (mkArgs data (Some target) args kwargs))
         (invoke method (mkArgs data None args kwargs))
     else
       (* not try to pass target if it doesn't exists *)
       invoke method (mkArgs data None args kwargs));
  estimator_setter estimator;;
  mret result.

Definition fit (estimator : option loc) (args : list pyobj)
    (kwargs : list (string * pyobj)) : M raw :=
  _call estimator "fit" args kwargs.

Definition score (estimator : option loc) (args : list pyobj)
    (kwargs : list (string * pyobj)) : M raw :=
  _call estimator "score" args kwargs.

(** Modelled from the spec: [expandas/core/series.py], which defines
    [ModelSeries], is not among the sources.  [ModelSeries(values,
    index=index)] wraps a raw return value into a row-aligned series; as
    for [pd.Series], a one-dimensional array must have the index's length
    and a number is repeated along the index.  What [pd.Series] does with
    [None], a two-dimensional array or an object is not covered: the
    definition raises there, and no property below relies on it. *)
Definition ModelSeries_new (values : raw) (index : Index) : outcome Series :=
  match values with
  | RArray1 xs => pd.Series_new xs None (Some index)
  | RScalar x => Ok (mkSeries None index (replicate (length index) x))
  | RNone | RArray2 _ | RRef _ => Raise (OtherError "Data must be 1-dimensional")
  end.

(** [array.shape]. *)
Definition shape (a : raw) : outcome (list nat) :=
  match a with
  | RArray1 xs => Ok [length xs]
  | RArray2 rows => Ok [length rows; pd.ncols rows]
  | RNone | RScalar _ | RRef _ =>
      Raise (AttributeError "object has no attribute 'shape'")
  end.

(** [self._constructor(array, index=index, columns=columns)]: with array
    data and no target, [ModelFrame.__init__] hands the array and the
    keyword arguments to [pd.DataFrame]; the new instance has the default
    target name and no estimator. *)
Definition _constructor_array (a : raw) (index : Index) (columns : option Index)
    : outcome DataFrame :=
  match a with
  | RArray1 xs => pd.DataFrame_new ((λ v, [v]) <$> xs) (Some index) columns
  | RArray2 rows => pd.DataFrame_new rows (Some index) columns
  | RNone | RScalar _ | RRef _ =>
      Raise (OtherError "DataFrame constructor not properly called!")
  end.

Definition get_class_name (estimator : option loc) : M string := λ w,
  (Ok (class_name_of (heap w) estimator), w).

(** [estimator.classes_]. *)
Definition get_classes_ (estimator : option loc) : M Index := λ w,
  match e ← (l ← estimator; heap w !! l); classes_ e with
  | Some cs => (Ok cs, w)
  | None => (Raise (AttributeError "object has no attribute 'classes_'"), w)
  end.

(** Wrapper for predict methods. *)
Definition _wrap_predicted (predicted : raw) (estimator : option loc) : M pyobj :=
  predicted ←
    try_except_ValueError
      (self ← get_self;
       index ← lift (pd.index (_data self));
       PySeries <$> lift (ModelSeries_new predicted index))
      (name ← get_class_name estimator;
       warn ("Unable to instantiate ModelSeries for '" +:+ name +:+ "'");;
       mret (of_raw predicted));
  modify_self (set_predicted predicted);;
  self ← get_self;
  mret (_predicted self).

(** Wrapper for probability methods. *)
Definition _wrap_probability (probability : raw) (estimator : option loc)
    : M pyobj :=
  try_except_ValueError
    (shape ← lift (shape probability);
     self ← get_self;
     if bool_decide (length shape < 2) || bool_decide (shape !! 1 = Some 1) then
       (* 2 class *)
       index ← lift (pd.index (_data self));
       PyFrame <$> lift (_constructor_array probability index None)
     else
       index ← lift (pd.index (_data self));
       columns ← get_classes_ estimator;
       PyFrame <$> lift (_constructor_array probability index (Some columns)))
    (name ← get_class_name estimator;
     warn ("Unable to instantiate ModelFrame for '" +:+ name +:+ "'");;
     mret (of_raw probability)).

Section Dispatch.

(** [skaccessors.GaussianProcessMethods._predict], the one entry of
    [_mapper]; [expandas/skaccessors] is not among the sources, so the
    function is a parameter.  It receives [self] through the world. *)
Variable GaussianProcess_predict :
  option loc → list pyobj → list (string * pyobj) → M pyobj.

Definition mapped := option loc → list pyobj → list (string * pyobj) → M pyobj.

Definition _mapper : list (string * list (string * mapped)) :=
  [("fit", []); ("predict", [("GaussianProcess", GaussianProcess_predict)])].

Definition dict_get {V} (d : list (string * V)) (key : string) : option V :=
  snd <$> (snd <$> list_find (λ kv, kv.1 = key) d).

Definition _get_mapper (estimator : option loc) (method_name : string)
    : M (option mapped) :=
  match dict_get _mapper method_name with
  | Some mapper =>
      name ← get_class_name estimator;
      mret (dict_get mapper name)
  | None =>
      raise (UnboundLocalError "local variable 'mapper' referenced before assignment")
  end.

Definition predict (estimator : option loc) (args : list pyobj)
    (kwargs : list (string * pyobj)) : M pyobj :=
  mapped ← _get_mapper estimator "predict";
  match mapped with
  | Some mapped =>
      result ← mapped estimator args kwargs;
      (* save estimator when succeeded *)
      estimator_setter estimator;;
      mret result
  | None =>
      predicted ← _call estimator "predict" args kwargs;
      _wrap_predicted predicted estimator
  end.

Definition fit_predict (estimator : option loc) (args : list pyobj)
    (kwargs : list (string * pyobj)) : M pyobj :=
  predicted ← _call estimator "fit_predict" args kwargs;
  _wrap_predicted predicted estimator.

Definition predict_proba (estimator : option loc) (args : list pyobj)
    (kwargs : list (string * pyobj)) : M pyobj :=
  probability ← _call estimator "predict_proba" args kwargs;
  wrapped ← _wrap_probability probability estimator;
  modify_self (set_proba wrapped);;
  self ← get_self;
  mret (_proba self).

Definition predict_log_proba (estimator : option loc) (args : list pyobj)
    (kwargs : list (string * pyobj)) : M pyobj :=
  probability ← _call estimator "predict_log_proba" args kwargs;
  wrapped ← _wrap_probability probability estimator;
  modify_self (set_log_proba wrapped);;
  self ← get_self;
  mret (_log_proba self).

Definition decision_function (estimator : option loc) (args : list pyobj)
    (kwargs : list (string * pyobj)) : M pyobj :=
  decision ← _call estimator "decision_function" args kwargs;
  wrapped ← _wrap_probability decision estimator;
  modify_self (set_decision wrapped);;
  self ← get_self;
  mret (_decision self).

(** The [predicted] property: the memoized prediction, computed with the
    attached estimator on first use. *)
Definition predicted : M pyobj :=
  self ← get_self;
  (if is_None (_predicted self) then
     result ← predict (estimator self) [] [];
     modify_self (set_predicted result);;
     self ← get_self;
     name ← get_class_name (estimator self);
     warn ("Automatically call '" +:+ name
           +:+ ".predict()'' to get predicted results")
   else mret ());;
  self ← get_self;
  mret (_predicted self).

(** The [proba] property. *)
Definition proba : M pyobj :=
  self ← get_self;
  (if is_None (_proba self) then
     result ← predict_proba (estimator self) [] [];
     modify_self (set_proba result);;
     self ← get_self;
     name ← get_class_name (estimator self);
     warn ("Automatically call '" +:+ name
           +:+ ".predict_proba()' to get probabilities")
   else mret ());;
  self ← get_self;
  mret (_proba self).

(** The [log_proba] property. *)
Definition log_proba : M pyobj :=
  self ← get_self;
  (if is_None (_log_proba self) then
     result ← predict_log_proba (estimator self) [] [];
     modify_self (set_log_proba result);;
     self ← get_self;
     name ← get_class_name (estimator self);
     warn ("Automatically call '" +:+ name
           +:+ ".predict_log_proba()' to get log probabilities")
   else mret ());;
  self ← get_self;
  mret (_log_proba self).

(** The [decision] property. *)
Definition decision : M pyobj :=
  self ← get_self;
  (if is_None (_decision self) then
     result ← decision_function (estimator self) [] [];
     modify_self (set_decision result);;
     self ← get_self;
     name ← get_class_name (estimator self);
     warn ("Automatically call '" +:+ name
           +:+ ".decition_function()' to get decision function")
   else mret ());;
  self ← get_self;
  mret (_decision self).

End Dispatch.

(** * Auxiliary definitions *)

(** ** What an operation leaves *)

(** A computation that leaves the instance as it found it, whatever it
    returns or raises. *)
Definition keeps_self {A} (m : M A) : Prop := ∀ w, self (m w).2 = self w.

(** The world with other internals in the instance. *)
Definition with_data (d : DataFrame) (w : World) : World :=
  mkWorld (set_data d (self w)) (heap w) (calls w) (warnings w).

(** What the setter of [estimator] leaves. *)
Definition attached (value : option loc) (w : World) : World :=
  if bool_decide (_estimator (self w) = value) then w
  else mkWorld
         (mkModelFrame (_data (self w)) (_target_name (self w)) value
            PyNone PyNone PyNone PyNone)
         (heap w) (calls w) (warnings w).

(** The name the constructor gives the target column of a frame: the
    [ModelFrame]'s target name, else the default. *)
Definition init_name (data : data_arg) : label :=
  match data with
  | DModelFrame mf => _target_name mf
  | _ => _TARGET_NAME
  end.

(** ** Example tables *)

Definition rows01 : Index := [Int 0; Int 1].

(** Two feature columns [a] and [b] and the target column [y]. *)
Definition table_yab : Table :=
  mkTable rows01
    [(Str "y", [Int 0; Int 1]); (Str "a", [Int 1; Int 2]); (Str "b", [Int 3; Int 4])].

Definition frame_yab : ModelFrame :=
  mkModelFrame (Blocks2D table_yab) (Str "y") None PyNone PyNone PyNone PyNone.

(** The feature columns alone; the target name names no column. *)
Definition frame_ab : ModelFrame :=
  mkModelFrame
    (Blocks2D (mkTable rows01 [(Str "a", [Int 1; Int 2]); (Str "b", [Int 3; Int 4])]))
    (Str "y") None PyNone PyNone PyNone PyNone.

(** The target column alone. *)
Definition frame_y : ModelFrame :=
  mkModelFrame (Blocks2D (mkTable rows01 [(Str "y", [Int 0; Int 1])]))
    (Str "y") None PyNone PyNone PyNone PyNone.

(** The feature columns of [frame_yab] as the [data] property returns
    them, and their values. *)
Definition features_ab : ModelFrame :=
  _constructor
    (Blocks2D (mkTable rows01 [(Str "a", [Int 1; Int 2]); (Str "b", [Int 3; Int 4])])).

Definition X_ab : list (list scalar) := [[Int 1; Int 3]; [Int 2; Int 4]].

(** A series on other row labels than [rows01]. *)
Definition series_xy : Series :=
  mkSeries (Some (Str "t")) [Str "x"; Str "y"] [Int 5; Int 6].

(** Two other feature columns, [c] and [d], on the same row labels, and
    the instance [pandas] builds around them. *)
Definition table_cd : Table :=
  mkTable rows01 [(Str "c", [Int 7; Int 8]); (Str "d", [Int 9; Int 10])].

Definition frame_cd : ModelFrame := _constructor (Blocks2D table_cd).

(** A series named [t] on the row labels [rows01]. *)
Definition series_t : Series :=
  mkSeries (Some (Str "t")) rows01 [Int 5; Int 6].

(** A series of that name with one row only. *)
Definition series_short : Series := mkSeries (Some (Str "t")) [Int 0] [Int 5].

(** The target of [frame_yab] as the [target] property returns it. *)
Definition series_y : Series := mkSeries (Some (Str "y")) rows01 [Int 0; Int 1].

(** ** Example estimators *)

(** [predict(self, X)]: a keyword argument [y] is rejected. *)
Definition predict_X : method := λ st a,
  match arg_y a with
  | Some _ =>
      (Raise (TypeError "predict() got an unexpected keyword argument 'y'"), st)
  | None => (Ok (RArray1 [Int 0; Int 1]), st)
  end.

(** A stub estimator exposing only [fit] and [predict]; as usual, [fit]
    takes [y] and [predict] does not. *)
Definition stub : Estimator :=
  mkEstimator "Stub"
    [("fit", λ st a, (Ok RNone, st)); ("predict", predict_X)]
    None [].

(** A two-class classifier; its methods take [y]. *)
Definition classifier : Estimator :=
  mkEstimator "Classifier"
    [("fit", λ st a, (Ok RNone, st));
     ("predict", λ st a, (Ok (RArray1 [Int 1; Int 0]), st));
     ("predict_proba", λ st a,
        (Ok (RArray2 [[Int 0; Int 1]; [Int 1; Int 0]]), st))]
    (Some [Int 0; Int 1]) [].

Definition two_estimators : gmap loc Estimator :=
  {[ 1 := classifier; 2 := stub ]}.

(** The stub's [predict], bound. *)
Definition stub_predict : bound_method := mkBound 2 "predict" predict_X.

(** A world in which estimator [1] is attached and all four results are
    memoized. *)
Definition cached_frame : ModelFrame :=
  mkModelFrame (Blocks2D table_yab) (Str "y") (Some 1)
    (PyArray1 [Int 0; Int 1]) (PyArray1 [Int 1; Int 0])
    (PyArray1 [Int 0; Int 0]) (PyArray1 [Int 1; Int 1]).

Definition cached_world : World := mkWorld cached_frame two_estimators [] [].

(** A world in which nothing was dispatched yet. *)
Definition fresh_world : World := mkWorld frame_yab two_estimators [] [].

(** The same around the table that has the target column alone. *)
Definition target_only_world : World := mkWorld frame_y two_estimators [] [].

(** An estimator whose [fit] raises, attached nowhere, in a world where
    estimator [1] is attached. *)
Definition broken : Estimator :=
  mkEstimator "Broken"
    [("fit", λ st a, (Raise (ValueError "bad input"), st))] None [].

Definition broken_world : World :=
  mkWorld cached_frame {[ 3 := broken ]} [] [].

(** A classifier with the whole probability family; [decision_function]
    returns one score per row. *)
Definition scorer : Estimator :=
  mkEstimator "Scorer"
    [("fit", λ st a, (Ok RNone, st));
     ("predict", λ st a, (Ok (RArray1 [Int 1; Int 0]), st));
     ("fit_predict", λ st a, (Ok (RArray1 [Int 1; Int 1]), st));
     ("predict_proba", λ st a,
        (Ok (RArray2 [[Int 0; Int 1]; [Int 1; Int 0]]), st));
     ("predict_log_proba", λ st a,
        (Ok (RArray2 [[Int (-9); Int 0]; [Int 0; Int (-9)]]), st));
     ("decision_function", λ st a, (Ok (RArray1 [Int 3; Int (-3)]), st))]
    (Some [Str "no"; Str "yes"]) [].

(** The same, but without [classes_]. *)
Definition unlabelled : Estimator :=
  mkEstimator "Unlabelled" (methods scorer) None [].

Definition scorer_world : World :=
  mkWorld cached_frame {[ 4 := scorer; 5 := unlabelled ]} [] [].

(** Estimator [4] attached, nothing memoized yet. *)
Definition scored_frame : ModelFrame :=
  mkModelFrame (Blocks2D table_yab) (Str "y") (Some 4)
    PyNone PyNone PyNone PyNone.

Definition lazy_world : World :=
  mkWorld scored_frame {[ 4 := scorer; 5 := unlabelled ]} [] [].

(** What a memoized result is after a dispatch with [estimator] that
    started in [w]: kept when the estimator is the one attached, unset
    otherwise. *)
Definition kept_or_reset (w : World) (estimator : option loc) (v : pyobj)
    : pyobj :=
  if bool_decide (_estimator (self w) = estimator) then v else PyNone.

(** ** What the estimator side of an instance is *)

(** The attached estimator and the four memoized results. *)
Definition memo (mf : ModelFrame) : option loc * pyobj * pyobj * pyobj * pyobj :=
  (_estimator mf, _predicted mf, _proba mf, _log_proba mf, _decision mf).

(** A computation that leaves the estimator side as it found it, whatever
    it returns or raises: the attached estimator, the memoized results, the
    estimator objects and the record of invocations. *)
Definition keeps_memo {A} (m : M A) : Prop :=
  ∀ w, memo (self (m w).2) = memo (self w)
       ∧ heap (m w).2 = heap w
       ∧ calls (m w).2 = calls w.

(** ** The operations on the table *)

(** Assignment to and deletion of [data] and [target], and assignment to
    [target_name]. *)
Inductive operation :=
| SetData (value : data_arg)
| DelData
| SetTarget (value : target_arg)
| DelTarget
| SetTargetName (value : label).

Definition run (op : operation) : M unit :=
  match op with
  | SetData value => data_setter value
  | DelData => data_deleter
  | SetTarget value => target_setter value
  | DelTarget => target_deleter
  | SetTargetName value => target_name_setter value
  end.

(** * Properties *)

(** ** Columns selected by label *)

Section Columns.

Implicit Types (cols : list (label * list scalar)) (l : label).

Lemma filter_label_nil cols l :
  l ∉ cols.*1 → filter (λ c, c.1 = l) cols = [].
Proof.
  induction cols as [|c cols IH]; [done|].
  rewrite fmap_cons, not_elem_of_cons. intros [Hne Hnotin].
  rewrite filter_cons_False by (simpl; congruence). by apply IH.
Qed.

Lemma filter_label_singleton cols (c : label * list scalar) :
  NoDup cols.*1 → c ∈ cols → filter (λ c', c'.1 = c.1) cols = [c].
Proof.
  induction cols as [|c0 cols IH]; intros Hnd Hin.
  - by apply elem_of_nil in Hin.
  - rewrite fmap_cons in Hnd. apply NoDup_cons in Hnd as [Hnotin Hnd].
    apply elem_of_cons in Hin as [->|Hin].
    + rewrite filter_cons_True by done. by rewrite filter_label_nil.
    + rewrite filter_cons_False; [by apply IH|].
      simpl. intros Heq. apply Hnotin. rewrite Heq.
      by apply list_elem_of_fmap_2.
Qed.

Lemma bind_filter_labels (P : label → Prop) `{!∀ l, Decision (P l)}
    (g : label → list (label * list scalar)) cols :
  (∀ c, c ∈ cols → g c.1 = [c]) →
  filter P cols.*1 ≫= g = filter (λ c, P c.1) cols.
Proof.
  induction cols as [|c cols IH]; intros Hg; [done|].
  rewrite fmap_cons. destruct (decide (P c.1)) as [HP|HP].
  - rewrite !filter_cons_True by done. rewrite bind_cons, Hg by left.
    simpl. f_equal. apply IH. intros c' Hc'. apply Hg. by right.
  - rewrite !filter_cons_False by done. apply IH.
    intros c' Hc'. apply Hg. by right.
Qed.

(** With unique column labels, [.loc] by the labels that satisfy [P] keeps
    exactly the columns whose label satisfies [P], in order. *)
Lemma loc_columns_filter (P : label → Prop) `{!∀ l, Decision (P l)} t :
  NoDup (t_cols t).*1 →
  pd.loc_columns (Blocks2D t) (filter P (t_cols t).*1)
  = Ok (Blocks2D (mkTable (t_index t) (filter (λ c, P c.1) (t_cols t)))).
Proof.
  intros Hnd. unfold pd.loc_columns. do 3 f_equal.
  apply bind_filter_labels. intros c Hc. by apply filter_label_singleton.
Qed.

(** Without the assumption, every selected column is one of the table's and
    carries a requested label. *)
Lemma elem_of_loc_columns t labels (c : label * list scalar) :
  c ∈ (labels ≫= λ l, filter (λ c, c.1 = l) (t_cols t))
  ↔ c ∈ t_cols t ∧ c.1 ∈ labels.
Proof.
  rewrite list_elem_of_bind. split.
  - intros (l & Hc & Hl). apply list_elem_of_filter in Hc as [<- Hc]. done.
  - intros [Hc Hl]. exists c.1. split; [|done].
    by apply list_elem_of_filter.
Qed.

End Columns.

(** ** Construction *)

(** C6: constructing with neither data nor target raises a value error at
    once, and so does constructing without data when the target is not
    list-like; no empty table is produced. *)
Theorem init_without_data_raises :
  __init__ DNone TNone
    = Raise (ValueError "ModelFrame must have either data or target")
  ∧ ∀ l, __init__ DNone (TLabel l)
    = Raise (ValueError "target must be list-like when data is None").
Proof. split; [reflexivity|intros l; reflexivity]. Qed.

Lemma data_columns_singleton d tn e p q r s :
  pd.columns d = [tn] →
  _data_columns (mkModelFrame d tn e p q r s) = [].
Proof.
  intros Hc. unfold _data_columns, columns, target_name. simpl. rewrite Hc.
  rewrite filter_cons_False; [done|]. intros Hne. by apply Hne.
Qed.

(** C8: constructed without data from a list-like target, the table has no
    data and has a target: its only column is the target column. *)
Theorem init_target_only target :
  is_list_like target = true →
  ∃ mf, __init__ DNone target = Ok mf
        ∧ has_data mf = false
        ∧ has_target mf = true
        ∧ columns mf = [target_name mf].
Proof.
  destruct target as [|l|vs|s]; try discriminate; intros _.
  - eexists. split; [reflexivity|]. split_and!.
    + unfold has_data. by rewrite data_columns_singleton.
    + unfold has_target. apply bool_decide_eq_true. simpl. by left.
    + reflexivity.
  - unfold __init__. simpl. destruct (s_name s) as [n|] eqn:Hn; simpl.
    + eexists. split; [reflexivity|]. split_and!.
      * unfold has_data. rewrite data_columns_singleton; [done|].
        simpl. by rewrite Hn.
      * unfold has_target, columns, target_name. apply bool_decide_eq_true.
        simpl. rewrite Hn. by left.
      * unfold columns, target_name. simpl. by rewrite Hn.
    + eexists. split; [reflexivity|]. split_and!.
      * unfold has_data. by rewrite data_columns_singleton.
      * unfold has_target. apply bool_decide_eq_true. simpl. by left.
      * reflexivity.
Qed.

Lemma init_target_only_witness :
  ∃ mf, __init__ DNone (TList [Int 5; Int 6]) = Ok mf
        ∧ has_data mf = false
        ∧ has_target mf = true
        ∧ columns mf = [target_name mf].
Proof. apply (init_target_only (TList [Int 5; Int 6])). reflexivity. Defined.

(** ** Views *)

(** C10: without feature columns the [data] accessor returns [None], not
    an empty table, and when the target name is no column the [target]
    accessor returns [None] instead of raising. *)
Theorem accessors_return_None :
  (∀ self, has_data self = false → data self = Ok None)
  ∧ (∀ self, target_name self ∉ columns self → target self = Ok None).
Proof.
  split; intros self H.
  - unfold data. by rewrite H.
  - unfold target, has_target. by rewrite bool_decide_eq_false_2.
Qed.

Lemma accessors_return_None_witness :
  data frame_y = Ok None ∧ target frame_ab = Ok None.
Proof.
  split.
  - apply (proj1 accessors_return_None). reflexivity.
  - apply (proj2 accessors_return_None).
    apply (bool_decide_eq_false_1 (target_name frame_ab ∈ columns frame_ab)).
    reflexivity.
Defined.

(** ** Reasoning about computations *)

Lemma bind_Ok_inv {A B} (m : M A) (f : A → M B) w b w' :
  (m ≫= f) w = (Ok b, w') →
  ∃ a w1, m w = (Ok a, w1) ∧ f a w1 = (Ok b, w').
Proof.
  unfold mbind, M_bind. destruct (m w) as [[a|e] w1]; [eauto|discriminate].
Qed.

Lemma bind_run {A B} (m : M A) (f : A → M B) w a w1 :
  m w = (Ok a, w1) → (m ≫= f) w = f a w1.
Proof. unfold mbind, M_bind. by intros ->. Qed.

Lemma bind_run_raise {A B} (m : M A) (f : A → M B) w e w1 :
  m w = (Raise e, w1) → (m ≫= f) w = (Raise e, w1).
Proof. unfold mbind, M_bind. by intros ->. Qed.

Lemma lift_Ok_inv {A} (o : outcome A) w a w' :
  lift o w = (Ok a, w') → o = Ok a ∧ w' = w.
Proof. unfold lift. by intros [= -> ->]. Qed.

Lemma keeps_self_ret {A} (a : A) : keeps_self (mret a).
Proof. done. Qed.

Lemma keeps_self_raise {A} e : keeps_self (@raise A e).
Proof. done. Qed.

Lemma keeps_self_lift {A} (o : outcome A) : keeps_self (lift o).
Proof. done. Qed.

Lemma keeps_self_get_self : keeps_self get_self.
Proof. done. Qed.

Lemma keeps_self_warn msg : keeps_self (warn msg).
Proof. done. Qed.

Lemma keeps_self_bind {A B} (m : M A) (f : A → M B) :
  keeps_self m → (∀ a, keeps_self (f a)) → keeps_self (m ≫= f).
Proof.
  intros Hm Hf w. unfold mbind, M_bind. specialize (Hm w).
  destruct (m w) as [[a|e] w1]; simpl in *; [|done].
  by rewrite Hf.
Qed.

Lemma keeps_self_check_attr estimator method_name :
  keeps_self (_check_attr estimator method_name).
Proof. intros w. unfold _check_attr. by destruct (getattr _ _ _). Qed.

Lemma keeps_self_invoke m a : keeps_self (invoke m a).
Proof. intros w. unfold invoke. by destruct (bm_func m _ a). Qed.

Lemma keeps_self_try_TypeError {A} (body handler : M A) :
  keeps_self body → keeps_self handler →
  keeps_self (try_except_TypeError body handler).
Proof.
  intros Hb Hh w. unfold try_except_TypeError. specialize (Hb w).
  destruct (body w) as [[a|[]] w1]; simpl in *; try done.
  by rewrite Hh.
Qed.

Lemma keeps_self_try_ValueError {A} (body handler : M A) :
  keeps_self body → keeps_self handler →
  keeps_self (try_except_ValueError body handler).
Proof.
  intros Hb Hh w. unfold try_except_ValueError. specialize (Hb w).
  destruct (body w) as [[a|[]] w1]; simpl in *; try done.
  by rewrite Hh.
Qed.

Lemma keeps_self_fmap {A B} (f : A → B) (m : M A) :
  keeps_self m → keeps_self (f <$> m).
Proof.
  intros Hm w. unfold fmap, M_fmap. specialize (Hm w).
  by destruct (m w) as [[a|e] w1].
Qed.

Lemma keeps_self_get_class_name estimator :
  keeps_self (get_class_name estimator).
Proof. done. Qed.

Lemma keeps_self_get_classes_ estimator : keeps_self (get_classes_ estimator).
Proof. intros w. unfold get_classes_. by destruct (_ ≫= _). Qed.

Create HintDb keeps_self.
#[local] Hint Resolve keeps_self_ret keeps_self_raise keeps_self_lift
  keeps_self_get_self keeps_self_warn keeps_self_check_attr
  keeps_self_invoke keeps_self_get_class_name keeps_self_get_classes_
  : keeps_self.

Ltac keeps_self :=
  repeat first
    [ apply keeps_self_bind; [|intros ?]
    | apply keeps_self_try_TypeError
    | apply keeps_self_try_ValueError
    | apply keeps_self_fmap
    | solve [eauto with keeps_self]
    | match goal with
      | |- keeps_self (match ?x with _ => _ end) => destruct x
      | |- keeps_self (if ?b then _ else _) => destruct b
      end ].

(** ** The estimator reference and its caches *)

Lemma estimator_setter_run value w :
  estimator_setter value w = (Ok (), attached value w).
Proof.
  unfold estimator_setter, attached, mbind, M_bind, get_self. simpl.
  by destruct (bool_decide _).
Qed.

Lemma attached_estimator value w : _estimator (self (attached value w)) = value.
Proof.
  unfold attached. destruct (bool_decide _) eqn:H; [|done].
  by apply bool_decide_eq_true in H.
Qed.

Lemma attached_data value w :
  _data (self (attached value w)) = _data (self w)
  ∧ _target_name (self (attached value w)) = _target_name (self w).
Proof. unfold attached. by destruct (bool_decide _). Qed.

Lemma attached_same value w :
  _estimator (self w) = value → attached value w = w.
Proof. intros H. unfold attached. by rewrite bool_decide_eq_true_2. Qed.

Lemma attached_other value w :
  _estimator (self w) ≠ value →
  _predicted (self (attached value w)) = PyNone
  ∧ _proba (self (attached value w)) = PyNone
  ∧ _log_proba (self (attached value w)) = PyNone
  ∧ _decision (self (attached value w)) = PyNone.
Proof. intros H. unfold attached. by rewrite bool_decide_eq_false_2. Qed.

(** C9: assigning to [estimator] the very object that is attached changes
    nothing, the four memoized results included; assigning any other
    reference attaches it and resets all four, and touches nothing else. *)
Theorem estimator_setter_is_identity_guarded :
  (∀ w value, _estimator (self w) = value →
     estimator_setter value w = (Ok (), w))
  ∧ (∀ w value, _estimator (self w) ≠ value →
       ∃ w', estimator_setter value w = (Ok (), w')
         ∧ _estimator (self w') = value
         ∧ _predicted (self w') = PyNone
         ∧ _proba (self w') = PyNone
         ∧ _log_proba (self w') = PyNone
         ∧ _decision (self w') = PyNone
         ∧ _data (self w') = _data (self w)
         ∧ _target_name (self w') = _target_name (self w)).
Proof.
  split; intros w value H.
  - by rewrite estimator_setter_run, attached_same.
  - exists (attached value w). rewrite estimator_setter_run.
    pose proof (attached_other value w H) as (?&?&?&?).
    pose proof (attached_data value w) as [? ?].
    by rewrite attached_estimator.
Qed.

Lemma estimator_setter_is_identity_guarded_witness :
  estimator_setter (Some 1) cached_world = (Ok (), cached_world)
  ∧ ∃ w', estimator_setter (Some 2) cached_world = (Ok (), w')
      ∧ _estimator (self w') = Some 2
      ∧ _predicted (self w') = PyNone
      ∧ _proba (self w') = PyNone
      ∧ _log_proba (self w') = PyNone
      ∧ _decision (self w') = PyNone
      ∧ _data (self w') = _data (self cached_world)
      ∧ _target_name (self w') = _target_name (self cached_world).
Proof.
  split.
  - apply (proj1 estimator_setter_is_identity_guarded). reflexivity.
  - apply (proj2 estimator_setter_is_identity_guarded). discriminate.
Defined.

(** ** Dispatch *)

Lemma keeps_self_run {A} (m : M A) w r w1 :
  keeps_self m → m w = (r, w1) → self w1 = self w.
Proof. intros Hm Hr. specialize (Hm w). by rewrite Hr in Hm. Qed.

(** A successful [_call] leaves the instance as the setter of [estimator]
    leaves the instance it started from. *)
Lemma _call_Ok_inv estimator method_name args kwargs w r w' :
  _call estimator method_name args kwargs w = (Ok r, w') →
  ∃ w1, self w1 = self w ∧ w' = attached estimator w1.
Proof.
  unfold _call. intros H.
  apply bind_Ok_inv in H as (m & w1 & H1 & H).
  apply keeps_self_run in H1; [|keeps_self].
  apply bind_Ok_inv in H as (s & w2 & H2 & H).
  apply keeps_self_run in H2; [|keeps_self].
  apply bind_Ok_inv in H as (d & w3 & H3 & H).
  apply keeps_self_run in H3; [|keeps_self].
  apply bind_Ok_inv in H as (X & w4 & H4 & H).
  apply keeps_self_run in H4; [|keeps_self].
  apply bind_Ok_inv in H as (res & w5 & H5 & H).
  apply keeps_self_run in H5; [|keeps_self].
  rewrite (bind_run _ _ _ _ _ (estimator_setter_run _ _)) in H.
  injection H as _ <-. exists w5. split; [congruence|done].
Qed.

Lemma keeps_self_wrap_probability probability estimator :
  keeps_self (_wrap_probability probability estimator).
Proof. unfold _wrap_probability. keeps_self. Qed.

(** A wrapped probability is never [None]. *)
Lemma _wrap_probability_not_None probability estimator w p w' :
  _wrap_probability probability estimator w = (Ok p, w') → p ≠ PyNone.
Proof.
  unfold _wrap_probability, try_except_ValueError. intros H.
  match type of H with match ?b w with _ => _ end = _ =>
    destruct (b w) as [[a|[]] w1] eqn:Hb end; try discriminate.
  - injection H as <- <-.
    apply bind_Ok_inv in Hb as (sh & w2 & _ & Hb).
    apply bind_Ok_inv in Hb as (s & w3 & _ & Hb).
    destruct (_ || _);
      apply bind_Ok_inv in Hb as (idx & w4 & _ & Hb).
    + unfold fmap, M_fmap, lift in Hb.
      destruct (_constructor_array _ _ _); by inversion Hb.
    + apply bind_Ok_inv in Hb as (cs & w5 & _ & Hb).
      unfold fmap, M_fmap, lift in Hb.
      destruct (_constructor_array _ _ _); by inversion Hb.
  - unfold mbind, M_bind, get_class_name, warn, mret, M_ret in H.
    injection H as <- <-.
    destruct probability; try done;
      unfold mbind, M_bind, lift, shape in Hb; discriminate.
Qed.

Lemma _wrap_predicted_Ok_inv predicted estimator w r w' :
  _wrap_predicted predicted estimator w = (Ok r, w') →
  self w' = set_predicted r (self w).
Proof.
  unfold _wrap_predicted. intros H.
  apply bind_Ok_inv in H as (p & w1 & H1 & H).
  apply keeps_self_run in H1; [|keeps_self].
  unfold mbind, M_bind, modify_self, get_self, mret, M_ret in H. simpl in H.
  injection H as <- <-. simpl. by rewrite H1.
Qed.

Section DispatchProperties.

Variable GaussianProcess_predict : mapped.

Lemma _get_mapper_predict estimator w :
  _get_mapper GaussianProcess_predict estimator "predict" w
  = (Ok (if decide (class_name_of (heap w) estimator = "GaussianProcess")
         then Some GaussianProcess_predict else None), w).
Proof.
  unfold _get_mapper.
  assert (dict_get (_mapper GaussianProcess_predict) "predict"
          = Some [("GaussianProcess", GaussianProcess_predict)]) as ->
    by (vm_compute; reflexivity).
  unfold mbind, M_bind, get_class_name, mret, M_ret.
  do 2 f_equal. unfold dict_get. simpl.
  destruct (decide (class_name_of (heap w) estimator = "GaussianProcess"))
    as [->|Hne].
  - by rewrite decide_True.
  - by rewrite decide_False by congruence.
Qed.

(** Whichever way [predict] goes, it ends by attaching the estimator. *)
Lemma predict_Ok_estimator estimator args kwargs w r w' :
  predict GaussianProcess_predict estimator args kwargs w = (Ok r, w') →
  _estimator (self w') = estimator.
Proof.
  unfold predict. intros H.
  rewrite (bind_run _ _ _ _ _ (_get_mapper_predict _ _)) in H.
  destruct (decide _).
  - apply bind_Ok_inv in H as (res & w1 & _ & H).
    rewrite (bind_run _ _ _ _ _ (estimator_setter_run _ _)) in H.
    injection H as _ <-. apply attached_estimator.
  - apply bind_Ok_inv in H as (p & w1 & H1 & H).
    apply _call_Ok_inv in H1 as (w0 & _ & ->).
    apply _wrap_predicted_Ok_inv in H. rewrite H. simpl.
    apply attached_estimator.
Qed.

(** Through [_call], [predict] stores its own result after the estimator
    was attached. *)
Lemma predict_Ok_unmapped estimator args kwargs w r w' :
  class_name_of (heap w) estimator ≠ "GaussianProcess" →
  predict GaussianProcess_predict estimator args kwargs w = (Ok r, w') →
  ∃ w1, self w1 = self w ∧ self w' = set_predicted r (self (attached estimator w1)).
Proof.
  unfold predict. intros Hc H.
  rewrite (bind_run _ _ _ _ _ (_get_mapper_predict _ _)) in H.
  rewrite decide_False in H by done.
  apply bind_Ok_inv in H as (p & w1 & H1 & H).
  apply _call_Ok_inv in H1 as (w0 & Hw0 & ->).
  apply _wrap_predicted_Ok_inv in H. eauto.
Qed.

Lemma predict_proba_Ok_inv estimator args kwargs w p w' :
  predict_proba estimator args kwargs w = (Ok p, w') →
  p ≠ PyNone
  ∧ ∃ w1, self w1 = self w ∧ self w' = set_proba p (self (attached estimator w1)).
Proof.
  unfold predict_proba. intros H.
  apply bind_Ok_inv in H as (pr & w1 & H1 & H).
  apply _call_Ok_inv in H1 as (w0 & Hw0 & ->).
  apply bind_Ok_inv in H as (wrapped & w2 & H2 & H).
  pose proof (_wrap_probability_not_None _ _ _ _ _ H2) as Hnn.
  apply keeps_self_run in H2; [|apply keeps_self_wrap_probability].
  unfold mbind, M_bind, modify_self, get_self, mret, M_ret in H. simpl in H.
  injection H as <- <-. split; [done|]. exists w0. simpl. by rewrite H2.
Qed.

End DispatchProperties.

(** C1, as it holds: a successful dispatch attaches the estimator it was
    given and leaves the table alone; when that estimator is not the very
    object attached before, all four memoized results are unset when the
    dispatch returns, and when it is the same object the instance is as it
    was.  In particular [predict] with another estimator after a successful
    [predict_proba] finds a memoized [proba], unsets it and stores its own
    result in [predicted]. *)
Theorem dispatch_attaches_estimator (GaussianProcess_predict : mapped) :
  (∀ w estimator method_name args kwargs r w',
     _call estimator method_name args kwargs w = (Ok r, w') →
     _estimator (self w') = estimator
     ∧ _data (self w') = _data (self w)
     ∧ _target_name (self w') = _target_name (self w)
     ∧ (_estimator (self w) ≠ estimator →
          _predicted (self w') = PyNone ∧ _proba (self w') = PyNone
          ∧ _log_proba (self w') = PyNone ∧ _decision (self w') = PyNone)
     ∧ (_estimator (self w) = estimator → self w' = self w))
  ∧ (∀ w e1 e2 args1 kwargs1 args2 kwargs2 p w1 r w2,
       predict_proba e1 args1 kwargs1 w = (Ok p, w1) →
       predict GaussianProcess_predict e2 args2 kwargs2 w1 = (Ok r, w2) →
       e1 ≠ e2 →
       class_name_of (heap w1) e2 ≠ "GaussianProcess" →
       (_proba (self w1) = p ∧ p ≠ PyNone)
       ∧ _estimator (self w2) = e2
       ∧ _proba (self w2) = PyNone
       ∧ _log_proba (self w2) = PyNone
       ∧ _decision (self w2) = PyNone
       ∧ _predicted (self w2) = r).
Proof.
  split.
  - intros w e name args kwargs r w' H.
    apply _call_Ok_inv in H as (w0 & Hw0 & ->).
    pose proof (attached_data e w0) as [Hd Hn]. rewrite Hw0 in Hd, Hn.
    split_and!; try done.
    + apply attached_estimator.
    + intros Hne. apply attached_other. by rewrite Hw0.
    + intros Heq. rewrite attached_same; [done|]. by rewrite Hw0.
  - intros w e1 e2 args1 kwargs1 args2 kwargs2 p w1 r w2 Hp Hr Hne Hc.
    apply predict_proba_Ok_inv in Hp as (Hnn & w0 & Hw0 & Hw1).
    assert (_estimator (self w1) = e1) as He1.
    { rewrite Hw1. simpl. apply attached_estimator. }
    pose proof (predict_Ok_estimator _ _ _ _ _ _ _ Hr) as He2.
    apply predict_Ok_unmapped in Hr as (w3 & Hw3 & Hw2); [|done].
    assert (_estimator (self w3) ≠ e2) as Hne3 by (rewrite Hw3; congruence).
    pose proof (attached_other e2 w3 Hne3) as (?&?&?&?).
    rewrite Hw2. simpl. split_and!; try done.
    + by rewrite Hw1.
    + apply attached_estimator.
Qed.

Lemma dispatch_attaches_estimator_witness :
  (let w' := (fit (Some 2) [] [] fresh_world).2 in
   _estimator (self w') = Some 2
   ∧ _data (self w') = _data (self fresh_world)
   ∧ _target_name (self w') = _target_name (self fresh_world)
   ∧ (_estimator (self fresh_world) ≠ Some 2 →
        _predicted (self w') = PyNone ∧ _proba (self w') = PyNone
        ∧ _log_proba (self w') = PyNone ∧ _decision (self w') = PyNone)
   ∧ (_estimator (self fresh_world) = Some 2 → self w' = self fresh_world))
  ∧ (let w1 := (predict_proba (Some 1) [] [] fresh_world).2 in
     let p := PyFrame (Blocks2D (mkTable rows01
                [(Int 0, [Int 0; Int 1]); (Int 1, [Int 1; Int 0])])) in
     let w2 := (predict (λ _ _ _, mret PyNone) (Some 2) [] [] w1).2 in
     (_proba (self w1) = p ∧ p ≠ PyNone)
     ∧ _estimator (self w2) = Some 2
     ∧ _proba (self w2) = PyNone
     ∧ _log_proba (self w2) = PyNone
     ∧ _decision (self w2) = PyNone
     ∧ _predicted (self w2)
       = PySeries (mkSeries None rows01 [Int 0; Int 1])).
Proof.
  split.
  - apply (proj1 (dispatch_attaches_estimator (λ _ _ _, mret PyNone))
             fresh_world (Some 2) "fit" [] [] RNone).
    vm_compute. reflexivity.
  - apply (proj2 (dispatch_attaches_estimator (λ _ _ _, mret PyNone))
             fresh_world (Some 1) (Some 2) [] [] [] []).
    + vm_compute. reflexivity.
    + vm_compute. reflexivity.
    + discriminate.
    + vm_compute. discriminate.
Defined.

(** C1 as worded fails: dispatching with the estimator that is already
    attached resets nothing.  In [cached_world] estimator [1] is attached;
    [fit] with estimator [1] succeeds and [proba] is still memoized. *)
Lemma dispatch_same_estimator_keeps_caches :
  ¬ (∀ w estimator args kwargs r w',
       fit estimator args kwargs w = (Ok r, w') →
       _estimator (self w') = estimator
       ∧ _predicted (self w') = PyNone ∧ _proba (self w') = PyNone
       ∧ _log_proba (self w') = PyNone ∧ _decision (self w') = PyNone).
Proof.
  intros H.
  destruct (H cached_world (Some 1) [] [] RNone
              (fit (Some 1) [] [] cached_world).2) as (_ & _ & Hproba & _).
  - vm_compute. reflexivity.
  - vm_compute in Hproba. discriminate.
Qed.

(** ** What the estimator is called with *)

Lemma getattr_Some_inv h estimator method_name m :
  getattr h estimator method_name = Some m →
  estimator = Some (bm_self m) ∧ bm_name m = method_name
  ∧ is_Some (h !! bm_self m).
Proof.
  unfold getattr. destruct estimator as [l|]; [|done]. simpl.
  destruct (h !! l) as [e|] eqn:He; [|done]. simpl.
  destruct (list_find _ _) as [[i c]|]; [|done]. simpl.
  intros [= <-]. simpl. by rewrite He.
Qed.

(** When [data] is a table, the instance is two-dimensional. *)
Lemma data_Some_inv self0 d :
  data self0 = Ok (Some d) →
  ∃ t, _data self0 = Blocks2D t ∧ has_data self0 = true.
Proof.
  unfold data. destruct (has_data self0); [|done].
  destruct (_data self0) as [t|s]; [eauto|done].
Qed.

(** In a two-dimensional instance that has a target, [target] is the first
    column that carries the target name, on the table's index. *)
Lemma target_2D self0 t :
  _data self0 = Blocks2D t → has_target self0 = true →
  ∃ cells, (target_name self0, cells) ∈ t_cols t
    ∧ target self0
      = Ok (Some (mkSeries (Some (target_name self0)) (t_index t) cells)).
Proof.
  intros Hd Ht. unfold target. rewrite Ht.
  unfold has_target, columns in Ht. rewrite Hd in Ht.
  apply bool_decide_eq_true in Ht. simpl in Ht.
  apply list_elem_of_fmap in Ht as ([l cells] & Hl & Hin). simpl in Hl.
  rewrite Hd. unfold pd.loc_column.
  destruct (list_find (λ c, c.1 = target_name self0) (t_cols t))
    as [[i [l' cells']]|] eqn:Hf.
  - apply list_find_Some in Hf as (Hi & Hl' & _). simpl in Hl'. subst l'.
    exists cells'. split; [|done]. by eapply list_elem_of_lookup_2.
  - apply list_find_None in Hf. rewrite Forall_forall in Hf.
    by specialize (Hf _ Hin).
Qed.

Lemma invoke_run m a w :
  invoke m a w
  = ((bm_func m (default [] (est_state <$> heap w !! bm_self m)) a).1,
     mkWorld (self w)
       (alter (set_state (bm_func m (default [] (est_state <$> heap w !! bm_self m)) a).2)
          (bm_self m) (heap w))
       (mkCall (bm_self m) (bm_name m) a :: calls w) (warnings w)).
Proof. unfold invoke. by destruct (bm_func m _ a). Qed.

(** With the method found and the feature values at hand, [_call] comes
    down to the invocations and the attachment. *)
Lemma _call_run w estimator method_name args kwargs m d X :
  getattr (heap w) estimator method_name = Some m →
  data (self w) = Ok (Some d) →
  pd.values (_data d) = Ok X →
  _call estimator method_name args kwargs w
  = ((if has_target (self w) then
        t ← lift (target (self w));
        target ← match t with
                 | Some t => mret (s_values t)
                 | None => raise (AttributeError "'NoneType' object has no attribute 'values'")
                 end;
        try_except_TypeError
          (invoke m (mkArgs X (Some target) args kwargs))
          (invoke m (mkArgs X None args kwargs))
      else invoke m (mkArgs X None args kwargs))
     ≫= λ result, estimator_setter estimator;; mret result) w.
Proof.
  intros Hm Hd HX. unfold _call.
  erewrite bind_run by (unfold _check_attr; by rewrite Hm).
  erewrite bind_run by reflexivity.
  erewrite bind_run by (unfold lift; by rewrite Hd).
  erewrite bind_run by (unfold lift; by rewrite HX).
  reflexivity.
Qed.

(** After the invocations, attaching the estimator changes neither the
    result nor the record of calls. *)
Lemma then_attach_run (m : M raw) estimator w :
  ((m ≫= λ result, estimator_setter estimator;; mret result) w).1 = (m w).1
  ∧ calls ((m ≫= λ result, estimator_setter estimator;; mret result) w).2
    = calls (m w).2.
Proof.
  destruct (m w) as [[r|e] w1] eqn:Hm.
  - rewrite (bind_run _ _ _ _ _ Hm).
    rewrite (bind_run _ _ _ _ _ (estimator_setter_run _ _)).
    unfold mret, M_ret, attached. simpl. by destruct (bool_decide _).
  - by rewrite (bind_run_raise _ _ _ _ _ Hm).
Qed.

(** C2, as it holds: [calls] lists the invocations, latest first.  On a
    table (unique column labels) that has feature columns, with values [X],
    and a target, the method is first invoked with [X] and [y] set to the
    target's values; if that raises [TypeError] it is invoked again, on the
    state the first invocation left, with [X] alone, and what that returns
    or raises is the result; otherwise the first invocation is the only
    one.  Without a target the method is invoked once, with [X] alone,
    whatever it raises. *)
Theorem dispatch_passes_target_then_falls_back
    w t estimator method_name args kwargs m d X :
  _data (self w) = Blocks2D t → NoDup (t_cols t).*1 →
  getattr (heap w) estimator method_name = Some m →
  data (self w) = Ok (Some d) →
  pd.values (_data d) = Ok X →
  let st := default [] (est_state <$> heap w !! bm_self m) in
  let record := mkCall (bm_self m) method_name in
  let without := mkArgs X None args kwargs in
  let res := _call estimator method_name args kwargs w in
  (has_target (self w) = true →
     ∃ s, target (self w) = Ok (Some s)
       ∧ let with_y := mkArgs X (Some (s_values s)) args kwargs in
         let first := bm_func m st with_y in
         match first.1 with
         | Raise (TypeError _) =>
             calls res.2 = record without :: record with_y :: calls w
             ∧ res.1 = (bm_func m first.2 without).1
         | _ =>
             calls res.2 = record with_y :: calls w
             ∧ res.1 = first.1
         end)
  ∧ (has_target (self w) = false →
       calls res.2 = record without :: calls w
       ∧ res.1 = (bm_func m st without).1).
Proof.
  intros Ht2 _ Hm Hd HX. simpl.
  rewrite (_call_run _ _ _ _ _ _ _ _ Hm Hd HX).
  pose proof (getattr_Some_inv _ _ _ _ Hm) as (-> & Hname & [e0 He0]).
  match goal with |- context [(?c ≫= _) w] =>
    destruct (then_attach_run c (Some (bm_self m)) w) as [-> ->] end.
  rewrite He0. simpl.
  split; intros Ht; rewrite Ht.
  - destruct (target_2D _ _ Ht2 Ht) as (cells & _ & Htarget).
    eexists. split; [exact Htarget|]. simpl.
    erewrite bind_run by (unfold lift; by rewrite Htarget).
    erewrite bind_run by reflexivity.
    unfold try_except_TypeError. rewrite invoke_run, He0, Hname. simpl.
    destruct (bm_func m (est_state e0) _) as [[r1|e1] st1] eqn:H1; simpl;
      [done|].
    destruct e1; try done.
    rewrite invoke_run. simpl. by rewrite lookup_alter_eq, He0, Hname.
  - by rewrite invoke_run, He0, Hname.
Qed.

Lemma dispatch_passes_target_then_falls_back_witness :
  let m := stub_predict in
  let st := default [] (est_state <$> heap fresh_world !! bm_self m) in
  let record := mkCall (bm_self m) "predict" in
  let without := mkArgs X_ab None [] [] in
  let res := _call (Some 2) "predict" [] [] fresh_world in
  (has_target (self fresh_world) = true →
     ∃ s, target (self fresh_world) = Ok (Some s)
       ∧ let with_y := mkArgs X_ab (Some (s_values s)) [] [] in
         let first := bm_func m st with_y in
         match first.1 with
         | Raise (TypeError _) =>
             calls res.2 = record without :: record with_y :: calls fresh_world
             ∧ res.1 = (bm_func m first.2 without).1
         | _ =>
             calls res.2 = record with_y :: calls fresh_world
             ∧ res.1 = first.1
         end)
  ∧ (has_target (self fresh_world) = false →
       calls res.2 = record without :: calls fresh_world
       ∧ res.1 = (bm_func m st without).1).
Proof.
  apply (dispatch_passes_target_then_falls_back
           fresh_world table_yab (Some 2) "predict" [] []
           stub_predict features_ab X_ab).
  - reflexivity.
  - apply (bool_decide_unpack _). vm_compute. exact I.
  - vm_compute. reflexivity.
  - vm_compute. reflexivity.
  - vm_compute. reflexivity.
Defined.

(** C2 as worded fails on a table that has a target column and no feature
    columns: [data] is [None] there, and the dispatch raises before the
    method it located is invoked at all.  In [target_only_world] the stub's
    [fit] is found and the record of calls stays empty. *)
Lemma dispatch_needs_feature_columns :
  ¬ (∀ w estimator method_name args kwargs m,
       has_target (self w) = true →
       getattr (heap w) estimator method_name = Some m →
       ∃ X y later,
         calls (_call estimator method_name args kwargs w).2
         = (later ++ mkCall (bm_self m) method_name (mkArgs X (Some y) args kwargs)
                     :: calls w)%list).
Proof.
  intros H.
  destruct (H target_only_world (Some 2) "fit" [] []
              (mkBound 2 "fit" (λ st a, (Ok RNone, st))))
    as (X & y & later & Hcalls).
  - reflexivity.
  - reflexivity.
  - vm_compute in Hcalls. by destruct later.
Qed.

(** What the dispatch does there. *)
Example dispatch_target_only :
  _call (Some 2) "fit" [] [] target_only_world
  = (Raise (AttributeError "'NoneType' object has no attribute 'values'"),
     target_only_world).
Proof. reflexivity. Qed.

(** On [fresh_world] the stub's [predict] is invoked twice: with [y], which
    it rejects, and then without. *)
Example dispatch_stub_predict :
  calls (_call (Some 2) "predict" [] [] fresh_world).2
  = [mkCall 2 "predict" (mkArgs X_ab None [] []);
     mkCall 2 "predict" (mkArgs X_ab (Some [Int 0; Int 1]) [] [])]
  ∧ (_call (Some 2) "predict" [] [] fresh_world).1 = Ok (RArray1 [Int 0; Int 1]).
Proof. vm_compute. done. Qed.

(** ** The partition into data and target *)

Lemma data_2D self0 t :
  _data self0 = Blocks2D t →
  data self0
  = if has_data self0 then
      Ok (Some (_constructor (Blocks2D (mkTable (t_index t)
            (_data_columns self0 ≫= λ l, filter (λ c, c.1 = l) (t_cols t))))))
    else Ok None.
Proof. intros Hd. unfold data. rewrite Hd. by destruct (has_data self0). Qed.

Lemma data_2D_NoDup self0 t :
  _data self0 = Blocks2D t → NoDup (t_cols t).*1 →
  data self0
  = if has_data self0 then
      Ok (Some (_constructor (Blocks2D (mkTable (t_index t)
            (filter (λ c, c.1 ≠ target_name self0) (t_cols t))))))
    else Ok None.
Proof.
  intros Hd Hnd. rewrite (data_2D _ _ Hd). destruct (has_data self0); [|done].
  do 5 f_equal. unfold _data_columns, columns. rewrite Hd. simpl.
  apply (@bind_filter_labels (λ l, l ≠ target_name self0)
           (λ l, not_dec (decide (l = target_name self0)))).
  intros c Hc. by apply filter_label_singleton.
Qed.

Lemma has_data_false_2D self0 t :
  _data self0 = Blocks2D t → has_data self0 = false →
  ∀ c, c ∈ t_cols t → c.1 = target_name self0.
Proof.
  unfold has_data, _data_columns, columns. intros Hd Hh c Hc.
  rewrite Hd in Hh. simpl in Hh. apply bool_decide_eq_false in Hh.
  destruct (decide (c.1 = target_name self0)) as [|Hne]; [done|].
  exfalso. apply Hh.
  assert (c.1 ∈ filter (λ l, l ≠ target_name self0) (t_cols t).*1) as Hin.
  { apply list_elem_of_filter. split; [done|]. by apply list_elem_of_fmap_2. }
  destruct (filter _ _); [by apply elem_of_nil in Hin|simpl; lia].
Qed.

Lemma has_data_true_2D self0 t :
  _data self0 = Blocks2D t → has_data self0 = true →
  ∃ c, c ∈ t_cols t ∧ c.1 ≠ target_name self0.
Proof.
  unfold has_data, _data_columns, columns. intros Hd Hh.
  rewrite Hd in Hh. simpl in Hh. apply bool_decide_eq_true in Hh.
  destruct (filter (λ l, l ≠ target_name self0) (t_cols t).*1)
    as [|l ls] eqn:Hf; [simpl in Hh; lia|].
  assert (l ∈ filter (λ l, l ≠ target_name self0) (t_cols t).*1) as Hl
    by (rewrite Hf; by left).
  apply list_elem_of_filter in Hl as [Hne Hl].
  apply list_elem_of_fmap in Hl as (c & -> & Hc). eauto.
Qed.

Lemma has_data_intro self0 t c :
  _data self0 = Blocks2D t → c ∈ t_cols t → c.1 ≠ target_name self0 →
  has_data self0 = true.
Proof.
  intros Hd Hc Hne. destruct (has_data self0) eqn:Hh; [done|].
  by pose proof (has_data_false_2D _ _ Hd Hh c Hc).
Qed.

(** X21: the partition in every state in which the instance is a table.
    The [target] setter and the constructor, given a label [N] of a column,
    make [N] the target name and leave the table as it is.  In a table
    whose target name [N] is a column label, [data] is [None] when every
    column is labelled [N]; when some column is labelled otherwise, [data]
    is a table on the same row labels that holds exactly the columns whose
    label is not [N], so [N] is not among its columns, and with unique
    column labels it is the store without column [N], in order.  With
    unique labels [target] is column [N]. *)
Theorem data_excludes_target :
  (∀ w N, N ∈ columns (self w) →
     ∃ w', target_setter (TLabel N) w = (Ok (), w')
       ∧ target_name (self w') = N
       ∧ _data (self w') = _data (self w))
  ∧ (∀ d N, N ∈ pd.columns d →
       ∃ mf, __init__ (DDataFrame d) (TLabel N) = Ok mf
         ∧ target_name mf = N
         ∧ _data mf = d)
  ∧ (∀ T t N, _data T = Blocks2D t → target_name T = N → N ∈ columns T →
       ((∀ c, c ∈ t_cols t → c.1 = N) → data T = Ok None)
       ∧ (∀ c0, c0 ∈ t_cols t → c0.1 ≠ N →
          ∃ d cols, data T = Ok (Some d)
            ∧ _data d = Blocks2D (mkTable (t_index t) cols)
            ∧ (N ∉ columns d)
            ∧ (∀ c, c ∈ cols ↔ c ∈ t_cols t ∧ c.1 ≠ N)
            ∧ (NoDup (t_cols t).*1 →
               cols = filter (λ c, c.1 ≠ N) (t_cols t)))
       ∧ (NoDup (t_cols t).*1 →
          ∃ cells, (N, cells) ∈ t_cols t
            ∧ target T = Ok (Some (mkSeries (Some N) (t_index t) cells)))).
Proof.
  split_and!.
  - intros w N HN. eexists. split.
    + unfold target_setter. erewrite bind_run by reflexivity.
      rewrite bool_decide_eq_true_2 by done. reflexivity.
    + done.
  - intros d N HN. eexists. split.
    + unfold __init__. simpl. rewrite bool_decide_eq_true_2 by done.
      reflexivity.
    + done.
  - intros T t N Hd <- HN. split_and!.
    + intros Hall. rewrite (data_2D _ _ Hd).
      destruct (has_data T) eqn:Hh; [|done].
      destruct (has_data_true_2D _ _ Hd Hh) as (c & Hc & Hne).
      by specialize (Hall c Hc).
    + intros c0 Hc0 Hne0.
      rewrite (data_2D _ _ Hd), (has_data_intro _ _ _ Hd Hc0 Hne0).
      eexists. exists (_data_columns T ≫= λ l, filter (λ c, c.1 = l) (t_cols t)).
      split; [reflexivity|]. split; [reflexivity|]. split_and!.
      * unfold columns. simpl. intros Hin.
        apply list_elem_of_fmap in Hin as (c & Hc1 & Hc).
        apply elem_of_loc_columns in Hc as [_ Hc]. rewrite <-Hc1 in Hc.
        unfold _data_columns in Hc.
        by apply list_elem_of_filter in Hc as [Hc _].
      * intros c. rewrite elem_of_loc_columns. unfold _data_columns, columns.
        rewrite Hd. simpl. rewrite list_elem_of_filter. split.
        -- by intros (? & ? & ?).
        -- intros [Hc Hne]. split_and!; try done. by apply list_elem_of_fmap_2.
      * intros Hnd. unfold _data_columns, columns. rewrite Hd. simpl.
        apply (@bind_filter_labels (λ l, l ≠ target_name T)
                 (λ l, not_dec (decide (l = target_name T)))).
        intros c Hc. by apply filter_label_singleton.
    + intros Hnd. apply target_2D; [done|]. unfold has_target.
      by apply bool_decide_eq_true.
Qed.

Lemma data_excludes_target_witness :
  (∃ w', target_setter (TLabel (Str "a")) fresh_world = (Ok (), w')
     ∧ target_name (self w') = Str "a"
     ∧ _data (self w') = _data (self fresh_world))
  ∧ (∃ mf, __init__ (DDataFrame (Blocks2D table_yab)) (TLabel (Str "y")) = Ok mf
       ∧ target_name mf = Str "y"
       ∧ _data mf = Blocks2D table_yab)
  ∧ data frame_y = Ok None
  ∧ (∃ d cols, data frame_yab = Ok (Some d)
       ∧ _data d = Blocks2D (mkTable (t_index table_yab) cols)
       ∧ (Str "y" ∉ columns d)
       ∧ (∀ c, c ∈ cols ↔ c ∈ t_cols table_yab ∧ c.1 ≠ Str "y")
       ∧ cols = filter (λ c, c.1 ≠ Str "y") (t_cols table_yab))
  ∧ (∃ cells, (Str "y", cells) ∈ t_cols table_yab
       ∧ target frame_yab
         = Ok (Some (mkSeries (Some (Str "y")) (t_index table_yab) cells))).
Proof.
  assert (Str "y" ∈ columns frame_yab) as Hy
    by (apply (bool_decide_unpack _); vm_compute; exact I).
  assert (NoDup (t_cols table_yab).*1) as Hnd
    by (apply (bool_decide_unpack _); vm_compute; exact I).
  split; [|split; [|split; [|split]]].
  - apply (proj1 data_excludes_target fresh_world (Str "a")).
    apply (bool_decide_unpack _). vm_compute. exact I.
  - apply (proj1 (proj2 data_excludes_target) (Blocks2D table_yab) (Str "y")).
    apply (bool_decide_unpack _). vm_compute. exact I.
  - apply (proj1 (proj2 (proj2 data_excludes_target) frame_y
                    (mkTable rows01 [(Str "y", [Int 0; Int 1])]) (Str "y")
                    eq_refl eq_refl
                    ltac:(apply (bool_decide_unpack _); vm_compute; exact I))).
    intros c Hc. apply list_elem_of_singleton in Hc. by subst c.
  - destruct (proj1 (proj2 (proj2 (proj2 data_excludes_target) frame_yab
                              table_yab (Str "y") eq_refl eq_refl Hy))
                (Str "a", [Int 1; Int 2]))
      as (d & cols & H1 & H2 & H3 & H4 & H5).
    + apply (bool_decide_unpack _). vm_compute. exact I.
    + discriminate.
    + exists d, cols. repeat (split; [assumption|]). by apply H5.
  - apply (proj2 (proj2 (proj2 (proj2 data_excludes_target) frame_yab
                           table_yab (Str "y") eq_refl eq_refl Hy)) Hnd).
Defined.

(** ** Deleting the target or the data *)

Lemma fmap_fst_filter_ne (tn : label) (cols : list (label * list scalar)) :
  (filter (λ c, c.1 ≠ tn) cols).*1 = filter (λ l, l ≠ tn) cols.*1.
Proof.
  induction cols as [|c cols IH]; [done|].
  rewrite fmap_cons. destruct (decide (c.1 = tn)).
  - by rewrite !filter_cons_False by (intros Hne; by apply Hne).
  - rewrite !filter_cons_True by done. rewrite fmap_cons. by f_equal.
Qed.

Lemma target_deleter_run w :
  target_deleter w
  = if has_data (self w) then
      match data (self w) with
      | Ok (Some d) => (Ok (), with_data (_data d) w)
      | Ok None => (Raise (OtherError "data is None"), w)
      | Raise e => (Raise e, w)
      end
    else (Raise must_have_either, w).
Proof.
  unfold target_deleter, mbind, M_bind, get_self, lift. simpl.
  destruct (has_data (self w)); [|done]. by destruct (data (self w)) as [[d|]|e].
Qed.

Lemma data_deleter_run w :
  data_deleter w
  = if has_target (self w) then
      match target (self w) with
      | Ok (Some t) => (Ok (), with_data (pd.to_frame t) w)
      | Ok None =>
          (Raise (AttributeError "'NoneType' object has no attribute 'to_frame'"), w)
      | Raise e => (Raise e, w)
      end
    else (Raise must_have_either, w).
Proof.
  unfold data_deleter, mbind, M_bind, get_self, lift. simpl.
  destruct (has_target (self w)); [|done].
  by destruct (target (self w)) as [[t|]|e].
Qed.

(** The columns [.loc] keeps for the data are not all gone when there are
    data columns. *)
Lemma has_data_loc T t :
  _data T = Blocks2D t → has_data T = true →
  has_data (set_data (Blocks2D (mkTable (t_index t)
              (_data_columns T ≫= λ l, filter (λ c, c.1 = l) (t_cols t)))) T)
  = true.
Proof.
  intros Hd Hh. unfold has_data in *. apply bool_decide_eq_true in Hh.
  apply bool_decide_eq_true.
  assert (∃ l, l ∈ _data_columns T) as [l Hl].
  { destruct (_data_columns T) as [|l ls]; [simpl in Hh; lia|].
    exists l. by left. }
  assert (l ≠ target_name T ∧ ∃ c, c.1 = l ∧ c ∈ t_cols t) as (Hne & c & <- & Hc).
  { unfold _data_columns, columns in Hl. rewrite Hd in Hl. simpl in Hl.
    apply list_elem_of_filter in Hl as [Hne Hl].
    apply list_elem_of_fmap in Hl as (c & -> & Hc). eauto. }
  assert (c ∈ (_data_columns T ≫= λ l, filter (λ c, c.1 = l) (t_cols t)))
    as Hc' by (by apply elem_of_loc_columns).
  set (cols' := _data_columns T ≫= _) in *.
  assert (c.1 ∈ _data_columns (set_data (Blocks2D (mkTable (t_index t) cols')) T))
    as Hin.
  { unfold _data_columns, columns. simpl. apply list_elem_of_filter.
    split; [done|]. by apply list_elem_of_fmap_2. }
  destruct (_data_columns (set_data _ T));
    [by apply elem_of_nil in Hin|simpl; lia].
Qed.

(** C5: [del target] raises the value error and changes nothing when the
    table has no feature columns, and on a table with feature columns
    (unique labels) it succeeds and leaves exactly those, so the table then
    has data and no target; [del data] raises the same error and changes
    nothing when there is no target column.  On a table, a deletion that
    raises leaves the instance unchanged and one that succeeds leaves a
    table with data or with a target ([del data]: on column labels that
    are unique). *)
Theorem deleters_keep_data_or_target :
  (∀ w, has_data (self w) = false →
     target_deleter w = (Raise must_have_either, w))
  ∧ (∀ w t, _data (self w) = Blocks2D t → NoDup (t_cols t).*1 →
       has_data (self w) = true →
       ∃ w', target_deleter w = (Ok (), w')
         ∧ _data (self w')
           = Blocks2D (mkTable (t_index t)
               (filter (λ c, c.1 ≠ target_name (self w)) (t_cols t)))
         ∧ columns (self w') = _data_columns (self w)
         ∧ target_name (self w') = target_name (self w)
         ∧ has_data (self w') = true
         ∧ has_target (self w') = false)
  ∧ (∀ w, has_target (self w) = false →
       data_deleter w = (Raise must_have_either, w))
  ∧ (∀ w t r w', _data (self w) = Blocks2D t →
       target_deleter w = (r, w') →
       match r with
       | Ok _ => has_data (self w') || has_target (self w') = true
       | Raise _ => w' = w
       end)
  ∧ (∀ w t r w', _data (self w) = Blocks2D t → NoDup (t_cols t).*1 →
       data_deleter w = (r, w') →
       match r with
       | Ok _ => has_data (self w') || has_target (self w') = true
       | Raise _ => w' = w
       end).
Proof.
  split_and!.
  - intros w Hh. by rewrite target_deleter_run, Hh.
  - intros w t Hd Hnd Hh. rewrite target_deleter_run, Hh.
    rewrite (data_2D_NoDup _ _ Hd Hnd), Hh. unfold _constructor. cbn [_data].
    eexists. split; [done|].
    assert (columns (with_data (Blocks2D (mkTable (t_index t)
              (filter (λ c, c.1 ≠ target_name (self w)) (t_cols t)))) w).(self)
            = _data_columns (self w)) as Hcols.
    { unfold columns, _data_columns, columns. simpl. rewrite Hd. simpl.
      apply fmap_fst_filter_ne. }
    split_and!; try done.
    + unfold has_data in *. apply bool_decide_eq_true in Hh.
      apply bool_decide_eq_true. unfold _data_columns at 1.
      rewrite Hcols. unfold target_name at 1. simpl.
      unfold _data_columns at 1.
      rewrite list_filter_filter.
      unfold _data_columns in Hh.
      erewrite list_filter_iff; [exact Hh|]. intros l. simpl.
      unfold target_name. tauto.
    + unfold has_target. apply bool_decide_eq_false. rewrite Hcols.
      unfold target_name at 1. simpl. unfold _data_columns.
      rewrite list_elem_of_filter. unfold target_name. tauto.
  - intros w Hh. by rewrite data_deleter_run, Hh.
  - intros w t r w' Hd H.
    rewrite target_deleter_run in H.
    destruct (has_data (self w)) eqn:Hh; [|by injection H as <- <-].
    destruct (data (self w)) as [[d|]|e] eqn:Hdata;
      try by injection H as <- <-.
    injection H as <- <-.
    rewrite (data_2D _ _ Hd), Hh in Hdata. injection Hdata as <-.
    simpl. unfold with_data. simpl.
    by rewrite (has_data_loc _ _ Hd Hh).
  - intros w t r w' Hd _ H.
    rewrite data_deleter_run in H.
    destruct (has_target (self w)) eqn:Hh; [|by injection H as <- <-].
    destruct (target (self w)) as [[s|]|e] eqn:Htarget;
      try by injection H as <- <-.
    injection H as <- <-.
    apply orb_true_iff. right.
    destruct (target_2D _ _ Hd Hh) as (cells & _ & Ht).
    rewrite Ht in Htarget. injection Htarget as <-.
    unfold has_target, columns, target_name. simpl.
    apply bool_decide_eq_true. by left.
Qed.

Lemma deleters_keep_data_or_target_witness :
  target_deleter (mkWorld frame_y ∅ [] [])
    = (Raise must_have_either, mkWorld frame_y ∅ [] [])
  ∧ (∃ w', target_deleter fresh_world = (Ok (), w')
       ∧ _data (self w')
         = Blocks2D (mkTable (t_index table_yab)
             (filter (λ c, c.1 ≠ target_name (self fresh_world)) (t_cols table_yab)))
       ∧ columns (self w') = _data_columns (self fresh_world)
       ∧ target_name (self w') = target_name (self fresh_world)
       ∧ has_data (self w') = true
       ∧ has_target (self w') = false)
  ∧ data_deleter (mkWorld frame_ab ∅ [] [])
    = (Raise must_have_either, mkWorld frame_ab ∅ [] [])
  ∧ has_data (self (target_deleter fresh_world).2)
    || has_target (self (target_deleter fresh_world).2) = true
  ∧ has_data (self (data_deleter fresh_world).2)
    || has_target (self (data_deleter fresh_world).2) = true.
Proof.
  split; [|split; [|split; [|split]]].
  - apply (proj1 deleters_keep_data_or_target). reflexivity.
  - apply (proj1 (proj2 deleters_keep_data_or_target) fresh_world table_yab).
    + reflexivity.
    + apply (bool_decide_unpack _). vm_compute. exact I.
    + reflexivity.
  - apply (proj1 (proj2 (proj2 deleters_keep_data_or_target))). reflexivity.
  - apply (proj1 (proj2 (proj2 (proj2 deleters_keep_data_or_target)))
             fresh_world table_yab (Ok ()) (target_deleter fresh_world).2).
    + reflexivity.
    + vm_compute. reflexivity.
  - apply (proj2 (proj2 (proj2 (proj2 deleters_keep_data_or_target)))
             fresh_world table_yab (Ok ()) (data_deleter fresh_world).2).
    + reflexivity.
    + apply (bool_decide_unpack _). vm_compute. exact I.
    + vm_compute. reflexivity.
Defined.

(** ** Construction from data and a separate target *)

Lemma _concat_target_2D t s :
  _concat_target (Some (Blocks2D t)) (Some s)
  = if decide (length (t_index t) = length (s_index s)) then
      if decide (t_index t = s_index s) then
        Ok (IsFrame (Blocks2D (mkTable (t_index t)
              ((default (Int 0) (s_name s), s_values s) :: t_cols t))))
      else Raise (ValueError "data and target must have equal index")
    else Raise (ValueError "data and target must have same length").
Proof.
  unfold _concat_target, pd.len, pd.len_series, pd.equals. simpl.
  destruct (decide (length (t_index t) = length (s_index s))).
  - rewrite bool_decide_eq_true_2 by done. simpl.
    destruct (decide (t_index t = s_index s)).
    + by rewrite bool_decide_eq_true_2.
    + by rewrite bool_decide_eq_false_2.
  - by rewrite bool_decide_eq_false_2.
Qed.

Lemma init_frame_list data t vs :
  as_DataFrame data = Some (Blocks2D t) →
  __init__ data (TList vs)
  = if decide (length vs = length (t_index t)) then
      Ok (mkModelFrame
            (Blocks2D (mkTable (t_index t) ((init_name data, vs) :: t_cols t)))
            (init_name data) None PyNone PyNone PyNone PyNone)
    else Raise (ValueError "Length of passed values does not match index").
Proof.
  intros Hd. destruct data as [|rows|d|mf]; try discriminate;
    injection Hd as Hd; unfold __init__, _maybe_convert_data; simpl;
    rewrite Hd; simpl; destruct (decide (length vs = length (t_index t)));
    simpl; try done.
  - unfold pd.len_series, pd.equals. simpl.
    by rewrite !bool_decide_eq_true_2.
  - unfold pd.len_series, pd.equals. simpl.
    by rewrite !bool_decide_eq_true_2.
Qed.

#[local] Arguments _concat_target : simpl never.

Lemma init_frame_series data t s :
  as_DataFrame data = Some (Blocks2D t) →
  __init__ data (TSeries s)
  = if decide (length (t_index t) = length (s_index s)) then
      if decide (t_index t = s_index s) then
        let name := match data with
                    | DModelFrame mf => _target_name mf
                    | _ => default _TARGET_NAME (s_name s)
                    end in
        let column := match data with
                      | DModelFrame mf => default (Int 0) (s_name s)
                      | _ => name
                      end in
        Ok (mkModelFrame
              (Blocks2D (mkTable (t_index t) ((column, s_values s) :: t_cols t)))
              name None PyNone PyNone PyNone PyNone)
      else Raise (ValueError "data and target must have equal index")
    else Raise (ValueError "data and target must have same length").
Proof.
  intros Hd. destruct data as [|rows|d|mf]; try discriminate;
    injection Hd as Hd; unfold __init__; simpl.
  - destruct (s_name s) as [n|] eqn:Hn; unfold _maybe_convert_data; simpl;
      rewrite Hd; simpl; rewrite _concat_target_2D; simpl;
      destruct (decide (length (t_index t) = length (s_index s))); try done;
      destruct (decide (t_index t = s_index s)); try done.
    simpl. by rewrite Hn.
  - unfold _maybe_convert_data; simpl; rewrite Hd; simpl.
    rewrite _concat_target_2D.
    destruct (decide (length (t_index t) = length (s_index s))); try done.
    by destruct (decide (t_index t = s_index s)).
Qed.

Lemma length_RangeIndex n : length (pd.RangeIndex n) = n.
Proof. unfold pd.RangeIndex. by rewrite length_fmap, length_seq. Qed.

Lemma DataFrame_new_index rows d :
  pd.DataFrame_new rows None None = Ok d →
  ∃ cols, d = Blocks2D (mkTable (pd.RangeIndex (length rows)) cols).
Proof.
  unfold pd.DataFrame_new. simpl.
  destruct (negb _); [done|]. destruct (negb _); [done|].
  destruct (mapM _ _); [|done]. intros [= <-]. eauto.
Qed.

Lemma target_first_column T idx name cells cols :
  _data T = Blocks2D (mkTable idx ((name, cells) :: cols)) →
  target_name T = name →
  target T = Ok (Some (mkSeries (Some name) idx cells)).
Proof.
  intros Hd Hn. unfold target, has_target, columns. rewrite Hd, Hn. simpl.
  rewrite bool_decide_eq_true_2 by left. simpl. by rewrite decide_True.
Qed.

(** C7: with a frame for data, a raw list or array of the frame's length
    becomes the target column on the frame's row labels, position by
    position, and construction succeeds ([target] then returns it, unless
    a data column carries the target name as well); so it does with array
    data, on the default row labels.  A series whose length differs from the
    frame's, or whose index is not the frame's, in particular one that
    holds a label the other lacks, makes construction raise a value error;
    with array data the series' index labels the rows, and a length that
    differs raises a value error as well. *)
Theorem init_aligns_target :
  (∀ data t vs, as_DataFrame data = Some (Blocks2D t) →
     length vs = length (t_index t) →
     ∃ mf, __init__ data (TList vs) = Ok mf
       ∧ _data mf
         = Blocks2D (mkTable (t_index t) ((target_name mf, vs) :: t_cols t))
       ∧ (target_name mf ∉ (t_cols t).*1 →
          target mf = Ok (Some (mkSeries (Some (target_name mf)) (t_index t) vs))))
  ∧ (∀ rows d vs, pd.DataFrame_new rows None None = Ok d →
       length vs = length rows →
       ∃ mf, __init__ (DArray rows) (TList vs) = Ok mf
         ∧ target mf
           = Ok (Some (mkSeries (Some _TARGET_NAME)
                         (pd.RangeIndex (length rows)) vs)))
  ∧ (∀ data t s, as_DataFrame data = Some (Blocks2D t) →
       length (s_index s) ≠ length (t_index t) →
       __init__ data (TSeries s)
       = Raise (ValueError "data and target must have same length"))
  ∧ (∀ data t s, as_DataFrame data = Some (Blocks2D t) →
       length (s_index s) = length (t_index t) →
       s_index s ≠ t_index t →
       __init__ data (TSeries s)
       = Raise (ValueError "data and target must have equal index"))
  ∧ (∀ data t s x, as_DataFrame data = Some (Blocks2D t) →
       (x ∈ s_index s ∧ x ∉ t_index t) ∨ (x ∈ t_index t ∧ x ∉ s_index s) →
       is_ValueError (__init__ data (TSeries s)) = true)
  ∧ (∀ rows s, length (s_index s) ≠ length rows →
       is_ValueError (__init__ (DArray rows) (TSeries s)) = true).
Proof.
  split_and!.
  - intros data t vs Hd Hlen. rewrite (init_frame_list _ _ _ Hd).
    rewrite decide_True by done. eexists. split; [done|]. split; [done|].
    intros _. by eapply target_first_column.
  - intros rows d vs Hnew Hlen.
    destruct (DataFrame_new_index _ _ Hnew) as [cols ->].
    unfold __init__, _maybe_convert_data. simpl. rewrite Hnew. simpl.
    rewrite decide_True by (by rewrite length_RangeIndex). simpl.
    rewrite _concat_target_2D. simpl.
    rewrite !decide_True by (by rewrite ?length_RangeIndex). simpl.
    eexists. split; [done|]. by eapply target_first_column.
  - intros data t s Hd Hlen. rewrite (init_frame_series _ _ _ Hd).
    by rewrite decide_False.
  - intros data t s Hd Hlen Hne. rewrite (init_frame_series _ _ _ Hd).
    rewrite decide_True by done. by rewrite decide_False.
  - intros data t s x Hd Hx. rewrite (init_frame_series _ _ _ Hd).
    destruct (decide (length _ = length _)); [|done].
    destruct (decide (t_index t = s_index s)) as [Heq|]; [|done].
    rewrite Heq in Hx. tauto.
  - intros rows s Hlen. unfold __init__. simpl.
    destruct (s_name s); unfold _maybe_convert_data, pd.DataFrame_new; simpl;
      by rewrite bool_decide_eq_false_2.
Qed.

Lemma init_aligns_target_witness :
  (∃ mf, __init__ (DModelFrame frame_ab) (TList [Int 5; Int 6]) = Ok mf
     ∧ _data mf
       = Blocks2D (mkTable rows01
           ((target_name mf, [Int 5; Int 6])
            :: [(Str "a", [Int 1; Int 2]); (Str "b", [Int 3; Int 4])]))
     ∧ (target_name mf
        ∉ [(Str "a", [Int 1; Int 2]); (Str "b", [Int 3; Int 4])].*1 →
        target mf
        = Ok (Some (mkSeries (Some (target_name mf)) rows01 [Int 5; Int 6]))))
  ∧ (∃ mf, __init__ (DArray X_ab) (TList [Int 5; Int 6]) = Ok mf
       ∧ target mf
         = Ok (Some (mkSeries (Some _TARGET_NAME)
                       (pd.RangeIndex (length X_ab)) [Int 5; Int 6])))
  ∧ __init__ (DDataFrame (Blocks2D table_yab))
      (TSeries (mkSeries None [Int 0] [Int 5]))
    = Raise (ValueError "data and target must have same length")
  ∧ __init__ (DDataFrame (Blocks2D table_yab)) (TSeries series_xy)
    = Raise (ValueError "data and target must have equal index")
  ∧ is_ValueError (__init__ (DDataFrame (Blocks2D table_yab)) (TSeries series_xy))
    = true
  ∧ is_ValueError (__init__ (DArray X_ab) (TSeries (mkSeries None [Int 0] [Int 5])))
    = true.
Proof.
  split; [|split; [|split; [|split; [|split]]]].
  - apply (proj1 init_aligns_target (DModelFrame frame_ab)
             (mkTable rows01 [(Str "a", [Int 1; Int 2]); (Str "b", [Int 3; Int 4])])).
    + reflexivity.
    + reflexivity.
  - apply (proj1 (proj2 init_aligns_target) X_ab
             (Blocks2D (mkTable rows01
                [(Int 0, [Int 1; Int 2]); (Int 1, [Int 3; Int 4])]))).
    + vm_compute. reflexivity.
    + reflexivity.
  - apply (proj1 (proj2 (proj2 init_aligns_target)) _ table_yab).
    + reflexivity.
    + simpl. lia.
  - apply (proj1 (proj2 (proj2 (proj2 init_aligns_target))) _ table_yab).
    + reflexivity.
    + reflexivity.
    + discriminate.
  - apply (proj1 (proj2 (proj2 (proj2 (proj2 init_aligns_target)))) _ table_yab
             series_xy (Str "x")).
    + reflexivity.
    + left. split.
      * apply (bool_decide_unpack _). vm_compute. exact I.
      * apply (bool_decide_eq_false_1 (Str "x" ∈ t_index table_yab)).
        vm_compute. reflexivity.
  - apply (proj2 (proj2 (proj2 (proj2 (proj2 init_aligns_target))))).
    simpl. lia.
Defined.

(** ** Assigning the target *)

(** On a table without feature columns [data] is [None], so the setter
    builds the new target on a fresh default index, [_concat_target] hands
    it back as the series it is, and [_update_inplace] installs the series'
    one-dimensional internals in the frame. *)
Lemma target_setter_without_data w vs :
  has_data (self w) = false →
  target_setter (TList vs) w
  = (Ok (), with_data (Block1D (mkSeries (Some (target_name (self w)))
                                  (pd.RangeIndex (length vs)) vs)) w).
Proof.
  intros Hh. unfold target_setter.
  erewrite bind_run by reflexivity.
  assert (data (self w) = Ok None) as Hd by (unfold data; by rewrite Hh).
  erewrite bind_run by (unfold lift; by rewrite Hd).
  erewrite bind_run by reflexivity.
  cbv beta iota.
  erewrite bind_run by (unfold lift; by rewrite Hd).
  erewrite bind_run by reflexivity.
  reflexivity.
Qed.

Lemma target_setter_series_without_data w s :
  has_target (self w) = true → has_data (self w) = false →
  ∃ w', target_setter (TSeries s) w = (Ok (), w')
    ∧ _data (self w')
      = Block1D (mkSeries (Some (target_name (self w))) (s_index s) (s_values s)).
Proof.
  intros Ht Hh. unfold target_setter.
  erewrite bind_run by reflexivity. rewrite Ht. simpl.
  erewrite bind_run by reflexivity.
  erewrite bind_run by reflexivity.
  assert (data (self w) = Ok None) as Hd by (unfold data; by rewrite Hh).
  destruct (bool_decide (s_name s ≠ Some (target_name (self w)))) eqn:Hn.
  - erewrite bind_run by reflexivity. simpl.
    erewrite bind_run by (unfold lift; by rewrite Hd).
    erewrite bind_run by reflexivity. eexists. split; reflexivity.
  - apply bool_decide_eq_false in Hn.
    assert (s_name s = Some (target_name (self w))) as Hname.
    { destruct (decide (s_name s = Some (target_name (self w)))); tauto. }
    erewrite bind_run by reflexivity.
    erewrite bind_run by (unfold lift; by rewrite Hd).
    erewrite bind_run by reflexivity. eexists. split; [reflexivity|].
    simpl. destruct s as [n i v]. simpl in *. by rewrite Hname.
Qed.

(** C4 at a table that has a target and no feature columns: the table
    [ModelFrame(None, target=[5, 6])] is assigned the target [[7, 8]].  The
    assignment returns normally, and afterwards the frame's internals are
    one-dimensional: its columns are the new series' row labels, it has no
    target and [target] is [None].  The target column was not replaced. *)
Theorem target_setter_on_target_only_table :
  ∃ mf w',
    __init__ DNone (TList [Int 5; Int 6]) = Ok mf
    ∧ has_target mf = true
    ∧ has_data mf = false
    ∧ target_setter (TList [Int 7; Int 8]) (mkWorld mf ∅ [] []) = (Ok (), w')
    ∧ _data (self w')
      = Block1D (mkSeries (Some _TARGET_NAME) rows01 [Int 7; Int 8])
    ∧ columns (self w') = rows01
    ∧ has_target (self w') = false
    ∧ target (self w') = Ok None.
Proof.
  eexists. eexists. split; [reflexivity|]. split; [reflexivity|].
  split; [reflexivity|]. split.
  - apply target_setter_without_data. reflexivity.
  - vm_compute. done.
Qed.

(** C3: the partition is not preserved by every operation.  The table
    [ModelFrame(None, target=[5, 6])] is partitioned: its target name
    [.target] is a column of the table, [target] is that column and [data]
    is [None], there being no other column.  Assigning the target [[7, 8]]
    returns normally, and afterwards the target name, still [.target], is
    no column of the instance, whose columns are the new series' row
    labels: the instance has no target, [target] is [None], and [data]
    raises instead of returning the columns other than the target. *)
Theorem target_assignment_loses_partition :
  ∃ mf w',
    __init__ DNone (TList [Int 5; Int 6]) = Ok mf
    ∧ target_name mf = _TARGET_NAME
    ∧ target_name mf ∈ columns mf
    ∧ target mf = Ok (Some (mkSeries (Some _TARGET_NAME) rows01 [Int 5; Int 6]))
    ∧ data mf = Ok None
    ∧ target_setter (TList [Int 7; Int 8]) (mkWorld mf ∅ [] []) = (Ok (), w')
    ∧ target_name (self w') = _TARGET_NAME
    ∧ columns (self w') = rows01
    ∧ (target_name (self w') ∉ columns (self w'))
    ∧ has_target (self w') = false
    ∧ target (self w') = Ok None
    ∧ ∃ e, data (self w') = Raise e.
Proof.
  eexists. eexists. split; [reflexivity|]. split; [reflexivity|].
  split; [apply (bool_decide_unpack _); vm_compute; exact I|].
  split; [reflexivity|]. split; [reflexivity|].
  split; [apply target_setter_without_data; reflexivity|].
  split; [reflexivity|]. split; [reflexivity|].
  split.
  { apply (bool_decide_eq_false_1 (_TARGET_NAME ∈ rows01)).
    vm_compute. reflexivity. }
  split; [reflexivity|]. split; [reflexivity|].
  eexists. vm_compute. reflexivity.
Qed.

Lemma filter_ne_idemp (tn : label) (cols : list (label * list scalar)) :
  filter (λ c, c.1 ≠ tn) (filter (λ c, c.1 ≠ tn) cols)
  = filter (λ c, c.1 ≠ tn) cols.
Proof.
  induction cols as [|c cols IH]; [done|].
  destruct (decide (c.1 = tn)).
  - by rewrite !filter_cons_False by (intros Hne; by apply Hne).
  - rewrite (filter_cons_True _ _ cols) by done.
    rewrite filter_cons_True by done. by f_equal.
Qed.

(** The table the setter leaves when there are feature columns: the new
    target column first, then the feature columns as they were. *)
Lemma retargeted_views T t values :
  _data T = Blocks2D t → NoDup (t_cols t).*1 → has_data T = true →
  let T' := set_data (Blocks2D (mkTable (t_index t)
              ((target_name T, values)
               :: filter (λ c, c.1 ≠ target_name T) (t_cols t)))) T in
  data T' = data T
  ∧ target T' = Ok (Some (mkSeries (Some (target_name T)) (t_index t) values))
  ∧ _data_columns T' = _data_columns T.
Proof.
  intros Hd Hnd Hh T'.
  set (tn := target_name T) in *.
  set (F := filter (λ c, c.1 ≠ tn) (t_cols t)) in *.
  assert (F.*1 = _data_columns T) as HF.
  { unfold F, _data_columns, columns. rewrite Hd. apply fmap_fst_filter_ne. }
  assert (_data_columns T' = _data_columns T) as Hcols.
  { unfold _data_columns at 1, columns. simpl. fold tn.
    rewrite filter_cons_False by (intros Hne; by apply Hne).
    change (filter (λ l, l ≠ tn) F.*1 = _data_columns T).
    rewrite <-(fmap_fst_filter_ne tn F). unfold F.
    rewrite filter_ne_idemp. by rewrite <-HF. }
  assert (NoDup ((tn, values) :: F).*1) as Hnd'.
  { rewrite fmap_cons. apply NoDup_cons. split.
    - rewrite HF. unfold _data_columns. rewrite list_elem_of_filter.
      fold tn. tauto.
    - rewrite HF. unfold _data_columns, columns. rewrite Hd.
      by apply NoDup_filter. }
  split_and!; [|by eapply target_first_column|done].
  rewrite (data_2D_NoDup T' (mkTable (t_index t) ((tn, values) :: F)))
    by done.
  rewrite (data_2D_NoDup T t) by done.
  unfold has_data. rewrite Hcols. fold (has_data T). rewrite Hh.
  do 5 f_equal. simpl. fold tn.
  rewrite filter_cons_False by (intros Hne; by apply Hne).
  apply filter_ne_idemp.
Qed.

(** Off the table without feature columns, assigning a list or array of
    the table's length replaces the target column and leaves the feature
    columns, their names, order and cells, as they were; no warning. *)
Lemma target_setter_list_keeps_features w t vs :
  _data (self w) = Blocks2D t → NoDup (t_cols t).*1 →
  has_data (self w) = true →
  length vs = length (t_index t) →
  ∃ w', target_setter (TList vs) w = (Ok (), w')
    ∧ data (self w') = data (self w)
    ∧ _data_columns (self w') = _data_columns (self w)
    ∧ target (self w')
      = Ok (Some (mkSeries (Some (target_name (self w))) (t_index t) vs))
    ∧ target_name (self w') = target_name (self w)
    ∧ warnings w' = warnings w.
Proof.
  intros Hd Hnd Hh Hlen.
  pose proof (data_2D_NoDup _ _ Hd Hnd) as Hdata. rewrite Hh in Hdata.
  unfold target_setter.
  erewrite bind_run by reflexivity.
  erewrite bind_run by (unfold lift; by rewrite Hdata).
  erewrite bind_run.
  2:{ unfold lift, _maybe_convert_data, _constructor. simpl.
      by rewrite decide_True. }
  cbv beta iota.
  erewrite bind_run by (unfold lift; by rewrite Hdata).
  erewrite bind_run.
  2:{ unfold lift, _constructor. simpl. rewrite _concat_target_2D. simpl.
      by rewrite !decide_True. }
  eexists. split; [reflexivity|].
  destruct (retargeted_views (self w) t vs Hd Hnd Hh) as (H1 & H2 & H3).
  by split_and!.
Qed.

(** Likewise for a series on the table's index: it is stored under the
    target name, and when its own name differs a warning is issued. *)
Lemma target_setter_series_keeps_features w t s :
  _data (self w) = Blocks2D t → NoDup (t_cols t).*1 →
  has_data (self w) = true → has_target (self w) = true →
  s_index s = t_index t →
  ∃ w', target_setter (TSeries s) w = (Ok (), w')
    ∧ data (self w') = data (self w)
    ∧ _data_columns (self w') = _data_columns (self w)
    ∧ target (self w')
      = Ok (Some (mkSeries (Some (target_name (self w))) (t_index t) (s_values s)))
    ∧ target_name (self w') = target_name (self w)
    ∧ warnings w'
      = if decide (s_name s = Some (target_name (self w))) then warnings w
        else ("Passed data is being renamed to '"
              +:+ format_label (target_name (self w)) +:+ "'") :: warnings w.
Proof.
  intros Hd Hnd Hh Ht Hidx.
  pose proof (data_2D_NoDup _ _ Hd Hnd) as Hdata. rewrite Hh in Hdata.
  destruct (retargeted_views (self w) t (s_values s) Hd Hnd Hh) as (H1 & H2 & H3).
  unfold target_setter.
  erewrite bind_run by reflexivity. rewrite Ht. simpl.
  erewrite bind_run by reflexivity.
  erewrite bind_run by reflexivity.
  destruct (decide (s_name s = Some (target_name (self w)))) as [Hn|Hn].
  - rewrite bool_decide_eq_false_2 by tauto.
    erewrite bind_run by reflexivity.
    erewrite bind_run by (unfold lift; by rewrite Hdata).
    erewrite bind_run.
    2:{ unfold lift, _constructor. simpl. rewrite _concat_target_2D. simpl.
        by rewrite !decide_True by (by rewrite Hidx). }
    eexists. split; [reflexivity|]. rewrite Hn. simpl. by split_and!.
  - rewrite bool_decide_eq_true_2 by done.
    erewrite bind_run by reflexivity. simpl.
    erewrite bind_run by (unfold lift; by rewrite Hdata).
    erewrite bind_run.
    2:{ unfold lift, _constructor. simpl. rewrite _concat_target_2D. simpl.
        by rewrite !decide_True by (by rewrite Hidx). }
    eexists. split; [reflexivity|]. simpl. by split_and!.
Qed.

(** * Further properties *)

(** ** Dispatch that fails *)

Lemma bind_Raise_inv {A B} (m : M A) (f : A → M B) w e w' :
  (m ≫= f) w = (Raise e, w') →
  m w = (Raise e, w') ∨ ∃ a w1, m w = (Ok a, w1) ∧ f a w1 = (Raise e, w').
Proof.
  unfold mbind, M_bind. destruct (m w) as [[a|e1] w1]; [eauto|].
  intros [= -> ->]. by left.
Qed.

(** X1: dispatching a method the estimator does not have, or dispatching
    with [None] for an estimator, raises a value error before anything
    else happens: nothing is invoked, nothing is attached, the world is as
    it was.  This is [fit], [score] and every other wrapper's first step. *)
Theorem dispatch_missing_method w estimator method_name args kwargs :
  getattr (heap w) estimator method_name = None →
  ∃ msg, _call estimator method_name args kwargs w
         = (Raise (ValueError msg), w).
Proof.
  intros H. eexists. unfold _call. apply bind_run_raise. unfold _check_attr.
  by rewrite H.
Qed.

Lemma dispatch_missing_method_witness :
  (∃ msg, _call (Some 2) "transform" [] [] cached_world
          = (Raise (ValueError msg), cached_world))
  ∧ (∃ msg, _call None "fit" [] [] cached_world
            = (Raise (ValueError msg), cached_world)).
Proof.
  split.
  - apply (dispatch_missing_method cached_world (Some 2) "transform").
    vm_compute. reflexivity.
  - apply (dispatch_missing_method cached_world None "fit"). reflexivity.
Defined.

(** X2: the estimator is attached on success only.  When a dispatch
    raises, whether the table has no feature columns, the method raised
    something other than [TypeError], or the call without [y] raised too,
    the instance is exactly as before: table, target name, attached
    estimator and the four memoized results. *)
Theorem dispatch_failure_keeps_instance
    w estimator method_name args kwargs e w' :
  _call estimator method_name args kwargs w = (Raise e, w') →
  self w' = self w.
Proof.
  unfold _call. intros H.
  apply bind_Raise_inv in H as [H|(m & w1 & H1 & H)];
    [by apply keeps_self_run in H; [|keeps_self]|].
  apply keeps_self_run in H1; [|keeps_self].
  apply bind_Raise_inv in H as [H|(s & w2 & H2 & H)];
    [apply keeps_self_run in H; [congruence|keeps_self]|].
  apply keeps_self_run in H2; [|keeps_self].
  apply bind_Raise_inv in H as [H|(d & w3 & H3 & H)];
    [apply keeps_self_run in H; [congruence|keeps_self]|].
  apply keeps_self_run in H3; [|keeps_self].
  apply bind_Raise_inv in H as [H|(X & w4 & H4 & H)];
    [apply keeps_self_run in H; [congruence|keeps_self]|].
  apply keeps_self_run in H4; [|keeps_self].
  apply bind_Raise_inv in H as [H|(res & w5 & H5 & H)];
    [apply keeps_self_run in H; [congruence|keeps_self]|].
  rewrite (bind_run _ _ _ _ _ (estimator_setter_run _ _)) in H.
  discriminate.
Qed.

Lemma dispatch_failure_keeps_instance_witness :
  self (_call (Some 3) "fit" [] [] broken_world).2 = self broken_world.
Proof.
  apply (dispatch_failure_keeps_instance broken_world (Some 3) "fit" [] []
           (ValueError "bad input")).
  vm_compute. reflexivity.
Defined.

(** ** The method table *)

(** X3: [_get_mapper] knows two method names.  For [fit] nothing is ever
    mapped, for [predict] only the class name [GaussianProcess] is, and
    for any other method name the lookup raises [UnboundLocalError]: the
    local variable [mapper] is read without having been assigned. *)
Theorem mapper_lookup (GaussianProcess_predict : mapped) :
  (∀ estimator w,
     _get_mapper GaussianProcess_predict estimator "fit" w = (Ok None, w))
  ∧ (∀ estimator w,
       _get_mapper GaussianProcess_predict estimator "predict" w
       = (Ok (if decide (class_name_of (heap w) estimator = "GaussianProcess")
              then Some GaussianProcess_predict else None), w))
  ∧ (∀ estimator method_name w,
       method_name ≠ "fit" → method_name ≠ "predict" →
       ∃ msg, _get_mapper GaussianProcess_predict estimator method_name w
              = (Raise (UnboundLocalError msg), w)).
Proof.
  split; [|split].
  - intros e w. unfold _get_mapper.
    assert (dict_get (_mapper GaussianProcess_predict) "fit" = Some []) as ->
      by (vm_compute; reflexivity).
    reflexivity.
  - apply _get_mapper_predict.
  - intros e name w Hfit Hpredict. eexists.
    unfold _get_mapper, dict_get, _mapper. simpl. rewrite decide_False by congruence. simpl.
    by rewrite decide_False by congruence.
Qed.

Lemma mapper_lookup_witness :
  ∃ msg, _get_mapper (λ _ _ _, mret PyNone) (Some 1) "transform" fresh_world
         = (Raise (UnboundLocalError msg), fresh_world).
Proof.
  apply (proj2 (proj2 (mapper_lookup (λ _ _ _, mret PyNone)))); discriminate.
Defined.

(** ** Wrappers that memoize *)

Lemma attached_caches w w1 estimator :
  self w1 = self w →
  _estimator (self (attached estimator w1)) = estimator
  ∧ _data (self (attached estimator w1)) = _data (self w)
  ∧ _target_name (self (attached estimator w1)) = _target_name (self w)
  ∧ _predicted (self (attached estimator w1))
    = kept_or_reset w estimator (_predicted (self w))
  ∧ _proba (self (attached estimator w1))
    = kept_or_reset w estimator (_proba (self w))
  ∧ _log_proba (self (attached estimator w1))
    = kept_or_reset w estimator (_log_proba (self w))
  ∧ _decision (self (attached estimator w1))
    = kept_or_reset w estimator (_decision (self w)).
Proof.
  intros H. unfold kept_or_reset, attached. rewrite H.
  destruct (bool_decide (_estimator (self w) = estimator)) eqn:He.
  - apply bool_decide_eq_true in He. by rewrite H.
  - done.
Qed.

Lemma probability_wrapper_Ok_inv (method_name : string)
    (set : pyobj → ModelFrame → ModelFrame) (get : ModelFrame → pyobj)
    estimator args kwargs w p w' :
  (∀ v mf, get (set v mf) = v) →
  (probability ← _call estimator method_name args kwargs;
   wrapped ← _wrap_probability probability estimator;
   modify_self (set wrapped);;
   self ← get_self;
   mret (get self)) w = (Ok p, w') →
  p ≠ PyNone
  ∧ ∃ w1, self w1 = self w ∧ self w' = set p (self (attached estimator w1)).
Proof.
  intros Hget H.
  apply bind_Ok_inv in H as (pr & w1 & H1 & H).
  apply _call_Ok_inv in H1 as (w0 & Hw0 & ->).
  apply bind_Ok_inv in H as (wrapped & w2 & H2 & H).
  pose proof (_wrap_probability_not_None _ _ _ _ _ H2) as Hnn.
  apply keeps_self_run in H2; [|apply keeps_self_wrap_probability].
  unfold mbind, M_bind, modify_self, get_self, mret, M_ret in H. simpl in H.
  injection H as <- <-. rewrite Hget. split; [done|]. exists w0.
  simpl. by rewrite H2.
Qed.

(** X4: each of [predict_proba], [predict_log_proba] and
    [decision_function], when it succeeds, returns what it stores in its
    own slot, which is never [None]; it attaches the estimator and leaves
    the table alone, and the three other memoized results are kept when the
    estimator is the one that was attached and unset otherwise. *)
Theorem probability_wrappers_memoize :
  (∀ w estimator args kwargs p w',
     predict_proba estimator args kwargs w = (Ok p, w') →
     _proba (self w') = p ∧ p ≠ PyNone
     ∧ _estimator (self w') = estimator
     ∧ _data (self w') = _data (self w)
     ∧ _predicted (self w') = kept_or_reset w estimator (_predicted (self w))
     ∧ _log_proba (self w') = kept_or_reset w estimator (_log_proba (self w))
     ∧ _decision (self w') = kept_or_reset w estimator (_decision (self w)))
  ∧ (∀ w estimator args kwargs p w',
       predict_log_proba estimator args kwargs w = (Ok p, w') →
       _log_proba (self w') = p ∧ p ≠ PyNone
       ∧ _estimator (self w') = estimator
       ∧ _data (self w') = _data (self w)
       ∧ _predicted (self w') = kept_or_reset w estimator (_predicted (self w))
       ∧ _proba (self w') = kept_or_reset w estimator (_proba (self w))
       ∧ _decision (self w') = kept_or_reset w estimator (_decision (self w)))
  ∧ (∀ w estimator args kwargs p w',
       decision_function estimator args kwargs w = (Ok p, w') →
       _decision (self w') = p ∧ p ≠ PyNone
       ∧ _estimator (self w') = estimator
       ∧ _data (self w') = _data (self w)
       ∧ _predicted (self w') = kept_or_reset w estimator (_predicted (self w))
       ∧ _proba (self w') = kept_or_reset w estimator (_proba (self w))
       ∧ _log_proba (self w') = kept_or_reset w estimator (_log_proba (self w))).
Proof.
  split; [|split]; intros w e args kwargs p w' H.
  - apply (probability_wrapper_Ok_inv "predict_proba" set_proba _proba) in H
      as (Hnn & w1 & Hw1 & ->); [|done].
    destruct (attached_caches w w1 e Hw1) as (?&?&?&?&?&?&?). by simpl.
  - apply (probability_wrapper_Ok_inv "predict_log_proba" set_log_proba _log_proba)
      in H as (Hnn & w1 & Hw1 & ->); [|done].
    destruct (attached_caches w w1 e Hw1) as (?&?&?&?&?&?&?). by simpl.
  - apply (probability_wrapper_Ok_inv "decision_function" set_decision _decision)
      in H as (Hnn & w1 & Hw1 & ->); [|done].
    destruct (attached_caches w w1 e Hw1) as (?&?&?&?&?&?&?). by simpl.
Qed.

Lemma probability_wrappers_memoize_witness :
  (∃ p w', predict_proba (Some 4) [] [] scorer_world = (Ok p, w')
     ∧ _proba (self w') = p ∧ p ≠ PyNone
     ∧ _estimator (self w') = Some 4
     ∧ _data (self w') = _data (self scorer_world)
     ∧ _predicted (self w')
       = kept_or_reset scorer_world (Some 4) (_predicted (self scorer_world))
     ∧ _log_proba (self w')
       = kept_or_reset scorer_world (Some 4) (_log_proba (self scorer_world))
     ∧ _decision (self w')
       = kept_or_reset scorer_world (Some 4) (_decision (self scorer_world)))
  ∧ (∃ p w', predict_log_proba (Some 4) [] [] scorer_world = (Ok p, w')
       ∧ _log_proba (self w') = p ∧ p ≠ PyNone
       ∧ _estimator (self w') = Some 4
       ∧ _data (self w') = _data (self scorer_world)
       ∧ _predicted (self w')
         = kept_or_reset scorer_world (Some 4) (_predicted (self scorer_world))
       ∧ _proba (self w')
         = kept_or_reset scorer_world (Some 4) (_proba (self scorer_world))
       ∧ _decision (self w')
         = kept_or_reset scorer_world (Some 4) (_decision (self scorer_world)))
  ∧ (∃ p w', decision_function (Some 4) [] [] scorer_world = (Ok p, w')
       ∧ _decision (self w') = p ∧ p ≠ PyNone
       ∧ _estimator (self w') = Some 4
       ∧ _data (self w') = _data (self scorer_world)
       ∧ _predicted (self w')
         = kept_or_reset scorer_world (Some 4) (_predicted (self scorer_world))
       ∧ _proba (self w')
         = kept_or_reset scorer_world (Some 4) (_proba (self scorer_world))
       ∧ _log_proba (self w')
         = kept_or_reset scorer_world (Some 4) (_log_proba (self scorer_world))).
Proof.
  split; [|split]; eexists; eexists; (split; [vm_compute; reflexivity|]).
  - apply (proj1 probability_wrappers_memoize scorer_world (Some 4) [] []).
    vm_compute. reflexivity.
  - apply (proj1 (proj2 probability_wrappers_memoize) scorer_world (Some 4) [] []).
    vm_compute. reflexivity.
  - apply (proj2 (proj2 probability_wrappers_memoize) scorer_world (Some 4) [] []).
    vm_compute. reflexivity.
Defined.

(** X5: [fit_predict], and [predict] for an estimator whose class has no
    mapped method, return on success what they store in [predicted]; they
    attach the estimator and leave the table alone, and the three
    probability results are kept when the estimator is the one that was
    attached and unset otherwise. *)
Theorem prediction_wrappers_memoize (GaussianProcess_predict : mapped) :
  (∀ w estimator args kwargs r w',
     fit_predict estimator args kwargs w = (Ok r, w') →
     _predicted (self w') = r
     ∧ _estimator (self w') = estimator
     ∧ _data (self w') = _data (self w)
     ∧ _proba (self w') = kept_or_reset w estimator (_proba (self w))
     ∧ _log_proba (self w') = kept_or_reset w estimator (_log_proba (self w))
     ∧ _decision (self w') = kept_or_reset w estimator (_decision (self w)))
  ∧ (∀ w estimator args kwargs r w',
       class_name_of (heap w) estimator ≠ "GaussianProcess" →
       predict GaussianProcess_predict estimator args kwargs w = (Ok r, w') →
       _predicted (self w') = r
       ∧ _estimator (self w') = estimator
       ∧ _data (self w') = _data (self w)
       ∧ _proba (self w') = kept_or_reset w estimator (_proba (self w))
       ∧ _log_proba (self w') = kept_or_reset w estimator (_log_proba (self w))
       ∧ _decision (self w') = kept_or_reset w estimator (_decision (self w))).
Proof.
  split.
  - intros w e args kwargs r w' H. unfold fit_predict in H.
    apply bind_Ok_inv in H as (p & w1 & H1 & H).
    apply _call_Ok_inv in H1 as (w0 & Hw0 & ->).
    apply _wrap_predicted_Ok_inv in H. rewrite H.
    destruct (attached_caches w w0 e Hw0) as (?&?&?&?&?&?&?). by simpl.
  - intros w e args kwargs r w' Hc H.
    apply predict_Ok_unmapped in H as (w0 & Hw0 & ->); [|done].
    destruct (attached_caches w w0 e Hw0) as (?&?&?&?&?&?&?). by simpl.
Qed.

Lemma prediction_wrappers_memoize_witness :
  (∃ r w', fit_predict (Some 4) [] [] scorer_world = (Ok r, w')
     ∧ _predicted (self w') = r
     ∧ _estimator (self w') = Some 4
     ∧ _data (self w') = _data (self scorer_world)
     ∧ _proba (self w')
       = kept_or_reset scorer_world (Some 4) (_proba (self scorer_world))
     ∧ _log_proba (self w')
       = kept_or_reset scorer_world (Some 4) (_log_proba (self scorer_world))
     ∧ _decision (self w')
       = kept_or_reset scorer_world (Some 4) (_decision (self scorer_world)))
  ∧ (∃ r w',
       predict (λ _ _ _, mret PyNone) (Some 4) [] [] scorer_world = (Ok r, w')
       ∧ _predicted (self w') = r
       ∧ _estimator (self w') = Some 4
       ∧ _data (self w') = _data (self scorer_world)
       ∧ _proba (self w')
         = kept_or_reset scorer_world (Some 4) (_proba (self scorer_world))
       ∧ _log_proba (self w')
         = kept_or_reset scorer_world (Some 4) (_log_proba (self scorer_world))
       ∧ _decision (self w')
         = kept_or_reset scorer_world (Some 4) (_decision (self scorer_world))).
Proof.
  split; eexists; eexists; (split; [vm_compute; reflexivity|]).
  - apply (proj1 (prediction_wrappers_memoize (λ _ _ _, mret PyNone))
             scorer_world (Some 4) [] []).
    vm_compute. reflexivity.
  - apply (proj2 (prediction_wrappers_memoize (λ _ _ _, mret PyNone))
             scorer_world (Some 4) [] []).
    + vm_compute. discriminate.
    + vm_compute. reflexivity.
Defined.

(** ** Wrapping probabilities *)

Lemma column_of_is_Some rows n j :
  Forall (λ r : list scalar, length r = n) rows → j < n →
  is_Some (pd.column_of rows j).
Proof.
  intros Hrows Hj. unfold pd.column_of. apply mapM_is_Some_2.
  eapply Forall_impl; [exact Hrows|]. intros r Hr. simpl in *.
  apply lookup_lt_is_Some. lia.
Qed.

Lemma DataFrame_new_labelled rows idx cs :
  length idx = length rows → rows ≠ [] →
  Forall (λ r : list scalar, length r = length cs) rows →
  ∃ cols, pd.DataFrame_new rows (Some idx) (Some cs)
          = Ok (Blocks2D (mkTable idx (zip cs cols)))
          ∧ length cols = length cs.
Proof.
  intros Hidx Hne Hrows.
  assert (pd.ncols rows = length cs) as Hn.
  { destruct rows as [|r rows]; [done|]. simpl. by inversion Hrows. }
  unfold pd.DataFrame_new. simpl. rewrite Hn.
  rewrite !bool_decide_eq_true_2 by done. simpl.
  destruct (mapM (pd.column_of rows) (seq 0 (length cs))) as [cols|] eqn:Hm.
  - exists cols. split; [done|]. apply length_mapM in Hm.
    by rewrite length_seq in Hm.
  - assert (is_Some (mapM (pd.column_of rows) (seq 0 (length cs)))) as [? Hs].
    { apply mapM_is_Some_2. apply Forall_forall. intros j Hj. simpl.
      apply elem_of_seq in Hj. eapply column_of_is_Some; [done|lia]. }
    congruence.
Qed.

(** X6: a two-dimensional result with other than one column, one row per
    row of the table and one column per class of the estimator, is wrapped
    into a frame on the table's row labels whose columns are the
    estimator's [classes_]; nothing is warned.  A one-dimensional result
    whose length is not the table's cannot be wrapped: a warning is issued
    and the raw array is returned instead of an error. *)
Theorem wrap_probability_labels :
  (∀ w t l est rows cs,
     _data (self w) = Blocks2D t →
     heap w !! l = Some est → classes_ est = Some cs →
     length rows = length (t_index t) → rows ≠ [] →
     Forall (λ r, length r = length cs) rows → length cs ≠ 1 →
     ∃ d, _wrap_probability (RArray2 rows) (Some l) w = (Ok (PyFrame d), w)
       ∧ pd.index d = Ok (t_index t)
       ∧ pd.columns d = cs)
  ∧ (∀ w t estimator xs,
       _data (self w) = Blocks2D t →
       length xs ≠ length (t_index t) →
       _wrap_probability (RArray1 xs) estimator w
       = (Ok (PyArray1 xs),
          mkWorld (self w) (heap w) (calls w)
            (("Unable to instantiate ModelFrame for '"
              +:+ class_name_of (heap w) estimator +:+ "'") :: warnings w))).
Proof.
  split.
  - intros w t l est rows cs Hd Hl Hcs Hlen Hne Hrows Hcls.
    assert (pd.ncols rows = length cs) as Hn.
    { destruct rows as [|r rows]; [done|]. simpl. by inversion Hrows. }
    destruct (DataFrame_new_labelled rows (t_index t) cs) as (cols & Hnew & Hcols);
      [done..|].
    exists (Blocks2D (mkTable (t_index t) (zip cs cols))).
    split; [|split; [done|]].
    + unfold _wrap_probability, try_except_ValueError.
      erewrite bind_run by reflexivity.
      erewrite bind_run by reflexivity.
      assert (bool_decide (length [length rows; pd.ncols rows] < 2)
              || bool_decide ([length rows; pd.ncols rows] !! 1 = Some 1)
              = false) as ->.
      { rewrite bool_decide_eq_false_2 by (simpl; lia).
        rewrite bool_decide_eq_false_2; [done|]. simpl. rewrite Hn. congruence. }
      erewrite bind_run by (unfold lift; by rewrite Hd).
      erewrite bind_run by (unfold get_classes_; simpl; rewrite Hl; simpl;
                            by rewrite Hcs).
      unfold fmap, M_fmap, lift, _constructor_array. by rewrite Hnew.
    + simpl. apply fst_zip. lia.
  - intros w t e xs Hd Hlen.
    unfold _wrap_probability, try_except_ValueError.
    erewrite bind_run by reflexivity.
    erewrite bind_run by reflexivity.
    simpl.
    erewrite bind_run by (unfold lift; by rewrite Hd).
    unfold fmap, M_fmap, lift, _constructor_array, pd.DataFrame_new. simpl.
    rewrite length_fmap.
    rewrite bool_decide_eq_false_2 by congruence. simpl.
    reflexivity.
Qed.

Lemma wrap_probability_labels_witness :
  (∃ d, _wrap_probability (RArray2 [[Int 0; Int 1]; [Int 1; Int 0]]) (Some 4)
          scorer_world
        = (Ok (PyFrame d), scorer_world)
     ∧ pd.index d = Ok (t_index table_yab)
     ∧ pd.columns d = [Str "no"; Str "yes"])
  ∧ _wrap_probability (RArray1 [Int 1]) (Some 4) scorer_world
    = (Ok (PyArray1 [Int 1]),
       mkWorld (self scorer_world) (heap scorer_world) (calls scorer_world)
         (("Unable to instantiate ModelFrame for '"
           +:+ class_name_of (heap scorer_world) (Some 4) +:+ "'")
          :: warnings scorer_world)).
Proof.
  split.
  - apply (proj1 wrap_probability_labels scorer_world table_yab 4 scorer).
    + reflexivity.
    + vm_compute. reflexivity.
    + reflexivity.
    + reflexivity.
    + discriminate.
    + repeat constructor.
    + simpl. lia.
  - apply (proj2 wrap_probability_labels scorer_world table_yab).
    + reflexivity.
    + simpl. lia.
Defined.

(** X7: a failure of the wrapping comes after the dispatch.  When
    [predict_proba] returned an array with other than one column and the
    estimator has no [classes_], the wrapper raises [AttributeError] (only
    [ValueError] is caught), and the world is the one the dispatch left:
    the estimator is attached, and [proba] was kept or unset by that
    attachment, not stored. *)
Theorem predict_proba_without_classes
    w t estimator args kwargs rows w1 :
  _data (self w) = Blocks2D t →
  _call estimator "predict_proba" args kwargs w = (Ok (RArray2 rows), w1) →
  pd.ncols rows ≠ 1 →
  (∀ l est, estimator = Some l → heap w1 !! l = Some est →
            classes_ est = None) →
  (∃ msg, predict_proba estimator args kwargs w
          = (Raise (AttributeError msg), w1))
  ∧ _estimator (self w1) = estimator
  ∧ _proba (self w1) = kept_or_reset w estimator (_proba (self w)).
Proof.
  intros Hd Hcall Hcols Hcls.
  pose proof Hcall as Hinv. apply _call_Ok_inv in Hinv as (w0 & Hw0 & ->).
  destruct (attached_caches w w0 estimator Hw0) as (He & Hd' & _ & _ & Hp & _).
  split; [|done]. eexists.
  unfold predict_proba. erewrite bind_run by exact Hcall.
  apply bind_run_raise.
  unfold _wrap_probability, try_except_ValueError.
  erewrite bind_run by reflexivity.
  erewrite bind_run by reflexivity.
  assert (bool_decide (length [length rows; pd.ncols rows] < 2)
          || bool_decide ([length rows; pd.ncols rows] !! 1 = Some 1)
          = false) as ->.
  { rewrite bool_decide_eq_false_2 by (simpl; lia).
    rewrite bool_decide_eq_false_2; [done|]. simpl. congruence. }
  erewrite bind_run by (unfold lift; by rewrite Hd', Hd).
  assert (get_classes_ estimator (attached estimator w0)
          = (Raise (AttributeError "object has no attribute 'classes_'"),
             attached estimator w0)) as Hg.
  { unfold get_classes_. destruct estimator as [l|]; [|done]. simpl.
    destruct (heap (attached (Some l) w0) !! l) as [est|] eqn:Hl; [|done].
    simpl. by rewrite (Hcls l est eq_refl Hl). }
  by rewrite (bind_run_raise _ _ _ _ _ Hg).
Qed.

Lemma predict_proba_without_classes_witness :
  let w1 := (_call (Some 5) "predict_proba" [] [] scorer_world).2 in
  (∃ msg, predict_proba (Some 5) [] [] scorer_world
          = (Raise (AttributeError msg), w1))
  ∧ _estimator (self w1) = Some 5
  ∧ _proba (self w1)
    = kept_or_reset scorer_world (Some 5) (_proba (self scorer_world)).
Proof.
  apply (predict_proba_without_classes scorer_world table_yab (Some 5) [] []
           [[Int 0; Int 1]; [Int 1; Int 0]]).
  - reflexivity.
  - vm_compute. reflexivity.
  - simpl. lia.
  - intros l est [= <-]. vm_compute. by intros [= <-].
Defined.

(** ** The memoizing properties *)

Lemma is_None_false (o : pyobj) : o ≠ PyNone → is_None o = false.
Proof. by destruct o. Qed.

(** X8: [proba] computes once.  A memoized value is returned as it is,
    without touching the world.  When nothing is memoized and
    [predict_proba] with the attached estimator succeeds, the property
    returns its result, stores it, records one warning and invokes nothing
    beyond that dispatch; read again, it returns the same value and leaves
    the world alone. *)
Theorem proba_is_memoized :
  (∀ w, _proba (self w) ≠ PyNone → proba w = (Ok (_proba (self w)), w))
  ∧ (∀ w p w1,
       _proba (self w) = PyNone →
       predict_proba (_estimator (self w)) [] [] w = (Ok p, w1) →
       ∃ w2, proba w = (Ok p, w2)
         ∧ self w2 = self w1
         ∧ _proba (self w2) = p
         ∧ heap w2 = heap w1
         ∧ calls w2 = calls w1
         ∧ warnings w2
           = ("Automatically call '"
              +:+ class_name_of (heap w1) (_estimator (self w))
              +:+ ".predict_proba()' to get probabilities") :: warnings w1
         ∧ proba w2 = (Ok p, w2)).
Proof.
  assert (∀ w, _proba (self w) ≠ PyNone → proba w = (Ok (_proba (self w)), w))
    as Hcached.
  { intros w Hp. unfold proba. erewrite bind_run by reflexivity.
    rewrite is_None_false by done. reflexivity. }
  split; [done|].
  intros w p w1 Hnone Hrun.
  pose proof Hrun as Hinv.
  apply (probability_wrapper_Ok_inv "predict_proba" set_proba _proba) in Hinv
    as (Hnn & w0 & Hw0 & Hw1); [|done].
  assert (_proba (self w1) = p) as Hp by (by rewrite Hw1).
  assert (_estimator (self w1) = _estimator (self w)) as He.
  { rewrite Hw1. simpl. apply attached_estimator. }
  assert (set_proba p (self w1) = self w1) as Hset.
  { rewrite Hw1. reflexivity. }
  eexists. split.
  - unfold proba. erewrite bind_run by reflexivity. rewrite Hnone. simpl.
    unfold estimator. erewrite bind_run.
    2:{ erewrite bind_run by exact Hrun.
        unfold mbind, M_bind, modify_self, get_self, get_class_name, warn.
        simpl. rewrite Hset. reflexivity. }
    erewrite bind_run by reflexivity. simpl. by rewrite Hp.
  - simpl. split_and!; try done.
    + by rewrite He.
    + rewrite Hcached; simpl; by rewrite Hp.
Qed.

Lemma proba_is_memoized_witness :
  proba cached_world = (Ok (_proba (self cached_world)), cached_world)
  ∧ (let w1 := (predict_proba (Some 4) [] [] lazy_world).2 in
     ∃ p w2, proba lazy_world = (Ok p, w2)
       ∧ self w2 = self w1
       ∧ _proba (self w2) = p
       ∧ heap w2 = heap w1
       ∧ calls w2 = calls w1
       ∧ warnings w2
         = ("Automatically call '"
            +:+ class_name_of (heap w1) (_estimator (self lazy_world))
            +:+ ".predict_proba()' to get probabilities") :: warnings w1
       ∧ proba w2 = (Ok p, w2)).
Proof.
  split.
  - apply (proj1 proba_is_memoized). discriminate.
  - intros w1. eexists.
    apply (proj2 proba_is_memoized lazy_world _ w1).
    + reflexivity.
    + vm_compute. reflexivity.
Defined.

Lemma _call_None_run method_name args kwargs w :
  _call None method_name args kwargs w
  = (Raise (ValueError ("class NoneType doesn't have " +:+ method_name
                        +:+ " method")), w).
Proof. unfold _call. by apply bind_run_raise. Qed.

(** X9: the four memoizing properties need an estimator.  On an instance
    to which none is attached, reading a result that is not memoized
    dispatches with [None] and raises the value error of the missing
    method; the world is as it was, and no warning was issued. *)
Theorem accessors_without_estimator (GaussianProcess_predict : mapped) w :
  _estimator (self w) = None →
  (_predicted (self w) = PyNone →
   ∃ msg, predicted GaussianProcess_predict w = (Raise (ValueError msg), w))
  ∧ (_proba (self w) = PyNone →
     ∃ msg, proba w = (Raise (ValueError msg), w))
  ∧ (_log_proba (self w) = PyNone →
     ∃ msg, log_proba w = (Raise (ValueError msg), w))
  ∧ (_decision (self w) = PyNone →
     ∃ msg, decision w = (Raise (ValueError msg), w)).
Proof.
  intros He. split_and!; intros Hnone; eexists.
  - unfold predicted. erewrite bind_run by reflexivity.
    rewrite Hnone. simpl. unfold estimator. rewrite He.
    apply bind_run_raise. apply bind_run_raise.
    unfold predict.
    rewrite (bind_run _ _ _ _ _ (_get_mapper_predict _ _ _)).
    rewrite decide_False by done.
    apply bind_run_raise. apply _call_None_run.
  - unfold proba. erewrite bind_run by reflexivity.
    rewrite Hnone. simpl. unfold estimator. rewrite He.
    apply bind_run_raise. apply bind_run_raise.
    unfold predict_proba. apply bind_run_raise. apply _call_None_run.
  - unfold log_proba. erewrite bind_run by reflexivity.
    rewrite Hnone. simpl. unfold estimator. rewrite He.
    apply bind_run_raise. apply bind_run_raise.
    unfold predict_log_proba. apply bind_run_raise. apply _call_None_run.
  - unfold decision. erewrite bind_run by reflexivity.
    rewrite Hnone. simpl. unfold estimator. rewrite He.
    apply bind_run_raise. apply bind_run_raise.
    unfold decision_function. apply bind_run_raise. apply _call_None_run.
Qed.

Lemma accessors_without_estimator_witness :
  (∃ msg, predicted (λ _ _ _, mret PyNone) fresh_world
          = (Raise (ValueError msg), fresh_world))
  ∧ (∃ msg, proba fresh_world = (Raise (ValueError msg), fresh_world))
  ∧ (∃ msg, log_proba fresh_world = (Raise (ValueError msg), fresh_world))
  ∧ (∃ msg, decision fresh_world = (Raise (ValueError msg), fresh_world)).
Proof.
  destruct (accessors_without_estimator (λ _ _ _, mret PyNone) fresh_world
              eq_refl) as (H1 & H2 & H3 & H4).
  split; [|split; [|split]].
  - apply H1. reflexivity.
  - apply H2. reflexivity.
  - apply H3. reflexivity.
  - apply H4. reflexivity.
Defined.

(** ** Table operations and the estimator side *)

Lemma keeps_memo_ret {A} (a : A) : keeps_memo (mret a).
Proof. done. Qed.

Lemma keeps_memo_raise {A} e : keeps_memo (@raise A e).
Proof. done. Qed.

Lemma keeps_memo_lift {A} (o : outcome A) : keeps_memo (lift o).
Proof. done. Qed.

Lemma keeps_memo_get_self : keeps_memo get_self.
Proof. done. Qed.

Lemma keeps_memo_warn msg : keeps_memo (warn msg).
Proof. done. Qed.

Lemma keeps_memo_update_inplace result : keeps_memo (_update_inplace result).
Proof. done. Qed.

Lemma keeps_memo_target_name_setter value :
  keeps_memo (target_name_setter value).
Proof. done. Qed.

Lemma keeps_memo_bind {A B} (m : M A) (f : A → M B) :
  keeps_memo m → (∀ a, keeps_memo (f a)) → keeps_memo (m ≫= f).
Proof.
  intros Hm Hf w. unfold mbind, M_bind. specialize (Hm w).
  destruct (m w) as [[a|e] w1]; cbn [snd] in *; [|done].
  destruct Hm as (Hm1 & Hm2 & Hm3). destruct (Hf a w1) as (Hf1 & Hf2 & Hf3).
  split_and!; congruence.
Qed.

Create HintDb keeps_memo.
#[local] Hint Resolve keeps_memo_ret keeps_memo_raise keeps_memo_lift
  keeps_memo_get_self keeps_memo_warn keeps_memo_update_inplace
  keeps_memo_target_name_setter : keeps_memo.

Ltac keeps_memo :=
  repeat first
    [ apply keeps_memo_bind; [|intros ?]
    | solve [eauto with keeps_memo]
    | match goal with
      | |- keeps_memo (match ?x with _ => _ end) => destruct x
      | |- keeps_memo (if ?b then _ else _) => destruct b
      end ].

(** X10: no operation on the table touches the estimator side.  The
    setters and deleters of [data] and [target] and the setter of
    [target_name], whatever they are given and whether they return or
    raise, leave the attached estimator and the four memoized results as
    they were, and invoke nothing: results memoized for the old table
    outlive a change of the table. *)
Theorem table_mutation_keeps_memo :
  (∀ data, keeps_memo (data_setter data))
  ∧ (∀ target, keeps_memo (target_setter target))
  ∧ keeps_memo data_deleter
  ∧ keeps_memo target_deleter
  ∧ (∀ value, keeps_memo (target_name_setter value)).
Proof.
  assert (keeps_memo data_deleter) as Hdd
    by (unfold data_deleter; keeps_memo).
  assert (keeps_memo target_deleter) as Htd
    by (unfold target_deleter; keeps_memo).
  split_and!; try done.
  - intros data. unfold data_setter. destruct (data_is_None data); [done|].
    keeps_memo.
  - intros target. unfold target_setter. destruct target; [done|..];
      keeps_memo.
Qed.

(** ** Assigning the data *)

Lemma filter_ne_notin (tn : label) (ls : list label) :
  tn ∉ ls → filter (λ l, l ≠ tn) ls = ls.
Proof.
  induction ls as [|l ls IH]; [done|]. intros Hn.
  apply not_elem_of_cons in Hn as [Hne Hn].
  rewrite filter_cons_True by done. f_equal. by apply IH.
Qed.

Lemma filter_cols_ne_notin (tn : label) (cols : list (label * list scalar)) :
  tn ∉ cols.*1 → filter (λ c, c.1 ≠ tn) cols = cols.
Proof.
  induction cols as [|c cols IH]; [done|]. rewrite fmap_cons. intros Hn.
  apply not_elem_of_cons in Hn as [Hne Hn].
  rewrite filter_cons_True by done. f_equal. by apply IH.
Qed.

(** The views of a table whose first column is the target and whose other
    columns are labelled differently, each once. *)
Lemma views_target_first T idx cells cols :
  _data T = Blocks2D (mkTable idx ((target_name T, cells) :: cols)) →
  NoDup cols.*1 → target_name T ∉ cols.*1 → cols ≠ [] →
  data T = Ok (Some (_constructor (Blocks2D (mkTable idx cols))))
  ∧ target T = Ok (Some (mkSeries (Some (target_name T)) idx cells))
  ∧ has_data T = true
  ∧ has_target T = true.
Proof.
  intros Hd Hnd Hn Hne.
  assert (_data_columns T = cols.*1) as Hcols.
  { unfold _data_columns, columns. rewrite Hd. simpl.
    rewrite filter_cons_False by (intros H; by apply H).
    by apply filter_ne_notin. }
  assert (has_data T = true) as Hh.
  { unfold has_data. rewrite Hcols. apply bool_decide_eq_true.
    destruct cols; [done|simpl; lia]. }
  split_and!; [|by eapply target_first_column|done|].
  - rewrite (data_2D_NoDup T (mkTable idx ((target_name T, cells) :: cols)) Hd).
    + rewrite Hh. simpl.
      rewrite filter_cons_False by (intros H; by apply H).
      by rewrite filter_cols_ne_notin.
    + simpl. by apply NoDup_cons.
  - unfold has_target, columns. rewrite Hd. simpl.
    apply bool_decide_eq_true. by left.
Qed.

(** [target] of a two-dimensional instance does not raise. *)
Lemma target_2D_total T t : _data T = Blocks2D t → ∃ s, target T = Ok s.
Proof.
  intros Hd. destruct (has_target T) eqn:Ht.
  - destruct (target_2D _ _ Hd Ht) as (cells & _ & ->). eauto.
  - unfold target. rewrite Ht. eauto.
Qed.

(** The setter of [data] given a frame, once [self.target] was read. *)
Lemma data_setter_frame_run data d w s :
  as_DataFrame data = Some d →
  (∀ mf, data = DModelFrame mf → has_target mf = false) →
  target (self w) = Ok s →
  data_setter data w
  = if bool_decide (target_name (self w) ∈ pd.columns d) then
      (Raise (ValueError ("Passed data has the same column name as the target '"
                          +:+ format_label (target_name (self w)) +:+ "'")), w)
    else if has_target (self w) then
      match _concat_target (Some d) s with
      | Ok df => _update_inplace df w
      | Raise e => (Raise e, w)
      end
    else _update_inplace (IsFrame d) w.
Proof.
  intros Hd Hmf Ht.
  assert (_maybe_convert_data data (target_arg_of s) (target_name (self w))
          = Ok (Some d, match s with Some x => CSeries x | None => CNone end))
    as Hconv.
  { unfold _maybe_convert_data. rewrite Hd. by destruct s. }
  assert (data_is_None data = false) as Hn by (by destruct data).
  unfold data_setter. rewrite Hn.
  erewrite bind_run.
  2:{ destruct data as [| |?|mf]; try reflexivity.
      by rewrite (Hmf mf eq_refl). }
  erewrite bind_run by reflexivity.
  erewrite bind_run by (unfold lift; by rewrite Ht).
  erewrite bind_run by (unfold lift; by rewrite Hconv).
  cbv beta iota.
  destruct (bool_decide (target_name (self w) ∈ pd.columns d)); [done|].
  destruct (has_target (self w)); [|done].
  erewrite bind_run by (unfold lift; by rewrite Ht).
  unfold mbind, M_bind, lift. by destruct (_concat_target (Some d) s).
Qed.

(** X11: what the setter of [data] refuses.  A [ModelFrame] that has a
    target of its own, and on a table with unique column labels any frame
    one of whose columns carries the instance's target name, raise a value
    error, and the instance is left as it was. *)
Theorem data_setter_rejects :
  (∀ mf w, has_target mf = true →
     ∃ msg, data_setter (DModelFrame mf) w = (Raise (ValueError msg), w))
  ∧ (∀ data d t w, as_DataFrame data = Some d →
       _data (self w) = Blocks2D t → NoDup (t_cols t).*1 →
       target_name (self w) ∈ pd.columns d →
       ∃ msg, data_setter data w = (Raise (ValueError msg), w)).
Proof.
  assert (∀ mf w, has_target mf = true →
            ∃ msg, data_setter (DModelFrame mf) w = (Raise (ValueError msg), w))
    as Hown.
  { intros mf w Hmf. eexists. unfold data_setter. simpl. rewrite Hmf.
    by apply bind_run_raise. }
  split; [done|].
  intros data d t w Hd Ht _ Hin.
  assert ((∃ mf, data = DModelFrame mf ∧ has_target mf = true)
          ∨ ∀ mf, data = DModelFrame mf → has_target mf = false)
    as [(mf & -> & Hmf)|Hno].
  { destruct data as [| | |mf]; try (right; by intros mf [=]).
    destruct (has_target mf) eqn:Hmf; [left; eauto|].
    right. by intros mf' [= <-]. }
  { by apply Hown. }
  destruct (target_2D_total _ _ Ht) as [s Hs].
  rewrite (data_setter_frame_run data d w s) by done.
  rewrite bool_decide_eq_true_2 by done. eauto.
Qed.

Lemma data_setter_rejects_witness :
  (∃ msg, data_setter (DModelFrame frame_yab) fresh_world
          = (Raise (ValueError msg), fresh_world))
  ∧ (∃ msg, data_setter (DDataFrame (Blocks2D table_yab)) fresh_world
            = (Raise (ValueError msg), fresh_world)).
Proof.
  split.
  - apply (proj1 data_setter_rejects frame_yab fresh_world). reflexivity.
  - apply (proj2 data_setter_rejects (DDataFrame (Blocks2D table_yab))
             (Blocks2D table_yab) table_yab fresh_world).
    + reflexivity.
    + reflexivity.
    + apply (bool_decide_unpack _). vm_compute. exact I.
    + apply (bool_decide_unpack _). vm_compute. exact I.
Defined.

(** The setter of [data] on a table that has a target, given a frame on
    the table's row labels that has no column of the target's name. *)
Lemma data_setter_frame_target value t' w t :
  as_DataFrame value = Some (Blocks2D t') →
  (∀ mf, value = DModelFrame mf → has_target mf = false) →
  _data (self w) = Blocks2D t →
  has_target (self w) = true →
  target_name (self w) ∉ (t_cols t').*1 →
  t_index t' = t_index t →
  ∃ w' cells, data_setter value w = (Ok (), w')
    ∧ (target_name (self w), cells) ∈ t_cols t
    ∧ _data (self w')
      = Blocks2D (mkTable (t_index t)
          ((target_name (self w), cells) :: t_cols t'))
    ∧ target_name (self w') = target_name (self w)
    ∧ target (self w') = target (self w)
    ∧ (NoDup (t_cols t').*1 → t_cols t' ≠ [] →
       data (self w') = Ok (Some (_constructor (Blocks2D t')))).
Proof.
  intros Hd Hmf Ht Hh Hn Hidx.
  destruct (target_2D _ _ Ht Hh) as (cells & Hin & Hs).
  rewrite (data_setter_frame_run value _ w _ Hd Hmf Hs).
  rewrite bool_decide_eq_false_2 by done. rewrite Hh.
  rewrite _concat_target_2D. simpl.
  rewrite !decide_True by (by rewrite Hidx). simpl.
  eexists. exists cells. split; [reflexivity|].
  set (T' := set_data _ (self w)).
  assert (_data T'
          = Blocks2D (mkTable (t_index t)
              ((target_name T', cells) :: t_cols t'))) as Hd'
    by (unfold T'; simpl; by rewrite Hidx).
  split_and!; try done.
  - rewrite Hs. by eapply target_first_column.
  - intros Hnd Hne.
    destruct (views_target_first T' _ _ _ Hd' Hnd Hn Hne) as (Hdata & _).
    cbn [self]. rewrite Hdata.
    destruct t' as [idx' cols']. simpl in *. by rewrite Hidx.
Qed.

(** X12: assigning a frame as the data.  On a table that has a target,
    its column labels unique, a frame on the table's row labels none of
    whose columns carries the
    target name replaces the feature columns: the table becomes the target
    column followed by the frame's columns, the target and its name are as
    they were, and [data] then is the frame assigned (its column labels
    unique, at least one column).  On an instance without a target the
    frame becomes the table as it is. *)
Theorem data_setter_replaces_features :
  (∀ value t' w t, as_DataFrame value = Some (Blocks2D t') →
     (∀ mf, value = DModelFrame mf → has_target mf = false) →
     _data (self w) = Blocks2D t → NoDup (t_cols t).*1 →
     has_target (self w) = true →
     target_name (self w) ∉ (t_cols t').*1 →
     t_index t' = t_index t →
     ∃ w' cells, data_setter value w = (Ok (), w')
       ∧ (target_name (self w), cells) ∈ t_cols t
       ∧ _data (self w')
         = Blocks2D (mkTable (t_index t)
             ((target_name (self w), cells) :: t_cols t'))
       ∧ target_name (self w') = target_name (self w)
       ∧ target (self w') = target (self w)
       ∧ (NoDup (t_cols t').*1 → t_cols t' ≠ [] →
          data (self w') = Ok (Some (_constructor (Blocks2D t')))))
  ∧ (∀ value d w, as_DataFrame value = Some d →
       (∀ mf, value = DModelFrame mf → has_target mf = false) →
       has_target (self w) = false →
       target_name (self w) ∉ pd.columns d →
       ∃ w', data_setter value w = (Ok (), w')
         ∧ _data (self w') = d
         ∧ target_name (self w') = target_name (self w)).
Proof.
  split.
  { intros value t' w t Hd Hmf Ht _. by apply data_setter_frame_target. }
  intros value d w Hd Hmf Hh Hn.
  assert (target (self w) = Ok None) as Hs by (unfold target; by rewrite Hh).
  rewrite (data_setter_frame_run value _ w _ Hd Hmf Hs).
  rewrite bool_decide_eq_false_2 by done. rewrite Hh.
  eexists. by split_and!.
Qed.

Lemma data_setter_replaces_features_witness :
  (∃ w' cells, data_setter (DModelFrame frame_cd) fresh_world = (Ok (), w')
     ∧ (target_name (self fresh_world), cells) ∈ t_cols table_yab
     ∧ _data (self w')
       = Blocks2D (mkTable (t_index table_yab)
           ((target_name (self fresh_world), cells) :: t_cols table_cd))
     ∧ target_name (self w') = target_name (self fresh_world)
     ∧ target (self w') = target (self fresh_world)
     ∧ data (self w') = Ok (Some (_constructor (Blocks2D table_cd))))
  ∧ (∃ w', data_setter (DDataFrame (Blocks2D table_cd))
             (mkWorld frame_ab ∅ [] []) = (Ok (), w')
       ∧ _data (self w') = Blocks2D table_cd
       ∧ target_name (self w') = target_name frame_ab).
Proof.
  split.
  - destruct (proj1 data_setter_replaces_features (DModelFrame frame_cd)
                table_cd fresh_world table_yab)
      as (w' & cells & H1 & H2 & H3 & H4 & H5 & H6).
    + reflexivity.
    + intros mf [= <-]. reflexivity.
    + reflexivity.
    + apply (bool_decide_unpack _). vm_compute. exact I.
    + reflexivity.
    + apply (bool_decide_eq_false_1 (Str "y" ∈ (t_cols table_cd).*1)).
      vm_compute. reflexivity.
    + reflexivity.
    + exists w', cells. repeat (split; [assumption|]). apply H6.
      * apply (bool_decide_unpack _). vm_compute. exact I.
      * discriminate.
  - apply (proj2 data_setter_replaces_features (DDataFrame (Blocks2D table_cd))
             (Blocks2D table_cd) (mkWorld frame_ab ∅ [] [])).
    + reflexivity.
    + intros mf [=].
    + reflexivity.
    + apply (bool_decide_eq_false_1 (Str "y" ∈ (t_cols table_cd).*1)).
      vm_compute. reflexivity.
Defined.

(** ** Construction, further cases *)

(** X13: a target given by a label that no column carries is refused.  The
    constructor, given a frame or an array for data, and the setter of
    [target] raise the value error that names the label; the setter leaves
    the instance as it was. *)
Theorem unknown_target_label_raises :
  (∀ value d l, as_DataFrame value = Some d → l ∉ pd.columns d →
     __init__ value (TLabel l) = Raise (not_included l))
  ∧ (∀ rows d l, pd.DataFrame_new rows None None = Ok d → l ∉ pd.columns d →
       __init__ (DArray rows) (TLabel l) = Raise (not_included l))
  ∧ (∀ w l, l ∉ columns (self w) →
       target_setter (TLabel l) w = (Raise (not_included l), w)).
Proof.
  split_and!.
  - intros value d l Hd Hl. unfold __init__, _maybe_convert_data.
    destruct value; try discriminate; simpl in *; injection Hd as ->;
      by rewrite bool_decide_eq_false_2.
  - intros rows d l Hd Hl. unfold __init__, _maybe_convert_data. simpl.
    rewrite Hd. simpl. by rewrite bool_decide_eq_false_2.
  - intros w l Hl. unfold target_setter. erewrite bind_run by reflexivity.
    by rewrite bool_decide_eq_false_2.
Qed.

Lemma unknown_target_label_raises_witness :
  __init__ (DModelFrame frame_yab) (TLabel (Str "z"))
  = Raise (not_included (Str "z"))
  ∧ __init__ (DArray X_ab) (TLabel (Int 2)) = Raise (not_included (Int 2))
  ∧ target_setter (TLabel (Int 0)) fresh_world
    = (Raise (not_included (Int 0)), fresh_world).
Proof.
  split; [|split].
  - apply (proj1 unknown_target_label_raises (DModelFrame frame_yab)
             (Blocks2D table_yab)); [reflexivity|].
    apply (bool_decide_eq_false_1 (Str "z" ∈ pd.columns (Blocks2D table_yab))).
    vm_compute. reflexivity.
  - apply (proj1 (proj2 unknown_target_label_raises) X_ab
             (Blocks2D (mkTable rows01
                [(Int 0, [Int 1; Int 2]); (Int 1, [Int 3; Int 4])]))).
    + vm_compute. reflexivity.
    + apply (bool_decide_eq_false_1 (Int 2 ∈ [Int 0; Int 1])).
      vm_compute. reflexivity.
  - apply (proj2 (proj2 unknown_target_label_raises) fresh_world).
    apply (bool_decide_eq_false_1 (Int 0 ∈ columns (self fresh_world))).
    vm_compute. reflexivity.
Defined.

(** X14: construction without a target.  From a [ModelFrame] the new
    instance takes the table and the target name, so its [data] and
    [target] are those of the original, but not the estimator or any
    memoized result.  From a plain frame the table is taken as it is under
    the default target name [.target]: the instance has a target exactly
    when a column of the frame carries that label. *)
Theorem init_without_target :
  (∀ mf0, ∃ mf, __init__ (DModelFrame mf0) TNone = Ok mf
     ∧ _data mf = _data mf0
     ∧ target_name mf = target_name mf0
     ∧ data mf = data mf0
     ∧ target mf = target mf0
     ∧ memo mf = (None, PyNone, PyNone, PyNone, PyNone))
  ∧ (∀ d, ∃ mf, __init__ (DDataFrame d) TNone = Ok mf
       ∧ _data mf = d
       ∧ target_name mf = _TARGET_NAME
       ∧ has_target mf = bool_decide (_TARGET_NAME ∈ pd.columns d)).
Proof.
  split.
  - intros mf0. eexists. split; [reflexivity|]. by split_and!.
  - intros d. eexists. split; [reflexivity|]. by split_and!.
Qed.

(** X15: what was passed to the constructor is what the views return.
    With a frame of at least one column, its labels unique and none of
    them the target's name, [data] of the new instance is the frame; and
    [target] is the list passed, as the series named [.target] on the
    frame's row labels, or the named series passed, which also gives the
    target its name. *)
Theorem init_then_views :
  (∀ t vs, NoDup (t_cols t).*1 → _TARGET_NAME ∉ (t_cols t).*1 →
     t_cols t ≠ [] → length vs = length (t_index t) →
     ∃ mf, __init__ (DDataFrame (Blocks2D t)) (TList vs) = Ok mf
       ∧ data mf = Ok (Some (_constructor (Blocks2D t)))
       ∧ target mf = Ok (Some (mkSeries (Some _TARGET_NAME) (t_index t) vs)))
  ∧ (∀ t s n, NoDup (t_cols t).*1 → s_name s = Some n →
       n ∉ (t_cols t).*1 → t_cols t ≠ [] → s_index s = t_index t →
       ∃ mf, __init__ (DDataFrame (Blocks2D t)) (TSeries s) = Ok mf
         ∧ target_name mf = n
         ∧ data mf = Ok (Some (_constructor (Blocks2D t)))
         ∧ target mf = Ok (Some s)).
Proof.
  split.
  - intros t vs Hnd Hn Hne Hlen.
    rewrite (init_frame_list (DDataFrame (Blocks2D t)) t vs eq_refl).
    rewrite decide_True by done. eexists. split; [reflexivity|].
    set (mf := mkModelFrame _ _ _ _ _ _ _).
    destruct (views_target_first mf (t_index t) vs (t_cols t))
      as (Hdata & Htarget & _); try done.
    rewrite Hdata, Htarget. by destruct t.
  - intros t s n Hnd Hname Hn Hne Hidx.
    rewrite (init_frame_series (DDataFrame (Blocks2D t)) t s eq_refl).
    rewrite !decide_True by (by rewrite Hidx). simpl. rewrite Hname. simpl.
    eexists. split; [reflexivity|].
    set (mf := mkModelFrame _ _ _ _ _ _ _).
    destruct (views_target_first mf (t_index t) (s_values s) (t_cols t))
      as (Hdata & Htarget & _); try done.
    rewrite Hdata, Htarget. split; [done|].
    destruct t, s. simpl in *. by subst.
Qed.

Lemma init_then_views_witness :
  (∃ mf, __init__ (DDataFrame (Blocks2D table_cd)) (TList [Int 5; Int 6]) = Ok mf
     ∧ data mf = Ok (Some (_constructor (Blocks2D table_cd)))
     ∧ target mf
       = Ok (Some (mkSeries (Some _TARGET_NAME) (t_index table_cd)
                     [Int 5; Int 6])))
  ∧ (∃ mf, __init__ (DDataFrame (Blocks2D table_cd)) (TSeries series_t) = Ok mf
       ∧ target_name mf = Str "t"
       ∧ data mf = Ok (Some (_constructor (Blocks2D table_cd)))
       ∧ target mf = Ok (Some series_t)).
Proof.
  split.
  - apply (proj1 init_then_views table_cd [Int 5; Int 6]).
    + apply (bool_decide_unpack _). vm_compute. exact I.
    + apply (bool_decide_eq_false_1 (_TARGET_NAME ∈ (t_cols table_cd).*1)).
      vm_compute. reflexivity.
    + discriminate.
    + reflexivity.
  - apply (proj2 init_then_views table_cd series_t (Str "t")).
    + apply (bool_decide_unpack _). vm_compute. exact I.
    + reflexivity.
    + apply (bool_decide_eq_false_1 (Str "t" ∈ (t_cols table_cd).*1)).
      vm_compute. reflexivity.
    + discriminate.
    + reflexivity.
Defined.

(** ** Assigning a target to a table that has none *)

(** The setter of [target] given a named series, on a table without a
    target whose columns do not carry the series' name: the name is taken
    first, then the series is checked against the table. *)
Lemma target_setter_series_fresh_run w t s n :
  _data (self w) = Blocks2D t → NoDup (t_cols t).*1 → t_cols t ≠ [] →
  has_target (self w) = false → s_name s = Some n → n ∉ (t_cols t).*1 →
  target_setter (TSeries s) w
  = let w1 := (target_name_setter n w).2 in
    if decide (length (t_index t) = length (s_index s)) then
      if decide (t_index t = s_index s) then
        (Ok (), with_data (Blocks2D (mkTable (t_index t)
                             ((n, s_values s) :: t_cols t))) w1)
      else (Raise (ValueError "data and target must have equal index"), w1)
    else (Raise (ValueError "data and target must have same length"), w1).
Proof.
  intros Hd Hnd Hne Hh Hname Hn. cbv zeta.
  set (w1 := (target_name_setter n w).2).
  assert (_data (self w1) = Blocks2D t) as Hd1 by done.
  assert (target_name (self w1) = n) as Hn1 by done.
  assert (has_data (self w1) = true) as Hh1.
  { unfold has_data, _data_columns, columns. rewrite Hd1, Hn1. simpl.
    rewrite filter_ne_notin by done. apply bool_decide_eq_true.
    destruct (t_cols t); [done|simpl; lia]. }
  assert (data (self w1) = Ok (Some (_constructor (Blocks2D t)))) as Hdata.
  { rewrite (data_2D_NoDup _ _ Hd1 Hnd), Hh1, Hn1.
    rewrite filter_cols_ne_notin by done. by destruct t. }
  unfold target_setter.
  rewrite (bind_run get_self _ w (self w) w eq_refl). cbv beta.
  rewrite Hh, Hname. cbn [negb].
  rewrite (bind_run (target_name_setter n) _ w () w1 eq_refl). cbv beta.
  rewrite (bind_run get_self _ w1 (self w1) w1 eq_refl). cbv beta.
  rewrite Hn1.
  rewrite bool_decide_eq_false_2 by (intros H; by apply H).
  rewrite (bind_run (mret s) _ w1 s w1 eq_refl). cbv beta.
  rewrite (bind_run (lift (data (self w1))) _ w1
             (Some (_constructor (Blocks2D t))) w1)
    by (unfold lift; by rewrite Hdata).
  unfold _constructor. cbn [_data fmap option_fmap option_map].
  rewrite _concat_target_2D. rewrite Hname. cbn [default].
  destruct (decide (length (t_index t) = length (s_index s)));
    [|by apply bind_run_raise].
  destruct (decide (t_index t = s_index s)); [|by apply bind_run_raise].
  by erewrite bind_run by reflexivity.
Qed.

(** X16: on a table without a target, assigning a named series gives the
    target its name before the series is checked.  A series on the table's
    row labels becomes the target under its own name, the feature columns
    are the table as it was, and no warning is issued; a series of another
    length raises the value error, and the instance keeps the series' name
    as its target name although nothing was assigned. *)
Theorem target_setter_adopts_series_name :
  ∀ w t s n,
    _data (self w) = Blocks2D t → NoDup (t_cols t).*1 → t_cols t ≠ [] →
    has_target (self w) = false → s_name s = Some n → n ∉ (t_cols t).*1 →
    (s_index s = t_index t →
     ∃ w', target_setter (TSeries s) w = (Ok (), w')
       ∧ target_name (self w') = n
       ∧ target (self w') = Ok (Some s)
       ∧ data (self w') = Ok (Some (_constructor (Blocks2D t)))
       ∧ warnings w' = warnings w)
    ∧ (length (s_index s) ≠ length (t_index t) →
       ∃ w', target_setter (TSeries s) w
             = (Raise (ValueError "data and target must have same length"), w')
         ∧ target_name (self w') = n
         ∧ _data (self w') = _data (self w)
         ∧ has_target (self w') = false).
Proof.
  intros w t s n Hd Hnd Hne Hh Hname Hn.
  rewrite (target_setter_series_fresh_run w t s n) by done. cbv zeta.
  split.
  - intros Hidx. rewrite !decide_True by (by rewrite Hidx).
    eexists. split; [reflexivity|].
    set (w' := with_data _ _).
    destruct (views_target_first (self w') (t_index t) (s_values s) (t_cols t))
      as (Hdata & Htarget & _); try done.
    rewrite Hdata, Htarget. split_and!; try done.
    + destruct s. simpl in *. by subst.
    + by destruct t.
  - intros Hlen. rewrite decide_False by done.
    eexists. split; [reflexivity|]. split_and!; try done.
    unfold has_target, columns, target_name. simpl. rewrite Hd. simpl.
    by apply bool_decide_eq_false.
Qed.

Lemma target_setter_adopts_series_name_witness :
  (∃ w', target_setter (TSeries series_t) (mkWorld frame_cd ∅ [] []) = (Ok (), w')
     ∧ target_name (self w') = Str "t"
     ∧ target (self w') = Ok (Some series_t)
     ∧ data (self w') = Ok (Some (_constructor (Blocks2D table_cd)))
     ∧ warnings w' = [])
  ∧ (∃ w', target_setter (TSeries series_short) (mkWorld frame_cd ∅ [] [])
           = (Raise (ValueError "data and target must have same length"), w')
       ∧ target_name (self w') = Str "t"
       ∧ _data (self w') = _data frame_cd
       ∧ has_target (self w') = false).
Proof.
  assert (NoDup (t_cols table_cd).*1) as Hnd
    by (apply (bool_decide_unpack _); vm_compute; exact I).
  assert (Str "t" ∉ (t_cols table_cd).*1) as Hn.
  { apply (bool_decide_eq_false_1 (Str "t" ∈ (t_cols table_cd).*1)).
    vm_compute. reflexivity. }
  assert (t_cols table_cd ≠ []) as Hne by discriminate.
  split.
  - apply (proj1 (target_setter_adopts_series_name (mkWorld frame_cd ∅ [] [])
                    table_cd series_t (Str "t") eq_refl Hnd Hne eq_refl eq_refl Hn)).
    reflexivity.
  - apply (proj2 (target_setter_adopts_series_name (mkWorld frame_cd ∅ [] [])
                    table_cd series_short (Str "t") eq_refl Hnd Hne eq_refl
                    eq_refl Hn)).
    simpl. lia.
Defined.

(** ** Assigning the target of a table that has feature columns *)

(** X17: on a table that has feature columns, their labels unique,
    assigning a target replaces the target column and leaves the feature
    columns, their names, order and cells, as they were.  A list of the
    table's length becomes the target under the target name, without a
    warning; so does, on a table that has a target, a series on the
    table's row labels, with the warning of the renaming when its own name
    is another. *)
Theorem target_assignment_keeps_features :
  (∀ w t vs, _data (self w) = Blocks2D t → NoDup (t_cols t).*1 →
     has_data (self w) = true → length vs = length (t_index t) →
     ∃ w', target_setter (TList vs) w = (Ok (), w')
       ∧ data (self w') = data (self w)
       ∧ _data_columns (self w') = _data_columns (self w)
       ∧ target (self w')
         = Ok (Some (mkSeries (Some (target_name (self w))) (t_index t) vs))
       ∧ target_name (self w') = target_name (self w)
       ∧ warnings w' = warnings w)
  ∧ (∀ w t s, _data (self w) = Blocks2D t → NoDup (t_cols t).*1 →
       has_data (self w) = true → has_target (self w) = true →
       s_index s = t_index t →
       ∃ w', target_setter (TSeries s) w = (Ok (), w')
         ∧ data (self w') = data (self w)
         ∧ _data_columns (self w') = _data_columns (self w)
         ∧ target (self w')
           = Ok (Some (mkSeries (Some (target_name (self w))) (t_index t)
                         (s_values s)))
         ∧ target_name (self w') = target_name (self w)
         ∧ warnings w'
           = if decide (s_name s = Some (target_name (self w))) then warnings w
             else ("Passed data is being renamed to '"
                   +:+ format_label (target_name (self w)) +:+ "'")
                  :: warnings w).
Proof.
  split.
  - apply target_setter_list_keeps_features.
  - apply target_setter_series_keeps_features.
Qed.

Lemma target_assignment_keeps_features_witness :
  (∃ w', target_setter (TList [Int 7; Int 8]) fresh_world = (Ok (), w')
     ∧ data (self w') = data (self fresh_world)
     ∧ _data_columns (self w') = _data_columns (self fresh_world)
     ∧ target (self w')
       = Ok (Some (mkSeries (Some (target_name (self fresh_world)))
                     (t_index table_yab) [Int 7; Int 8]))
     ∧ target_name (self w') = target_name (self fresh_world)
     ∧ warnings w' = warnings fresh_world)
  ∧ (∃ w', target_setter (TSeries series_t) fresh_world = (Ok (), w')
       ∧ data (self w') = data (self fresh_world)
       ∧ _data_columns (self w') = _data_columns (self fresh_world)
       ∧ target (self w')
         = Ok (Some (mkSeries (Some (target_name (self fresh_world)))
                       (t_index table_yab) (s_values series_t)))
       ∧ target_name (self w') = target_name (self fresh_world)
       ∧ warnings w'
         = if decide (s_name series_t = Some (target_name (self fresh_world)))
           then warnings fresh_world
           else ("Passed data is being renamed to '"
                 +:+ format_label (target_name (self fresh_world)) +:+ "'")
                :: warnings fresh_world).
Proof.
  assert (NoDup (t_cols table_yab).*1) as Hnd
    by (apply (bool_decide_unpack _); vm_compute; exact I).
  split.
  - apply (proj1 target_assignment_keeps_features fresh_world table_yab
             [Int 7; Int 8] eq_refl Hnd eq_refl eq_refl).
  - apply (proj2 target_assignment_keeps_features fresh_world table_yab
             series_t eq_refl Hnd eq_refl eq_refl eq_refl).
Defined.

(** ** Taking a view out and putting it back *)

Lemma features_NoDup (tn : label) (cols : list (label * list scalar)) :
  NoDup cols.*1 → NoDup (filter (λ c, c.1 ≠ tn) cols).*1.
Proof. intros Hnd. rewrite fmap_fst_filter_ne. by apply NoDup_filter. Qed.

Lemma features_notin (tn : label) (cols : list (label * list scalar)) :
  tn ∉ (filter (λ c, c.1 ≠ tn) cols).*1.
Proof.
  rewrite fmap_fst_filter_ne, list_elem_of_filter. by intros [Hne _].
Qed.

Lemma features_nonempty T t :
  _data T = Blocks2D t → has_data T = true →
  filter (λ c, c.1 ≠ target_name T) (t_cols t) ≠ [].
Proof.
  unfold has_data, _data_columns, columns. intros Hd Hh Hnil.
  rewrite Hd in Hh. simpl in Hh. rewrite <-fmap_fst_filter_ne, Hnil in Hh.
  by apply bool_decide_eq_true in Hh; simpl in Hh; lia.
Qed.

(** X18: the target taken out and put back.  On a table with feature
    columns, their labels unique, deleting the target and then assigning
    the series that [target] had returned restores both views and the
    target name, without a warning; in the table the target column has
    moved to the front. *)
Theorem target_delete_then_assign :
  ∀ w t s,
    _data (self w) = Blocks2D t → NoDup (t_cols t).*1 →
    has_data (self w) = true → target (self w) = Ok (Some s) →
    ∃ w', (target_deleter ;; target_setter (TSeries s)) w = (Ok (), w')
      ∧ target (self w') = Ok (Some s)
      ∧ data (self w') = data (self w)
      ∧ target_name (self w') = target_name (self w)
      ∧ _data (self w')
        = Blocks2D (mkTable (t_index t)
            ((target_name (self w), s_values s)
             :: filter (λ c, c.1 ≠ target_name (self w)) (t_cols t)))
      ∧ warnings w' = warnings w.
Proof.
  intros w t s Hd Hnd Hh Hs.
  assert (has_target (self w) = true) as Ht.
  { unfold target in Hs. by destruct (has_target (self w)). }
  destruct (target_2D _ _ Hd Ht) as (cells & _ & Hs').
  rewrite Hs' in Hs. injection Hs as <-.
  set (tn := target_name (self w)) in *.
  set (F := filter (λ c, c.1 ≠ tn) (t_cols t)).
  pose proof (data_2D_NoDup _ _ Hd Hnd) as Hdata. rewrite Hh in Hdata.
  fold tn F in Hdata.
  set (w1 := with_data (Blocks2D (mkTable (t_index t) F)) w).
  assert (target_deleter w = (Ok (), w1)) as Hdel.
  { rewrite target_deleter_run, Hh, Hdata. done. }
  rewrite (bind_run _ _ _ _ _ Hdel).
  rewrite (target_setter_series_fresh_run w1 (mkTable (t_index t) F) _ tn);
    try done.
  - cbv zeta. cbn [s_index t_index]. rewrite !decide_True by done.
    eexists. split; [reflexivity|].
    set (w2 := with_data _ _).
    destruct (views_target_first (self w2) (t_index t) cells F)
      as (Hdata2 & Htarget2 & _); try done.
    + by apply features_NoDup.
    + apply features_notin.
    + by apply features_nonempty.
    + rewrite Hdata2, Htarget2, Hdata. by split_and!.
  - by apply features_NoDup.
  - by apply features_nonempty.
  - unfold has_target, columns. simpl. apply bool_decide_eq_false.
    apply features_notin.
  - apply features_notin.
Qed.

Lemma target_delete_then_assign_witness :
  ∃ w', (target_deleter ;; target_setter (TSeries series_y)) fresh_world
        = (Ok (), w')
    ∧ target (self w') = Ok (Some series_y)
    ∧ data (self w') = data (self fresh_world)
    ∧ target_name (self w') = target_name (self fresh_world)
    ∧ _data (self w')
      = Blocks2D (mkTable (t_index table_yab)
          ((target_name (self fresh_world), s_values series_y)
           :: filter (λ c, c.1 ≠ target_name (self fresh_world))
                (t_cols table_yab)))
    ∧ warnings w' = warnings fresh_world.
Proof.
  apply (target_delete_then_assign fresh_world table_yab series_y).
  - reflexivity.
  - apply (bool_decide_unpack _). vm_compute. exact I.
  - reflexivity.
  - vm_compute. reflexivity.
Defined.

(** X19: the data taken out and put back.  On a table that has a target,
    its column labels unique, deleting the data and then assigning the
    frame that [data] had returned (no column of which carries the default
    target name, so that it has no target of its own) restores both views
    and the target name. *)
Theorem data_delete_then_assign :
  ∀ w t d,
    _data (self w) = Blocks2D t → NoDup (t_cols t).*1 →
    has_target (self w) = true → data (self w) = Ok (Some d) →
    has_target d = false →
    ∃ w', (data_deleter ;; data_setter (DModelFrame d)) w = (Ok (), w')
      ∧ data (self w') = Ok (Some d)
      ∧ target (self w') = target (self w)
      ∧ target_name (self w') = target_name (self w).
Proof.
  intros w t d Hd Hnd Ht Hdata Hdt.
  destruct (data_Some_inv _ _ Hdata) as (t0 & _ & Hh).
  rewrite (data_2D_NoDup _ _ Hd Hnd), Hh in Hdata. injection Hdata as <-.
  destruct (target_2D _ _ Hd Ht) as (cells & _ & Hs).
  set (tn := target_name (self w)) in *.
  set (F := filter (λ c, c.1 ≠ tn) (t_cols t)) in *.
  set (w1 := with_data (Blocks2D (mkTable (t_index t) [(tn, cells)])) w).
  assert (data_deleter w = (Ok (), w1)) as Hdel.
  { rewrite data_deleter_run, Ht, Hs. done. }
  rewrite (bind_run _ _ _ _ _ Hdel).
  destruct (data_setter_frame_target
              (DModelFrame (_constructor (Blocks2D (mkTable (t_index t) F))))
              (mkTable (t_index t) F) w1 (mkTable (t_index t) [(tn, cells)]))
    as (w' & cells' & Hrun & Hin & Hd' & Hn' & Ht' & Hdata'); try done.
  - by intros mf [= <-].
  - unfold has_target, columns. simpl. apply bool_decide_eq_true. by left.
  - apply features_notin.
  - exists w'. split; [done|]. split_and!; try done.
    + apply Hdata'; [by apply features_NoDup|by apply features_nonempty].
    + rewrite Ht', Hs. by eapply target_first_column.
Qed.

Lemma data_delete_then_assign_witness :
  ∃ w', (data_deleter ;; data_setter (DModelFrame features_ab)) fresh_world
        = (Ok (), w')
    ∧ data (self w') = Ok (Some features_ab)
    ∧ target (self w') = target (self fresh_world)
    ∧ target_name (self w') = target_name (self fresh_world).
Proof.
  apply (data_delete_then_assign fresh_world table_yab features_ab).
  - reflexivity.
  - apply (bool_decide_unpack _). vm_compute. exact I.
  - reflexivity.
  - vm_compute. reflexivity.
  - reflexivity.
Defined.

(** ** Assigning an array as the data *)

(** The frame [pd.DataFrame(rows, index=idx)] is on [idx]. *)
Lemma DataFrame_new_on_index rows idx d :
  pd.DataFrame_new rows (Some idx) None = Ok d →
  length idx = length rows
  ∧ ∃ cols, d = Blocks2D (mkTable idx cols).
Proof.
  unfold pd.DataFrame_new. simpl.
  destruct (bool_decide (length idx = length rows)) eqn:Hlen; [|done].
  apply bool_decide_eq_true in Hlen. simpl.
  destruct (negb _); [done|]. destruct (mapM _ _); [|done].
  intros [= <-]. eauto.
Qed.

(** The setter of [data] given an array, once [self.target] was read: the
    array becomes a frame on the target's row labels, or on default ones
    when there is no target. *)
Lemma data_setter_array_run rows w s :
  target (self w) = Ok s →
  data_setter (DArray rows) w
  = match pd.DataFrame_new rows (s_index <$> s) None with
    | Raise e => (Raise e, w)
    | Ok d =>
        if bool_decide (target_name (self w) ∈ pd.columns d) then
          (Raise (ValueError
                    ("Passed data has the same column name as the target '"
                     +:+ format_label (target_name (self w)) +:+ "'")), w)
        else if has_target (self w) then
          match _concat_target (Some d) s with
          | Ok df => _update_inplace df w
          | Raise e => (Raise e, w)
          end
        else _update_inplace (IsFrame d) w
    end.
Proof.
  intros Ht. unfold data_setter. simpl.
  erewrite bind_run by reflexivity.
  erewrite bind_run by reflexivity.
  erewrite bind_run by (unfold lift; by rewrite Ht).
  assert (_maybe_convert_data (DArray rows) (target_arg_of s)
            (target_name (self w))
          = match pd.DataFrame_new rows (s_index <$> s) None with
            | Ok d => Ok (Some d, match s with
                                  | Some x => CSeries x
                                  | None => CNone
                                  end)
            | Raise e => Raise e
            end) as Hconv.
  { unfold _maybe_convert_data. destruct s as [x|]; simpl.
    - by destruct (pd.DataFrame_new rows (Some (s_index x)) None).
    - by destruct (pd.DataFrame_new rows None None). }
  destruct (pd.DataFrame_new rows (s_index <$> s) None) as [d|e].
  - erewrite bind_run by (unfold lift; by rewrite Hconv).
    cbv beta iota.
    destruct (bool_decide (target_name (self w) ∈ pd.columns d)); [done|].
    destruct (has_target (self w)); [|done].
    erewrite bind_run by (unfold lift; by rewrite Ht).
    unfold mbind, M_bind, lift. by destruct (_concat_target (Some d) s).
  - apply bind_run_raise. unfold lift. by rewrite Hconv.
Qed.

(** X20: assigning a two-dimensional array as the data of a table that has
    a target, its column labels unique.  The array becomes a frame on the target's row labels, with
    default column labels: when its number of rows is not the table's, the
    assignment raises a value error and leaves the instance as it was;
    otherwise, no new column carrying the target name, the table becomes
    the target column followed by the array's columns, and the target and
    its name are as they were. *)
Theorem data_setter_array :
  (∀ rows w t, _data (self w) = Blocks2D t → NoDup (t_cols t).*1 →
     has_target (self w) = true →
     length rows ≠ length (t_index t) →
     ∃ msg, data_setter (DArray rows) w = (Raise (ValueError msg), w))
  ∧ (∀ rows w t d, _data (self w) = Blocks2D t → NoDup (t_cols t).*1 →
       has_target (self w) = true →
       pd.DataFrame_new rows (Some (t_index t)) None = Ok d →
       target_name (self w) ∉ pd.columns d →
       ∃ w' cells cols, data_setter (DArray rows) w = (Ok (), w')
         ∧ d = Blocks2D (mkTable (t_index t) cols)
         ∧ (target_name (self w), cells) ∈ t_cols t
         ∧ _data (self w')
           = Blocks2D (mkTable (t_index t)
               ((target_name (self w), cells) :: cols))
         ∧ target_name (self w') = target_name (self w)
         ∧ target (self w') = target (self w)).
Proof.
  split.
  - intros rows w t Hd _ Ht Hlen.
    destruct (target_2D _ _ Hd Ht) as (cells & _ & Hs).
    rewrite (data_setter_array_run rows w _ Hs). simpl.
    unfold pd.DataFrame_new. simpl.
    rewrite bool_decide_eq_false_2 by congruence. simpl. eauto.
  - intros rows w t d Hd _ Ht Hnew Hn.
    destruct (target_2D _ _ Hd Ht) as (cells & Hin & Hs).
    rewrite (data_setter_array_run rows w _ Hs). simpl. rewrite Hnew.
    rewrite bool_decide_eq_false_2 by done. rewrite Ht.
    destruct (DataFrame_new_on_index _ _ _ Hnew) as (_ & cols & ->).
    rewrite _concat_target_2D. simpl. rewrite !decide_True by done. simpl.
    eexists. exists cells, cols. split; [reflexivity|].
    split_and!; try done.
    rewrite Hs. by eapply target_first_column.
Qed.

Lemma data_setter_array_witness :
  (∃ msg, data_setter (DArray [[Int 1; Int 3]]) fresh_world
          = (Raise (ValueError msg), fresh_world))
  ∧ (∃ w' cells cols, data_setter (DArray X_ab) fresh_world = (Ok (), w')
       ∧ Blocks2D (mkTable rows01
           [(Int 0, [Int 1; Int 2]); (Int 1, [Int 3; Int 4])])
         = Blocks2D (mkTable (t_index table_yab) cols)
       ∧ (target_name (self fresh_world), cells) ∈ t_cols table_yab
       ∧ _data (self w')
         = Blocks2D (mkTable (t_index table_yab)
             ((target_name (self fresh_world), cells) :: cols))
       ∧ target_name (self w') = target_name (self fresh_world)
       ∧ target (self w') = target (self fresh_world)).
Proof.
  split.
  - apply (proj1 data_setter_array [[Int 1; Int 3]] fresh_world table_yab).
    + reflexivity.
    + apply (bool_decide_unpack _). vm_compute. exact I.
    + reflexivity.
    + simpl. lia.
  - apply (proj2 data_setter_array X_ab fresh_world table_yab).
    + reflexivity.
    + apply (bool_decide_unpack _). vm_compute. exact I.
    + reflexivity.
    + vm_compute. reflexivity.
    + apply (bool_decide_eq_false_1 (Str "y" ∈ [Int 0; Int 1])).
      vm_compute. reflexivity.
Defined.

(** ** Operations that leave a table a table *)

Lemma DataFrame_new_2D rows index columns d :
  pd.DataFrame_new rows index columns = Ok d → ∃ t, d = Blocks2D t.
Proof.
  unfold pd.DataFrame_new. destruct (negb _); [done|].
  destruct (negb _); [done|]. destruct (mapM _ _); [|done].
  intros [= <-]. eauto.
Qed.

Lemma _concat_target_table t s df :
  _concat_target (Some (Blocks2D t)) s = Ok df →
  ∃ t', df = IsFrame (Blocks2D t').
Proof.
  destruct s as [s|].
  - rewrite _concat_target_2D.
    destruct (decide _); [|done]. destruct (decide _); [|done].
    intros [= <-]. eauto.
  - unfold _concat_target. intros [= <-]. eauto.
Qed.

(** X22: a table stays a table.  On an instance that is a two-dimensional
    table, every assignment to and deletion of [data] and [target] and
    every assignment to [target_name], whether it returns or raises, leaves
    a two-dimensional table, provided that a frame assigned as data is one
    and that a list-like target is assigned to a table with feature
    columns: for a list, one that has data; for a series, one with a column
    that carries neither the target name nor the series' name.  The
    assignment left out is the one on a table without feature columns. *)
Theorem table_operations_keep_table :
  ∀ op w t,
    _data (self w) = Blocks2D t →
    (∀ v d, op = SetData v → as_DataFrame v = Some d → ∃ t', d = Blocks2D t') →
    (∀ vs, op = SetTarget (TList vs) → has_data (self w) = true) →
    (∀ s, op = SetTarget (TSeries s) →
       ∃ l, l ∈ columns (self w) ∧ l ≠ target_name (self w)
            ∧ s_name s ≠ Some l) →
    ∃ t', _data (self (run op w).2) = Blocks2D t'.
Proof.
  intros op w t Hd Hframe Hlist Hseries.
  assert (∃ t', _data (self (data_deleter w).2) = Blocks2D t') as Hdd.
  { rewrite data_deleter_run. destruct (has_target (self w)); [|eauto].
    destruct (target (self w)) as [[s|]|e]; simpl; eauto. }
  assert (∃ t', _data (self (target_deleter w).2) = Blocks2D t') as Htd.
  { rewrite target_deleter_run. destruct (has_data (self w)) eqn:Hh; [|eauto].
    rewrite (data_2D _ _ Hd), Hh. simpl. eauto. }
  destruct (target_2D_total _ _ Hd) as [s0 Hs0].
  assert (∀ w0 t' s, _data (self w0) = Blocks2D t → ∃ t'',
            _data (self (match _concat_target (Some (Blocks2D t')) s with
                         | Ok df => _update_inplace df w0
                         | Raise e => (Raise e, w0)
                         end).2) = Blocks2D t'') as Hconcat.
  { intros w0 t' s Hd0.
    destruct (_concat_target _ _) as [df|e] eqn:Hc; [|eauto].
    destruct (_concat_target_table _ _ _ Hc) as [t'' ->]. simpl. eauto. }
  destruct op as [v| |v| |v]; simpl; try done.
  - destruct v as [|rows|d|mf].
    + done.
    + rewrite (data_setter_array_run rows w _ Hs0).
      destruct (pd.DataFrame_new _ _ _) as [d|e] eqn:Hnew; [|eauto].
      destruct (DataFrame_new_2D _ _ _ _ Hnew) as [t' ->].
      destruct (bool_decide _); [eauto|].
      destruct (has_target (self w)); [by apply Hconcat|simpl; eauto].
    + destruct (Hframe _ d eq_refl eq_refl) as [t' ->].
      rewrite (data_setter_frame_run (DDataFrame (Blocks2D t')) (Blocks2D t')
                 w s0); [|done|by intros mf [=]|done].
      destruct (bool_decide _); [eauto|].
      destruct (has_target (self w)); [by apply Hconcat|simpl; eauto].
    + destruct (Hframe _ _ eq_refl eq_refl) as [t' Ht'].
      destruct (has_target mf) eqn:Hmf.
      * unfold data_setter. simpl. rewrite Hmf.
        erewrite bind_run_raise by reflexivity. eauto.
      * rewrite (data_setter_frame_run (DModelFrame mf) (_data mf) w s0);
          [|done|by intros mf' [= <-]|done].
        rewrite Ht'. destruct (bool_decide _); [eauto|].
        destruct (has_target (self w)); [by apply Hconcat|simpl; eauto].
  - destruct v as [|l|vs|s].
    + done.
    + unfold target_setter. erewrite bind_run by reflexivity.
      destruct (bool_decide _); simpl; eauto.
    + specialize (Hlist vs eq_refl).
      pose proof (data_2D _ _ Hd) as Hdata. rewrite Hlist in Hdata.
      unfold target_setter, mbind, M_bind, lift, get_self.
      rewrite Hdata. cbv beta iota.
      destruct (_maybe_convert_data _ _ _) as [[d' tg]|e]; [|eauto].
      cbn [fmap option_fmap option_map _constructor _data].
      by apply Hconcat.
    + destruct (Hseries s eq_refl) as (l & Hl & Hne & Hname).
      unfold columns in Hl. rewrite Hd in Hl. simpl in Hl.
      apply list_elem_of_fmap in Hl as (c & -> & Hc).
      assert (∀ T1, _data T1 = Blocks2D t → c.1 ≠ target_name T1 →
                ∃ t1, data T1 = Ok (Some (_constructor (Blocks2D t1))))
        as Hview.
      { intros T1 Hd1 Hne1.
        rewrite (data_2D _ _ Hd1), (has_data_intro _ _ _ Hd1 Hc Hne1). eauto. }
      destruct (Hview (self w) Hd Hne) as [t1 Hdata].
      unfold target_setter, mbind, M_bind, lift, get_self, mret, M_ret, warn,
        target_name_setter, modify_self.
      cbv beta iota.
      destruct (has_target (self w)); destruct (s_name s) as [n|] eqn:Hn;
        cbn [negb]; cbv beta iota; cbn [self].
      3:{ destruct (Hview (mkModelFrame (_data (self w)) n (_estimator (self w))
                             (_predicted (self w)) (_proba (self w))
                             (_log_proba (self w)) (_decision (self w))) Hd)
            as [t2 Hdata2].
          { intros Heq. apply Hname. unfold target_name in Heq. simpl in Heq.
            congruence. }
          destruct (bool_decide _); cbv beta iota; rewrite Hdata2;
            cbn [fmap option_fmap option_map _constructor _data];
            by apply Hconcat. }
      all: destruct (bool_decide _); cbv beta iota; rewrite Hdata;
        cbn [fmap option_fmap option_map _constructor _data];
        by apply Hconcat.
  - eauto.
Qed.

Lemma table_operations_keep_table_witness :
  (∃ t', _data (self (run (SetTarget (TSeries series_t)) fresh_world).2)
         = Blocks2D t')
  ∧ (∃ t', _data (self (run (SetTarget (TList [Int 7])) fresh_world).2)
           = Blocks2D t')
  ∧ (∃ t', _data (self (run (SetData (DModelFrame frame_cd)) fresh_world).2)
           = Blocks2D t').
Proof.
  split; [|split].
  - apply (table_operations_keep_table (SetTarget (TSeries series_t))
             fresh_world table_yab eq_refl).
    + intros v d [=].
    + intros vs [=].
    + intros s [= <-]. exists (Str "a"). split; [|split; discriminate].
      apply (bool_decide_unpack _). vm_compute. exact I.
  - apply (table_operations_keep_table (SetTarget (TList [Int 7]))
             fresh_world table_yab eq_refl).
    + intros v d [=].
    + intros vs _. reflexivity.
    + intros s [=].
  - apply (table_operations_keep_table (SetData (DModelFrame frame_cd))
             fresh_world table_yab eq_refl).
    + intros v d [= <-] [= <-]. eexists. reflexivity.
    + intros vs [=].
    + intros s [=].
Defined.
